(** * Chronos: harmonic-regression forecaster (src/chronos.py)

    A shallow embedding of the [Chronos] class.  Conventions:

    - a pandas [DataFrame] is an ordered association list of named columns,
      with the default [RangeIndex] (rows are positions);
    - a cell is a nanosecond time stamp ([datetime64[ns]]), an integer, a
      float or a missing value ([NaN], which is [NaT] in a datetime
      column); the arithmetic on features and coefficients is idealised as
      arithmetic over [R], posterior samples are rationals (they have to be
      sorted), and the rounding of a tensor to float32 is left to the
      oracles that take the tensor;
    - the two ranks of [predict] are computed in binary64 as the code
      computes them (module [Float]), because rounding decides whether
      [kthvalue] accepts them;
    - Python exceptions are values of [exn]; every method runs in a monad
      that threads the object store (frames live on a heap and are mutated
      through references), the instance's attributes and pyro's
      process-wide parameter store;
    - the stochastic parts (the SVI optimiser and [Predictive]) are
      outcomes handed to the model from outside; either may raise;
    - what pandas does with a time column that holds no time stamp at all
      in [make_future_dataframe] (it parses the text of the maximum) is
      outside the model and marked [Unmodelled];
    - [print] calls and the plotting methods are left out. *)

From Stdlib Require Import ZArith QArith Qround Qpower Qabs Qreals Reals Lia Psatz.
From Stdlib Require Import String Ascii List DecimalString DecimalZ DecimalPos FinFun.
From Stdlib Require Import Sorting.Sorted.
From stdpp Require Import base list gmap strings.
Import ListNotations.

Set Default Proof Using "Type".
Open Scope Z_scope.

(* ================================================================== *)
(** ** Exceptions and results *)

Inductive exn : Type :=
  | KeyError (key : string)
  | AttributeError (attr : string)
  | ValueError (msg : string)
  | TypeError (msg : string)
  | IndexError (msg : string)
  | RuntimeError (msg : string)
  | NameError (name : string)
  | ZeroDivisionError
  | OverflowError (msg : string)
  | OutOfBoundsDatetime (msg : string)   (* pandas; a [ValueError] *)
  | NotImplementedError (msg : string)
  | Unmodelled (what : string).          (* behaviour outside this model *)

Inductive result (A : Type) : Type :=
  | Ok (a : A)
  | Raise (e : exn).
Arguments Ok {A} a.
Arguments Raise {A} e.

Definition rbind {A B} (r : result A) (k : A -> result B) : result B :=
  match r with
  | Ok a => k a
  | Raise e => Raise e
  end.

Fixpoint rmapM {A B} (g : A -> result B) (l : list A) : result (list B) :=
  match l with
  | [] => Ok []
  | a :: l' => rbind (g a) (fun b => rbind (rmapM g l') (fun bs => Ok (b :: bs)))
  end.

(** [range a b] is Python's [range(a, b)]. *)
Definition range (a b : Z) : list Z :=
  List.map (fun k => a + Z.of_nat k) (seq 0 (Z.to_nat (b - a))).

(** [f"{i}"] for an integer. *)
Definition str_int (i : Z) : string := NilZero.string_of_int (Z.to_int i).

(** Python's [pat in s] on strings. *)
Definition str_in (pat s : string) : bool :=
  match String.index 0 pat s with
  | Some _ => true
  | None => false
  end.

(* ================================================================== *)
(** ** Calendar fields of a time stamp ([Series.dt]) *)

Module Calendar.

Definition ns_per_day : Z := 1000000000 * 60 * 60 * 24.

(** Days since 1970-01-01 of a nanosecond time stamp. *)
Definition days_of_ns (ns : Z) : Z := ns / ns_per_day.

(** Proleptic Gregorian (year, month, day) of a day number. *)
Definition civil_of_days (days : Z) : Z * Z * Z :=
  let z := days + 719468 in
  let era := z / 146097 in
  let doe := z - era * 146097 in
  let yoe := (doe - doe / 1460 + doe / 36524 - doe / 146096) / 365 in
  let y := yoe + era * 400 in
  let doy := doe - (365 * yoe + yoe / 4 - yoe / 100) in
  let mp := (5 * doy + 2) / 153 in
  let d := doy - (153 * mp + 2) / 5 + 1 in
  let m := if mp <? 10 then mp + 3 else mp - 9 in
  (if m <=? 2 then y + 1 else y, m, d).

Definition days_of_civil (y m d : Z) : Z :=
  let y' := if m <=? 2 then y - 1 else y in
  let era := y' / 400 in
  let yoe := y' - era * 400 in
  let doy := (153 * (if 2 <? m then m - 3 else m + 9) + 2) / 5 + d - 1 in
  let doe := yoe * 365 + yoe / 4 - yoe / 100 + doy in
  era * 146097 + doe - 719468.

(** [.dt.dayofweek]: Monday is 0. *)
Definition dayofweek (ns : Z) : Z := (days_of_ns ns + 3) mod 7.

(** [.dt.day]: day of the month, from 1. *)
Definition day (ns : Z) : Z :=
  let '(_, _, d) := civil_of_days (days_of_ns ns) in d.

(** [.dt.dayofyear]: from 1. *)
Definition dayofyear (ns : Z) : Z :=
  let '(y, _, _) := civil_of_days (days_of_ns ns) in
  days_of_ns ns - days_of_civil y 1 1 + 1.

End Calendar.

(* ================================================================== *)
(** ** Cells, columns and frames *)

Inductive cell : Type :=
  | Stamp (ns : Z)      (* datetime64[ns] *)
  | Int (z : Z)
  | Num (x : R)
  | NaN.

Definition column := list cell.
Definition frame := list (string * column).

Definition names (f : frame) : list string := List.map fst f.

Definition has_name (n : string) (l : list string) : bool :=
  existsb (String.eqb n) l.

Fixpoint lookup_col (name : string) (f : frame) : option column :=
  match f with
  | [] => None
  | (n, c) :: f' => if String.eqb n name then Some c else lookup_col name f'
  end.

(** [len(df)], for a frame with at least one column. *)
Definition nrows (f : frame) : nat :=
  match f with
  | [] => O
  | (_, c) :: _ => length c
  end.

(** Every column has the frame's row count. *)
Definition rectangular (f : frame) : Prop :=
  Forall (fun nc => length (snd nc) = nrows f) f.

(** [df[name]]. *)
Definition getitem (f : frame) (name : string) : result column :=
  match lookup_col name f with
  | Some c => Ok c
  | None => Raise (KeyError name)
  end.

(** [df[name] = col]: overwrite the column in place, or append it. *)
Fixpoint setitem (f : frame) (name : string) (col : column) : frame :=
  match f with
  | [] => [(name, col)]
  | (n, c) :: f' =>
      if String.eqb n name then (n, col) :: f' else (n, c) :: setitem f' name col
  end.

(** [df.insert(0, name, scalar)]: refuses a name that is there already. *)
Definition insert_front (f : frame) (name : string) (v : cell) : result frame :=
  if has_name name (names f)
  then Raise (ValueError ("cannot insert " ++ name ++ ", already exists"))
  else Ok ((name, repeat v (nrows f)) :: f).

(** [df.drop(labels, axis=1)]: every label has to be a column. *)
Definition drop (f : frame) (labels : list string) : result frame :=
  match List.find (fun l => negb (has_name l (names f))) labels with
  | Some l => Raise (KeyError l)
  | None => Ok (List.filter (fun nc => negb (has_name (fst nc) labels)) f)
  end.

(** [df[[n1; n2; ...]]]. *)
Definition select (f : frame) (labels : list string) : result frame :=
  rmapM (fun l => rbind (getitem f l) (fun c => Ok (l, c))) labels.

Definition is_stamp (x : cell) : bool :=
  match x with Stamp _ => true | _ => false end.

(** A column that pandas holds as [datetime64[ns]]: time stamps, with
    [NaT] where a value is missing. A column of missing values only is a
    float column; a column without rows is taken as a datetime column. *)
Definition datetimelike (c : column) : bool :=
  forallb (fun x => match x with Stamp _ | NaN => true | _ => false end) c
  && (existsb is_stamp c || Nat.eqb (length c) 0).

(** The [.dt] accessor needs a datetime column; [None] is [NaT]. *)
Definition dt_values (c : column) : result (list (option Z)) :=
  if datetimelike c
  then Ok (List.map (fun x => match x with Stamp ns => Some ns | _ => None end) c)
  else Raise (AttributeError "dt").

(** A calendar field [g] of [.dt]: an integer column, or a float column
    with [NaN] at every [NaT] when there is one. *)
Definition dt_field (g : Z -> Z) (vs : list (option Z)) : column :=
  if forallb (fun v => match v with Some _ => true | None => false end) vs
  then List.map (fun v => match v with Some ns => Int (g ns) | None => NaN end) vs
  else List.map (fun v => match v with Some ns => Num (IZR (g ns)) | None => NaN end) vs.

(** The time stamps of a column, in order. *)
Definition stamps (c : column) : list Z :=
  flat_map (fun x => match x with Stamp ns => [ns] | _ => [] end) c.

(** Elementwise float arithmetic; a time stamp is not a number. *)
Definition arith (op : R -> R) (x : cell) : result cell :=
  match x with
  | Int z => Ok (Num (op (IZR z)))
  | Num v => Ok (Num (op v))
  | NaN => Ok NaN
  | Stamp _ => Raise (TypeError "datetime64 operand")
  end.

(** [col.values.astype(float)]: a time stamp becomes its nanosecond count. *)
Definition astype_float (x : cell) : cell :=
  match x with
  | Stamp ns => Num (IZR ns)
  | Int z => Num (IZR z)
  | Num v => Num v
  | NaN => NaN
  end.

(** The same for the values of a datetime column, where the missing value
    is [NaT], stored as the smallest [int64]. *)
Definition datetime_astype_float (x : cell) : cell :=
  match x with
  | NaN => Num (IZR (- 2 ^ 63))
  | _ => astype_float x
  end.

Definition np_sin (c : column) : result column := rmapM (arith sin) c.
Definition np_cos (c : column) : result column := rmapM (arith cos) c.

(** [i*2*math.pi*col/period]. *)
Definition cycle_position (i : Z) (col : column) (period : R) : result column :=
  rmapM (arith (fun v => (IZR (i * 2) * PI * v / period)%R)) col.

(* ================================================================== *)
(** ** Monads: results, one frame updated in place, the whole program *)

Class Monad (T : Type -> Type) : Type := {
  ret : forall {A}, A -> T A;
  bind : forall {A B}, T A -> (A -> T B) -> T B
}.

Declare Scope monad_scope.
Delimit Scope monad_scope with monad.
Notation "'let*' x ':=' m 'in' k" := (bind m (fun x => k))
  (at level 10, x name, m at level 100, k at level 200) : monad_scope.
Notation "m '>>' k" := (bind m (fun _ => k))
  (at level 90, right associativity) : monad_scope.
Open Scope monad_scope.

#[global] Instance result_monad : Monad result :=
  {| ret := @Ok; bind := @rbind |}.

(** Python's [for x in l: body]. *)
Fixpoint for_ {T} `{Monad T} {A} (l : list A) (body : A -> T unit) : T unit :=
  match l with
  | [] => ret tt
  | x :: l' => body x >> for_ l' body
  end.

(** A computation on one frame, the receiver of the statements; what was
    written before an exception stays written. *)
Definition F (A : Type) : Type := frame -> result A * frame.

#[global] Instance F_monad : Monad F :=
  {| ret := fun A a f => (Ok a, f);
     bind := fun A B m k f =>
       match m f with
       | (Ok a, f') => k a f'
       | (Raise e, f') => (Raise e, f')
       end |}.

Module OnFrame.
Definition lift {A} (r : result A) : F A := fun f => (r, f).
Definition getitem (name : string) : F column := fun f => (getitem f name, f).
Definition setitem (name : string) (col : column) : F unit :=
  fun f => (Ok tt, setitem f name col).
Definition insert_front (name : string) (v : cell) : F unit :=
  fun f => match insert_front f name v with
           | Ok f' => (Ok tt, f')
           | Raise e => (Raise e, f)
           end.
End OnFrame.

(** *** The instance *)

Inductive model_fn : Type := model_MLE_ | model_MAP_.
Inductive guide_fn : Type := guide_MLE_ | AutoDelta (m : model_fn).

Definition ref := nat.

Record Chronos : Type := {
  method_ : string;
  n_iter_ : Z;
  lr_ : Q;
  year_seasonality_order_ : Z;
  weekly_seasonality_order_ : Z;
  month_seasonality_order_ : Z;
  time_col_ : string;
  target_col_ : string;
  (* attributes that exist only once [fit] has set them *)
  history : option ref;
  X_names : option (list string);
  model : option model_fn;
  guide : option guide_fn
}.

(** [Chronos.__init__]. *)
Definition init (method time_col target_col : string)
    (year_seasonality_order month_seasonality_order weekly_seasonality_order : Z)
    (learning_rate : Q) (max_iter : Z) : Chronos :=
  {| method_ := method; n_iter_ := max_iter; lr_ := learning_rate;
     year_seasonality_order_ := year_seasonality_order;
     weekly_seasonality_order_ := weekly_seasonality_order;
     month_seasonality_order_ := month_seasonality_order;
     time_col_ := time_col; target_col_ := target_col;
     history := None; X_names := None; model := None; guide := None |}.

(** [Chronos()] with the default arguments. *)
Definition default : Chronos := init "MLE" "ds" "y" 10 5 3 (1 # 100) 1000.

(** Reading a string-valued attribute by name; [__init__] creates
    [method_], [time_col_] and [target_col_] and no other. *)
Definition getattr_str (self : Chronos) (name : string) : result string :=
  if String.eqb name "method_" then Ok (method_ self)
  else if String.eqb name "time_col_" then Ok (time_col_ self)
  else if String.eqb name "target_col_" then Ok (target_col_ self)
  else Raise (AttributeError name).

Definition getattr_opt {A} (name : string) (a : option A) : result A :=
  match a with
  | Some x => Ok x
  | None => Raise (AttributeError name)
  end.

(** *** The state a method runs in *)

Record world : Type := {
  frames : list frame;                 (* the pandas objects, by reference *)
  inst : Chronos;                      (* [self.__dict__] *)
  param_store : gmap string (list R)   (* pyro's global parameter store *)
}.

Definition set_frames (fs : list frame) (w : world) : world :=
  {| frames := fs; inst := inst w; param_store := param_store w |}.
Definition set_inst (s : Chronos) (w : world) : world :=
  {| frames := frames w; inst := s; param_store := param_store w |}.
Definition set_param_store (p : gmap string (list R)) (w : world) : world :=
  {| frames := frames w; inst := inst w; param_store := p |}.

Definition M (A : Type) : Type := world -> result A * world.

#[global] Instance M_monad : Monad M :=
  {| ret := fun A a w => (Ok a, w);
     bind := fun A B m k w =>
       match m w with
       | (Ok a, w') => k a w'
       | (Raise e, w') => (Raise e, w')
       end |}.

Definition lift {A} (r : result A) : M A := fun w => (r, w).
Definition raise {A} (e : exn) : M A := lift (Raise e).
Definition get_self : M Chronos := fun w => (Ok (inst w), w).
Definition update_self (upd : Chronos -> Chronos) : M unit :=
  fun w => (Ok tt, set_inst (upd (inst w)) w).

(** A new object; its reference is the next free slot. *)
Definition alloc (f : frame) : M ref :=
  fun w => (Ok (length (frames w)), set_frames (frames w ++ [f]) w).

Definition deref (r : ref) : M frame :=
  fun w => match frames w !! r with
           | Some f => (Ok f, w)
           | None => (Raise (RuntimeError "dangling reference"), w)
           end.

(** Run statements whose receiver is the object [r]: it is updated in
    place, so every alias of [r] sees the change. *)
Definition on {A} (r : ref) (c : F A) : M A :=
  fun w => match frames w !! r with
           | Some f => let (res, f') := c f in
                       (res, set_frames (<[r := f']> (frames w)) w)
           | None => (Raise (RuntimeError "dangling reference"), w)
           end.

(** [df.copy()], [df[name]], [df.drop(labels, axis=1)]. *)
Definition df_copy (r : ref) : M ref := let* f := deref r in alloc f.
Definition df_getitem (r : ref) (name : string) : M column :=
  on r (OnFrame.getitem name).
Definition df_drop (r : ref) (labels : list string) : M ref :=
  let* f := deref r in
  let* f' := lift (drop f labels) in
  alloc f'.

(* ================================================================== *)
(** ** [transform_data_] *)

(** One pass of a seasonality loop, for harmonic order [i]. *)
Definition harmonic (tag : string) (dayname : string) (period : R) (i : Z) : F unit :=
  let* d := OnFrame.getitem dayname in
  let* cycle_position := OnFrame.lift (cycle_position i d period) in
  let* s := OnFrame.lift (np_sin cycle_position) in
  OnFrame.setitem (tag ++ "_sin_" ++ str_int i) s >>
  let* c := OnFrame.lift (np_cos cycle_position) in
  OnFrame.setitem (tag ++ "_cos_" ++ str_int i) c.

(** The statements of [transform_data_] between the copy and the drop;
    their receiver is [internal_data]. *)
Definition add_features (self : Chronos) : F unit :=
  let* t := OnFrame.getitem (time_col_ self) in
  let* ns := OnFrame.lift (dt_values t) in
  OnFrame.setitem "weekday" (dt_field Calendar.dayofweek ns) >>
  let* t := OnFrame.getitem (time_col_ self) in
  let* ns := OnFrame.lift (dt_values t) in
  OnFrame.setitem "monthday" (dt_field (fun n => Calendar.day n - 1) ns) >>
  let* t := OnFrame.getitem (time_col_ self) in
  let* ns := OnFrame.lift (dt_values t) in
  OnFrame.setitem "yearday" (dt_field (fun n => Calendar.dayofyear n - 1) ns) >>
  let* t := OnFrame.getitem (time_col_ self) in
  let* days := OnFrame.lift
      (rmapM (arith (fun v => (v / (1e9 * 60 * 60 * 24))%R))
             (List.map datetime_astype_float t)) in
  OnFrame.setitem (time_col_ self) days >>
  (* Yearly seasonality *)
  for_ (range 1 (year_seasonality_order_ self + 1))
       (harmonic "yearly" "yearday" 366) >>
  (* Monthly seasonality *)
  for_ (range 1 (month_seasonality_order_ self + 1))
       (harmonic "monthly" "monthday" 31) >>
  (* Weekly seasonality *)
  for_ (range 1 (weekly_seasonality_order_ self + 1))
       (harmonic "weekly" "weekday" 7) >>
  (* Add a constant so we can train a simple vector of coefficients *)
  OnFrame.insert_front "CONST" (Num 1).

Definition transform_data_ (data : ref) : M ref :=
  let* self := get_self in
  let* internal_data := df_copy data in
  on internal_data (add_features self) >>
  df_drop internal_data ["weekday"; "monthday"; "yearday"].

(* ================================================================== *)
(** ** [fit] *)

(** [torch.tensor(values, dtype=torch.float32)]: a tensor is given by the
    numbers it is built from; what their rounding to float32 changes is
    part of what the oracles below do with the tensor. *)
Definition torch_tensor (c : column) : result column := rmapM (arith (fun v => v)) c.

(** [df.values], column by column, and [df.columns.values]. *)
Definition df_values (r : ref) : M (list column) :=
  let* f := deref r in ret (List.map snd f).
Definition df_columns (r : ref) : M (list string) :=
  let* f := deref r in ret (names f).

(** What the calls of [self.svi_.step(X, y)] in the training loop do, for
    a model, a guide, the design matrix and the target: whether they all
    complete or one of them raises (with validation enabled, line 27, a
    target that holds [NaN] is rejected at the first step), and what they
    leave in the parameter store. *)
Definition svi_outcome : Type :=
  model_fn -> guide_fn -> list column -> column -> result unit * gmap string (list R).

(** [pyro.clear_param_store()], and the store as the optimiser leaves it. *)
Definition clear_param_store : M unit :=
  fun w => (Ok tt, set_param_store ∅ w).
Definition store_params (p : gmap string (list R)) : M unit :=
  fun w => (Ok tt, set_param_store p w).

Definition train_point_estimate (optimise : svi_outcome)
    (m : model_fn) (g : guide_fn) (X : list column) (y : column) : M unit :=
  let* self := get_self in
  clear_param_store >>
  if n_iter_ self <=? 0
  then (* the loop never ran: [step] is unbound in [100*(step+1)] *)
    raise (NameError "step")
  else
    store_params (snd (optimise m g X y)) >>
    lift (fst (optimise m g X y)) >>
    if Nat.eqb (length y) 0
    then (* [self.svi_.step(X, y)/y.shape[0]], once the first step returned *)
      raise ZeroDivisionError
    else ret tt.

Definition with_history (h : ref) (s : Chronos) : Chronos :=
  {| method_ := method_ s; n_iter_ := n_iter_ s; lr_ := lr_ s;
     year_seasonality_order_ := year_seasonality_order_ s;
     weekly_seasonality_order_ := weekly_seasonality_order_ s;
     month_seasonality_order_ := month_seasonality_order_ s;
     time_col_ := time_col_ s; target_col_ := target_col_ s;
     history := Some h; X_names := X_names s; model := model s; guide := guide s |}.

Definition with_X_names (l : list string) (s : Chronos) : Chronos :=
  {| method_ := method_ s; n_iter_ := n_iter_ s; lr_ := lr_ s;
     year_seasonality_order_ := year_seasonality_order_ s;
     weekly_seasonality_order_ := weekly_seasonality_order_ s;
     month_seasonality_order_ := month_seasonality_order_ s;
     time_col_ := time_col_ s; target_col_ := target_col_ s;
     history := history s; X_names := Some l; model := model s; guide := guide s |}.

Definition with_model (m : model_fn) (g : guide_fn) (s : Chronos) : Chronos :=
  {| method_ := method_ s; n_iter_ := n_iter_ s; lr_ := lr_ s;
     year_seasonality_order_ := year_seasonality_order_ s;
     weekly_seasonality_order_ := weekly_seasonality_order_ s;
     month_seasonality_order_ := month_seasonality_order_ s;
     time_col_ := time_col_ s; target_col_ := target_col_ s;
     history := history s; X_names := X_names s; model := Some m; guide := Some g |}.

Definition fit (optimise : svi_outcome) (data : ref) : M unit :=
  (* Make a copy of the history *)
  let* h := df_copy data in
  update_self (with_history h) >>
  (* Transform the data by adding seasonality *)
  let* internal_data := transform_data_ data in
  let* self := get_self in
  let* ycol := df_getitem internal_data (target_col_ self) in
  let* y := lift (torch_tensor ycol) in
  let* internal_data := df_drop internal_data [target_col_ self] in
  let* values := df_values internal_data in
  let* X := lift (rmapM torch_tensor values) in
  let* columns := df_columns internal_data in
  update_self (with_X_names columns) >>
  let* self := get_self in
  if has_name (method_ self) ["MLE"; "MAP"] then
    (if String.eqb (method_ self) "MLE"
     then update_self (with_model model_MLE_ guide_MLE_)
     else if String.eqb (method_ self) "MAP"
     then update_self (with_model model_MAP_ (AutoDelta model_MAP_))
     else ret tt) >>
    let* self := get_self in
    let* m := lift (getattr_opt "model" (model self)) in
    let* g := lift (getattr_opt "guide" (guide self)) in
    train_point_estimate optimise m g X y
  else
    (* [elif (self.method == "MCMC")]: the attribute is [method_] *)
    let* method := lift (getattr_str self "method") in
    if String.eqb method "MCMC" then ret tt else ret tt.

(* ================================================================== *)
(** ** Python floats (IEEE 754 binary64) *)

(** [int(q)]: towards zero. *)
Definition int_of_Q (q : Q) : Z :=
  if Qle_bool 0 q then Qfloor q else Qceiling q.

Module Float.

(** The nearest integer, ties to even. *)
Definition round_half_even (q : Q) : Z :=
  let f := Qfloor q in
  match (q - inject_Z f ?= 1 # 2)%Q with
  | Lt => f
  | Gt => f + 1
  | Eq => if Z.even f then f else f + 1
  end.

(** The exponent [e] with [2^e <= q < 2^(e+1)], for [q > 0]. *)
Definition binade (q : Q) : Z :=
  let e0 := Z.log2 (Qnum q) - Z.log2 (Zpos (Qden q)) in
  if Qle_bool (2 ^ e0) q then e0 else e0 - 1.

(** Rounding to the multiples of [2^e]. *)
Definition on_grid (e : Z) (q : Q) : Q :=
  (inject_Z (round_half_even (q / 2 ^ e)) * 2 ^ e)%Q.

(** The nearest number with [prec] significant bits and an exponent of at
    least [emin] (below, the numbers are subnormal), ties to even; the
    largest exponent is checked afterwards. *)
Definition round (prec emin : Z) (q : Q) : Q :=
  match (q ?= 0)%Q with
  | Eq => 0%Q
  | Gt => on_grid (Z.max (binade q - (prec - 1)) emin) q
  | Lt => (- on_grid (Z.max (binade (- q) - (prec - 1)) emin) (- q))%Q
  end.

Definition float64 : Q -> Q := round 53 (-1074).

(** [sys.float_info.max]. *)
Definition float64_max : Q := (inject_Z (2 ^ 53 - 1) * 2 ^ 971)%Q.

(** A Python float; the sign of a zero is not kept. *)
Inductive float : Type :=
  | Finite (q : Q)
  | Infinity (negative : bool)
  | NotANumber.

Definition negative (q : Q) : bool := negb (Qle_bool 0 q).

(** The float of an exact result: rounded, infinite beyond the largest
    finite float. Also the float that a decimal literal denotes. *)
Definition of_Q (q : Q) : float :=
  let r := float64 q in
  if Qle_bool (Qabs r) float64_max then Finite r else Infinity (negative r).

(** [float(n)] for a Python integer, as [n * x] does it. *)
Definition of_int (n : Z) : result float :=
  match of_Q (inject_Z n) with
  | Infinity _ => Raise (OverflowError "int too large to convert to float")
  | x => Ok x
  end.

(** [a - b]. *)
Definition sub (a b : float) : float :=
  match a, b with
  | Finite x, Finite y => of_Q (x - y)
  | Finite _, Infinity s => Infinity (negb s)
  | Infinity s, Finite _ => Infinity s
  | Infinity s, Infinity t => if Bool.eqb s t then NotANumber else Infinity s
  | _, _ => NotANumber
  end.

(** [a * b]. *)
Definition mul (a b : float) : float :=
  match a, b with
  | Finite x, Finite y => of_Q (x * y)
  | Finite x, Infinity s | Infinity s, Finite x =>
      if Qeq_bool x 0 then NotANumber else Infinity (xorb s (negative x))
  | Infinity s, Infinity t => Infinity (xorb s t)
  | _, _ => NotANumber
  end.

(** [a / b]. *)
Definition div (a b : float) : result float :=
  match a, b with
  | NotANumber, _ | _, NotANumber => Ok NotANumber
  | Finite x, Finite y =>
      if Qeq_bool y 0 then Raise ZeroDivisionError else Ok (of_Q (x / y))
  | Infinity s, Finite y =>
      if Qeq_bool y 0 then Raise ZeroDivisionError else Ok (Infinity (xorb s (negative y)))
  | Finite _, Infinity _ => Ok (Finite 0)
  | Infinity _, Infinity _ => Ok NotANumber
  end.

(** [int(a)]. *)
Definition to_int (a : float) : result Z :=
  match a with
  | Finite q => Ok (int_of_Q q)
  | Infinity _ => Raise (OverflowError "cannot convert float infinity to integer")
  | NotANumber => Raise (ValueError "cannot convert float NaN to integer")
  end.

End Float.

(* ================================================================== *)
(** ** [predict] *)

Fixpoint insert_sorted (x : Q) (l : list Q) : list Q :=
  match l with
  | [] => [x]
  | y :: l' => if Qle_bool x y then x :: l else y :: insert_sorted x l'
  end.

Definition sort (l : list Q) : list Q := fold_right insert_sorted [] l.

Definition Qsum (l : list Q) : Q := fold_right Qplus 0%Q l.

(** A tensor of shape (samples, rows), as the list of its samples. *)
Definition tensor2 := list (list Q).

Definition row_count (t : tensor2) : nat :=
  match t with
  | [] => O
  | s :: _ => length s
  end.

(** The entries of row [j], one per sample. *)
Definition along_dim0 (t : tensor2) (j : nat) : list Q :=
  List.map (fun s => nth j s 0%Q) t.

(** [torch.mean(t, 0)]. *)
Definition mean0 (t : tensor2) : list Q :=
  List.map (fun j => (Qsum (along_dim0 t j) / inject_Z (Z.of_nat (length t)))%Q)
           (seq 0 (row_count t)).

(** [t.kthvalue(k, dim=0)[0]]: the [k]-th smallest, counted from 1. *)
Definition kthvalue (t : tensor2) (k : Z) : result (list Q) :=
  if (1 <=? k) && (k <=? Z.of_nat (length t))
  then Ok (List.map (fun j => nth (Z.to_nat (k - 1)) (sort (along_dim0 t j)) 0%Q)
                    (seq 0 (row_count t)))
  else Raise (RuntimeError "kthvalue(): selected number k out of range for dimension 0").

Definition floats (l : list Q) : column := List.map (fun q => Num (Q2R q)) l.

(** What [Predictive(model, guide, num_samples, return_sites=("obs",))(X)]
    draws for the site [obs], or the exception it raises. *)
Definition predictive_draw : Type :=
  model_fn -> guide_fn -> nat -> list column -> result tensor2.

Definition df_select (r : ref) (labels : list string) : M ref :=
  let* f := deref r in
  let* f' := lift (select f labels) in
  alloc f'.

(** [ci_interval] is the number written in the call; the method receives
    the float nearest to it. *)
Definition predict (predictive : predictive_draw)
    (data : ref) (sample_number : nat) (ci_interval : Q) : M ref :=
  let* self := get_self in
  let* internal_data := transform_data_ data in
  let* ycol := df_getitem internal_data (target_col_ self) in
  let* y := lift (torch_tensor ycol) in
  let* internal_data := df_drop internal_data [target_col_ self] in
  let* values := df_values internal_data in
  let* X := lift (rmapM torch_tensor values) in
  if has_name (method_ self) ["MAP"; "MLE"] then
    let* m := lift (getattr_opt "model" (model self)) in
    let* g := lift (getattr_opt "guide" (guide self)) in
    let* samples_obs := lift (predictive m g sample_number X) in
    let* space_on_each_side :=
      lift (Float.div (Float.sub (Float.Finite 1) (Float.of_Q ci_interval))
                      (Float.Finite 2)) in
    let* n := lift (Float.of_int (Z.of_nat (length samples_obs))) in
    let* lower_ntile := lift (Float.to_int (Float.mul n space_on_each_side)) in
    let* n := lift (Float.of_int (Z.of_nat (length samples_obs))) in
    let* upper_ntile :=
      lift (Float.to_int
              (Float.mul n (Float.sub (Float.Finite 1) space_on_each_side))) in
    let yhat := mean0 samples_obs in
    let* yhat_lower := lift (kthvalue samples_obs lower_ntile) in
    let* yhat_upper := lift (kthvalue samples_obs upper_ntile) in
    let* predictions :=
      alloc (setitem (setitem (setitem [] "yhat" (floats yhat))
                              "yhat_lower" (floats yhat_lower))
                     "yhat_upper" (floats yhat_upper)) in
    on predictions (OnFrame.setitem "y" y) >>
    let* t := df_getitem data (time_col_ self) in
    on predictions (OnFrame.setitem (time_col_ self) t) >>
    df_select predictions [time_col_ self; "y"; "yhat"; "yhat_upper"; "yhat_lower"]
  else
    raise (NotImplementedError ("Did not implement .predict for " ++ method_ self)).

(* ================================================================== *)
(** ** [make_future_dataframe] *)

(** The fixed-step frequency aliases of [pd.date_range]; the anchored
    ones (weeks, month ends, ...) are outside this model. *)
Inductive freq : Type := D | H | T | S.

Definition step_ns (fr : freq) : Z :=
  match fr with
  | D => Calendar.ns_per_day
  | H => 1000000000 * 60 * 60
  | T => 1000000000 * 60
  | S => 1000000000
  end.

(** [Series.max()] of a datetime column; [None] is [NaT], the maximum of
    no row at all. *)
Definition stamp_max (stamps : list Z) : option Z :=
  match stamps with
  | [] => None
  | s :: l => Some (fold_left Z.max l s)
  end.

(** [Series.max()] of the time column: the latest stamp, [NaT] skipped. *)
Definition series_max (c : column) : result (option Z) :=
  if datetimelike c
  then Ok (stamp_max (stamps c))
  else Raise (Unmodelled "the maximum of a column that holds no time stamp").

(** [pd.Timestamp.max.value]: time stamps are [int64] nanoseconds. *)
Definition timestamp_max : Z := 2 ^ 63 - 1.

(** [pd.date_range(start=str(start), periods=periods, freq=fr)]. The start
    is a time stamp already; a stamp generated after it must not pass
    [Timestamp.max]. *)
Definition date_range (start : option Z) (periods : Z) (fr : freq) : result (list Z) :=
  match start with
  | None => Raise (ValueError "Neither `start` nor `end` can be NaT")
  | Some t0 =>
      if periods <? 0
      then Raise (ValueError "Number of samples must be non-negative")
      else if (1 <? periods) && (timestamp_max <? t0 + (periods - 1) * step_ns fr)
      then Raise (OutOfBoundsDatetime "Cannot generate range")
      else Ok (List.map (fun k => t0 + k * step_ns fr) (range 0 periods))
  end.

(** [pd.concat([a, b], axis=0).reset_index(drop=True)]: the rows of [a]
    then those of [b], over the union of the columns, [NaN] where a frame
    has no such column. *)
Definition concat_frames (a b : frame) : frame :=
  List.map (fun nc =>
              (fst nc, snd nc ++ match lookup_col (fst nc) b with
                                 | Some c => c
                                 | None => repeat NaN (nrows b)
                                 end)) a
  ++ List.map (fun nc => (fst nc, repeat NaN (nrows a) ++ snd nc))
       (List.filter (fun nc => negb (has_name (fst nc) (names a))) b).

Definition pd_concat (a b : ref) : M ref :=
  let* fa := deref a in
  let* fb := deref b in
  alloc (concat_frames fa fb).

Definition make_future_dataframe (period : Z) (frequency : freq)
    (include_history : bool) : M ref :=
  let* self := get_self in
  let* h := lift (getattr_opt "history" (history self)) in
  let* t := df_getitem h (time_col_ self) in
  let* max_date_observed := lift (series_max t) in
  let* date_range := lift (date_range max_date_observed (period + 1) frequency) in
  let date_range := tl date_range in
  let* future_df :=
    alloc (setitem (setitem [] (time_col_ self) (List.map Stamp date_range))
                   (target_col_ self) (repeat NaN (length date_range))) in
  let* past_df := df_copy h in
  let* future_df := pd_concat past_df future_df in
  ret future_df.

(* ================================================================== *)
(** ** Seasonality decomposition *)

(** [pyro.param(name)] without an initial value. *)
Definition pyro_param (name : string) : M (list R) :=
  fun w => (match param_store w !! name with
            | Some t => Ok t
            | None => Raise (KeyError name)
            end, w).

(** [for i, param in enumerate(params): if (tag in X_names[i]): append]. *)
Fixpoint tagged_params (tag : string) (X_names : list string) (i : nat)
    (params : list R) : result (list R) :=
  match params with
  | [] => Ok []
  | p :: ps =>
      match X_names !! i with
      | None => Raise (IndexError "index out of bounds")
      | Some n =>
          let* rest := tagged_params tag X_names (Datatypes.S i) ps in
          Ok (if str_in tag n then p :: rest else rest)
      end
  end.

(** [np.array(l).reshape(-1, 2)]. *)
Fixpoint reshape2 (l : list R) : result (list (R * R)) :=
  match l with
  | [] => Ok []
  | a :: b :: l' => let* ps := reshape2 l' in Ok ((a, b) :: ps)
  | [_] => Raise (ValueError "cannot reshape array into shape (2)")
  end.

(** One pass of the loop over the coefficient pairs; [i] is the index
    that [enumerate] gives. *)
Definition add_cycle (period : R) (days : list Z) (i : nat) (coefs : R * R)
    (seasonality : list R) : list R :=
  let cycle_order := Z.of_nat i + 1 in
  let sin_coef := fst coefs in
  let cosin_coef := snd coefs in
  let cycle_pos d := (IZR (cycle_order * 2) * PI * IZR d / period)%R in
  List.map (fun ds => (snd ds + (sin_coef * sin (cycle_pos (fst ds))
                                 + cosin_coef * cos (cycle_pos (fst ds))))%R)
           (combine days seasonality).

Fixpoint cycles (period : R) (days : list Z) (i : nat) (pairs : list (R * R))
    (seasonality : list R) : list R :=
  match pairs with
  | [] => seasonality
  | p :: ps => cycles period days (Datatypes.S i) ps (add_cycle period days i p seasonality)
  end.

(** The common body of the three [get_*_seasonality_point] methods: the
    tag of the feature names, the number of day indices, the period of
    the phase, the name and the offset of the reported day column. *)
Definition seasonality_point (tag : string) (ndays : Z) (period : R)
    (dayname : string) (offset : Z) (param_name : string) : M ref :=
  let* self := get_self in
  let* params := pyro_param param_name in
  let* X_names := lift (getattr_opt "X_names" (X_names self)) in
  let* tagged := lift (tagged_params tag X_names 0 params) in
  let* pairs := lift (reshape2 tagged) in
  let days := range 0 ndays in
  let seasonality := List.map (fun _ => 0%R) days in
  let seasonality := cycles period days 0 pairs seasonality in
  alloc [(dayname, List.map (fun d => Int (d + offset)) days);
         ("Value", List.map Num seasonality)].

Definition get_weekly_seasonality_point : string -> M ref :=
  seasonality_point "weekly" 7 7 "Weekday" 0.
Definition get_monthly_seasonality_point : string -> M ref :=
  seasonality_point "monthly" 31 30 "Monthday" 1.
Definition get_yearly_seasonality_point : string -> M ref :=
  seasonality_point "yearly" 366 366 "Yearday" 1.

Definition get_weekly_seasonality : M ref :=
  let* self := get_self in
  if String.eqb (method_ self) "MAP" then get_weekly_seasonality_point "AutoDelta.betas"
  else if String.eqb (method_ self) "MLE" then get_weekly_seasonality_point "betas"
  else raise (NotImplementedError "Did not implement weekly seasonality for non MAP non MLE").

Definition get_monthly_seasonality : M ref :=
  let* self := get_self in
  if String.eqb (method_ self) "MAP" then get_monthly_seasonality_point "AutoDelta.betas"
  else if String.eqb (method_ self) "MLE" then get_monthly_seasonality_point "betas"
  else raise (NotImplementedError "Did not implement monthly seasonality for non MAP non MLE").

Definition get_yearly_seasonality : M ref :=
  let* self := get_self in
  if String.eqb (method_ self) "MAP" then get_yearly_seasonality_point "AutoDelta.betas"
  else if String.eqb (method_ self) "MLE" then get_yearly_seasonality_point "betas"
  else raise (NotImplementedError "Did not implement yearly seasonality for non MAP non MLE").

(* ================================================================== *)
(** ** Definitions used to state the properties *)

(** The names of the two columns of harmonic order [i]. *)
Definition sin_name (tag : string) (i : Z) : string := tag ++ "_sin_" ++ str_int i.
Definition cos_name (tag : string) (i : Z) : string := tag ++ "_cos_" ++ str_int i.

(** The phase of harmonic order [i] at day index [d]. *)
Definition phase (period : R) (i d : Z) : R := (IZR (i * 2) * PI * IZR d / period)%R.

(** The sine and cosine columns of harmonic order [i] over day indices [ds]. *)
Definition pair_cols (tag : string) (period : R) (ds : list Z) (i : Z) : frame :=
  [(sin_name tag i, List.map (fun d => Num (sin (phase period i d))) ds);
   (cos_name tag i, List.map (fun d => Num (cos (phase period i d))) ds)].

Definition season_cols (tag : string) (period : R) (ds : list Z) (order : Z) : frame :=
  flat_map (pair_cols tag period ds) (range 1 (order + 1)).

Definition season_names (tag : string) (order : Z) : list string :=
  flat_map (fun i => [sin_name tag i; cos_name tag i]) (range 1 (order + 1)).

Definition helper_names : list string := ["weekday"; "monthday"; "yearday"].

Definition harmonic_names (self : Chronos) : list string :=
  season_names "yearly" (year_seasonality_order_ self)
  ++ season_names "monthly" (month_seasonality_order_ self)
  ++ season_names "weekly" (weekly_seasonality_order_ self).

(** The names that [transform_data_] writes. *)
Definition reserved_names (self : Chronos) : list string :=
  "CONST" :: helper_names ++ harmonic_names self.

(** No column of the frame carries a name that [transform_data_] writes. *)
Definition fresh_names (self : Chronos) (f : frame) : bool :=
  forallb (fun n => negb (has_name n (reserved_names self))) (names f).

Definition days_col (ns : list Z) : column :=
  List.map (fun n => Num (IZR n / (1e9 * 60 * 60 * 24))) ns.

Definition harmonic_cols (self : Chronos) (ns : list Z) : frame :=
  season_cols "yearly" 366 (List.map (fun n => Calendar.dayofyear n - 1) ns)
              (year_seasonality_order_ self)
  ++ season_cols "monthly" 31 (List.map (fun n => Calendar.day n - 1) ns)
                 (month_seasonality_order_ self)
  ++ season_cols "weekly" 7 (List.map Calendar.dayofweek ns)
                 (weekly_seasonality_order_ self).

(** The output for a frame [f] whose time column holds the stamps [ns]. *)
Definition transformed (self : Chronos) (f : frame) (ns : list Z) : frame :=
  let f1 := setitem f (time_col_ self) (days_col ns) in
  ("CONST", repeat (Num 1) (nrows f1)) :: f1 ++ harmonic_cols self ns.

Definition helper_cols (ns : list Z) : frame :=
  [("weekday", List.map (fun n => Int (Calendar.dayofweek n)) ns);
   ("monthday", List.map (fun n => Int (Calendar.day n - 1)) ns);
   ("yearday", List.map (fun n => Int (Calendar.dayofyear n - 1)) ns)].

(** The frame [internal_data] holds before the helper columns are dropped. *)
Definition with_helpers (self : Chronos) (f : frame) (ns : list Z) : frame :=
  ("CONST", repeat (Num 1) (nrows (setitem f (time_col_ self) (days_col ns))))
  :: setitem f (time_col_ self) (days_col ns) ++ helper_cols ns ++ harmonic_cols self ns.

(** A cell that holds a float between -1 and 1. *)
Definition unit_bounded (x : cell) : Prop :=
  exists v : R, x = Num v /\ (-1 <= v <= 1)%R.

(** Example data: two days of observations, the second target unknown. *)
Definition two_days : frame :=
  [("ds", [Stamp 0; Stamp 86400000000000]); ("y", [Num 1; NaN])].

(** A world that holds one frame, at reference 0, and the instance. *)
Definition world_of (self : Chronos) (f : frame) : world :=
  {| frames := [f]; inst := self; param_store := ∅ |}.

(** An instance with one harmonic per season. *)
Definition one_harmonic : Chronos := init "MLE" "ds" "y" 1 1 1 (1 # 100) 1000.

Definition is_datetime (c : column) : bool :=
  forallb (fun x => match x with Stamp _ => true | _ => false end) c.

Definition is_numeric (c : column) : bool :=
  forallb (fun x => match x with Stamp _ => false | _ => true end) c.

Fixpoint distinct (l : list string) : bool :=
  match l with
  | [] => true
  | n :: l' => negb (has_name n l') && distinct l'
  end.

(** A frame that [transform_data_] takes as a series: distinct column
    names, none of them written by the builder, a datetime time column,
    numbers in every other column. *)
Definition is_series (self : Chronos) (f : frame) : bool :=
  distinct (names f)
  && fresh_names self f
  && has_name (time_col_ self) (names f)
  && forallb (fun nc => if String.eqb (fst nc) (time_col_ self)
                        then is_datetime (snd nc)
                        else is_numeric (snd nc)) f.

(** The columns of the design matrix: all of the output but the target. *)
Definition features (self : Chronos) (f : frame) (ns : list Z) : frame :=
  List.filter (fun nc => negb (has_name (fst nc) [target_col_ self]))
              (transformed self f ns).

Definition design_matrix (self : Chronos) (f : frame) (ns : list Z) : list column :=
  List.map (fun nc => List.map astype_float (snd nc)) (features self f ns).

Definition prediction_names : list string := ["y"; "yhat"; "yhat_lower"; "yhat_upper"].

(** The lower and the upper rank that [predict] computes for [n] samples,
    as floats. *)
Definition space_on_each_side (ci_interval : Q) : result Float.float :=
  Float.div (Float.sub (Float.Finite 1) (Float.of_Q ci_interval)) (Float.Finite 2).
Definition lower_ntile (n : nat) (ci_interval : Q) : result Z :=
  let* space := space_on_each_side ci_interval in
  let* n := Float.of_int (Z.of_nat n) in
  Float.to_int (Float.mul n space).
Definition upper_ntile (n : nat) (ci_interval : Q) : result Z :=
  let* space := space_on_each_side ci_interval in
  let* n := Float.of_int (Z.of_nat n) in
  Float.to_int (Float.mul n (Float.sub (Float.Finite 1) space)).

(** [Predictive] completes, whatever the design matrix, and draws [n]
    samples of [rows] values each. *)
Definition draws (predictive : predictive_draw) (m : model_fn) (g : guide_fn)
    (n rows : nat) : Prop :=
  forall X : list column,
    exists samples : tensor2,
      predictive m g n X = Ok samples
      /\ length samples = n
      /\ Forall (fun s => length s = rows) samples.

(** The frame that [predict] returns. *)
Definition predictions (time : string) (t y : column) (yhat yhat_lower yhat_upper : list Q)
  : frame :=
  [(time, t); ("y", y); ("yhat", floats yhat);
   ("yhat_upper", floats yhat_upper); ("yhat_lower", floats yhat_lower)].

(** An instance configured with an unsupported method. *)
Definition mcmc : Chronos := init "MCMC" "ds" "y" 10 5 3 (1 # 100) 1000.

(** A [Predictive] that draws zeros. *)
Definition draw_zeros : predictive_draw :=
  fun _ _ n X => Ok (repeat (repeat 0%Q (length (hd [] X))) n).

(** An optimiser that leaves nothing in the store. *)
Definition no_training : svi_outcome := fun _ _ _ _ => (Ok tt, ∅).

(** Two days of observations, both targets known. *)
Definition two_observed : frame :=
  [("ds", [Stamp 0; Stamp 86400000000000]); ("y", [Num 1; Num 2])].

(** An optimiser whose steps complete and leave all coefficients at zero. *)
Definition trained_zeros : svi_outcome :=
  fun _ _ X _ =>
    (Ok tt, <["betas" := List.map (fun _ => 0%R) X]> (<["sigma" := [1%R]]> ∅)).

(** A fitted point-estimate instance with one harmonic per season. *)
Definition fitted_mle : Chronos := with_model model_MLE_ guide_MLE_ one_harmonic.

(** A [Predictive] whose last sample is an outlier. *)
Definition draw_outlier : predictive_draw :=
  fun _ _ n X => Ok (repeat [0%Q; 0%Q] (n - 1) ++ [[1000%Q; 1000%Q]]).

(** A frame without the target column, and the frame of two future days. *)
Definition stamps_only : frame := [("ds", [Stamp 0; Stamp 86400000000000])].
Definition two_unknown : frame :=
  [("ds", [Stamp 0; Stamp 86400000000000]); ("y", [NaN; NaN])].

(** The stamps that [make_future_dataframe] adds after the stamps [ns]. *)
Definition future_stamps (ns : list Z) (period : Z) (fr : freq) : list Z :=
  match stamp_max ns with
  | Some t0 => tl (List.map (fun k => t0 + k * step_ns fr) (range 0 (period + 1)))
  | None => []
  end.

(** The frame of the new rows. *)
Definition future_frame (self : Chronos) (new : list Z) : frame :=
  setitem (setitem [] (time_col_ self) (List.map Stamp new))
          (target_col_ self) (repeat NaN (length new)).

(** A history of one row, on 2262-04-11, the last day that a time stamp
    can hold. *)
Definition late_history : frame :=
  [("ds", [Stamp 9223286400000000000]); ("y", [Num 1])].

(** A fitted instance whose history is the frame at reference 0. *)
Definition fitted_world (hist : frame) : world :=
  {| frames := [hist]; inst := with_history 0%nat fitted_mle; param_store := ∅ |}.

(** The decomposed value in the words of the specification: the sum,
    over the coefficient pairs taken as harmonic orders [i], [i+1], ...,
    of sin_coef * sin(phase) + cos_coef * cos(phase), with
    phase = order * 2 * pi * day / period. *)
Fixpoint harmonic_sum (period : R) (d : Z) (i : Z) (pairs : list (R * R)) : R :=
  match pairs with
  | [] => 0%R
  | p :: ps =>
      (fst p * sin (IZR i * 2 * PI * IZR d / period)
       + snd p * cos (IZR i * 2 * PI * IZR d / period)
       + harmonic_sum period d (i + 1) ps)%R
  end.

(** The stored coefficients of a list of (sin, cos) pairs, in order. *)
Definition flatten_pairs (pairs : list (R * R)) : list R :=
  flat_map (fun p => [fst p; snd p]) pairs.

(** The table of a decomposition. *)
Definition seasonality_table (dayname : string) (offset ndays : Z) (period : R)
    (pairs : list (R * R)) : frame :=
  [(dayname, List.map (fun d => Int (d + offset)) (range 0 ndays));
   ("Value", List.map (fun d => Num (harmonic_sum period d 1 pairs)) (range 0 ndays))].

(** The name under which the coefficients are stored, by method. *)
Definition betas_name (method : string) : string :=
  if String.eqb method "MAP" then "AutoDelta.betas" else "betas".

(** A fitted instance with its feature names, and its coefficients in the
    parameter store. *)
Definition decomposition_world : world :=
  {| frames := [];
     inst := with_X_names ["CONST"; "ds"; "yearly_sin_1"; "yearly_cos_1";
                           "monthly_sin_1"; "monthly_cos_1";
                           "weekly_sin_1"; "weekly_cos_1"] fitted_mle;
     param_store := <["betas" := [1; 2; 3; 4; 5; 6; 7; 8]%R]> ∅ |}.

(** No column of the frame is a helper column or a harmonic column. *)
Definition fresh_features (self : Chronos) (f : frame) : bool :=
  forallb (fun n => negb (has_name n (helper_names ++ harmonic_names self))) (names f).

(** Frames that [transform_data_] rejects. *)
Definition no_time_column : frame := [("y", [Num 1; NaN])].
Definition dates_as_numbers : frame :=
  [("ds", [Stamp 0; Int 20200101]); ("y", [Num 1; NaN])].
Definition has_const_column : frame :=
  [("ds", [Stamp 0; Stamp 86400000000000]); ("CONST", [Num 1; Num 1])].

(** An instance with no yearly harmonic and a negative monthly order. *)
Definition weekly_only : Chronos := init "MLE" "ds" "y" 0 (-2) 1 (1 # 100) 1000.

(** The model and the guide that [fit] selects for a point-estimate method. *)
Definition point_model (method : string) : model_fn * guide_fn :=
  if String.eqb method "MLE" then (model_MLE_, guide_MLE_)
  else (model_MAP_, AutoDelta model_MAP_).

(** The names of the features: the output of [transform_data_] without
    the target. *)
Definition feature_names (self : Chronos) (f : frame) : list string :=
  "CONST" :: List.filter (fun n => negb (String.eqb n (target_col_ self))) (names f)
  ++ harmonic_names self.

(** An instance that is asked for no iteration at all. *)
Definition no_iterations : Chronos := init "MAP" "ds" "y" 1 1 1 (1 # 100) 0.

(** The world still holds the frames [base], each at its reference. *)
Definition keeps (base : list frame) (w : world) : Prop :=
  exists extra : list frame, frames w = base ++ extra.

(** From a world that keeps [base], [m] ends in one that keeps it, and
    what it returns satisfies [Q]. *)
Definition safe (base : list frame) {A} (m : M A) (Q : A -> Prop) : Prop :=
  forall w : world,
    keeps base w -> keeps base (snd (m w)) /\ forall a : A, fst (m w) = Ok a -> Q a.

(** A reference to an object made after [base]. *)
Definition later (base : list frame) (r : ref) : Prop := (length base <= r)%nat.

(** A part of the world that [m] leaves as it is. *)
Definition unchanged {S A} (proj : world -> S) (m : M A) : Prop :=
  forall w : world, proj (snd (m w)) = proj w.

(** What [__init__] sets. *)
Definition config (s : Chronos) : string * Z * Q * Z * Z * Z * string * string :=
  (method_ s, n_iter_ s, lr_ s, year_seasonality_order_ s, weekly_seasonality_order_ s,
   month_seasonality_order_ s, time_col_ s, target_col_ s).

(** The world that a successful [fit] leaves. *)
Definition after_fit (optimise : svi_outcome) (w : world) (f : frame) (ns : list Z)
    (ys : column) : world :=
  let mg := point_model (method_ (inst w)) in
  {| frames := frames w ++ [f; with_helpers (inst w) f ns; transformed (inst w) f ns;
                            features (inst w) f ns];
     inst := with_model (fst mg) (snd mg)
               (with_X_names (feature_names (inst w) f)
                             (with_history (length (frames w)) (inst w)));
     param_store := snd (optimise (fst mg) (snd mg) (design_matrix (inst w) f ns)
                                  (List.map astype_float ys)) |}.

(** A [Predictive] that draws zeros for a given number of rows. *)
Definition draw_constant (rows : nat) : predictive_draw :=
  fun _ _ n _ => Ok (repeat (repeat 0%Q rows) n).

(** A fitted instance one of whose features is a regressor named after a
    season. *)
Definition regressor_world : world :=
  {| frames := [];
     inst := with_X_names ["CONST"; "ds"; "weekly_sales"; "weekly_sin_1"; "weekly_cos_1"]
                          fitted_mle;
     param_store := <["betas" := [1; 2; 3; 4; 5]%R]> ∅ |}.

(** The character occurs in the string. *)
Fixpoint occurs (c : ascii) (s : string) : bool :=
  match s with
  | EmptyString => false
  | String b s' => Ascii.eqb c b || occurs c s'
  end.

(** The tags of the three seasons. *)
Definition season_tags : list string := ["yearly"; "monthly"; "weekly"].

(* ================================================================== *)
(** * Properties *)

(** ** The calendar *)

(** 1970-01-01 was a Thursday, 2020-02-29 a Saturday and the 60th day of
    its year, 1969-12-31 a Wednesday and the 365th day of its year. *)
Example calendar_epoch :
  (Calendar.dayofweek 0, Calendar.day 0, Calendar.dayofyear 0) = (3, 1, 1).
Proof. reflexivity. Qed.

Example calendar_leap_day :
  let ns := 18321 * Calendar.ns_per_day in
  (Calendar.dayofweek ns, Calendar.day ns, Calendar.dayofyear ns) = (5, 29, 60).
Proof. reflexivity. Qed.

Example calendar_before_epoch :
  (Calendar.dayofweek (-1), Calendar.day (-1), Calendar.dayofyear (-1)) = (2, 31, 365).
Proof. reflexivity. Qed.

Lemma dayofweek_range (ns : Z) : 0 <= Calendar.dayofweek ns < 7.
Proof. unfold Calendar.dayofweek. apply Z.mod_pos_bound. lia. Qed.

(** ** Strings and names *)

Lemma append_cancel_l (s a b : string) : (s ++ a)%string = (s ++ b)%string -> a = b.
Proof.
  induction s as [|ch s IH]; simpl; intros E; [exact E|].
  injection E as E. exact (IH E).
Qed.

Lemma str_int_inj (i j : Z) : str_int i = str_int j -> i = j.
Proof.
  unfold str_int. intros E. apply DecimalZ.to_int_inj.
  assert (Hnn : forall z, Z.to_int z <> Decimal.Pos Decimal.Nil
                          /\ Z.to_int z <> Decimal.Neg Decimal.Nil).
  { intros [|p|p]; simpl; split; try discriminate;
      intros Hp; injection Hp as Hp; exact (DecimalPos.Unsigned.to_uint_nonnil p Hp). }
  assert (Hi := NilZero.isi _ (proj1 (Hnn i)) (proj2 (Hnn i))).
  assert (Hj := NilZero.isi _ (proj1 (Hnn j)) (proj2 (Hnn j))).
  rewrite E in Hi. rewrite Hi in Hj. injection Hj as Hj. exact Hj.
Qed.

Lemma has_name_In (n : string) (l : list string) : has_name n l = true <-> In n l.
Proof.
  unfold has_name. rewrite existsb_exists. split.
  - intros (x & Hx & E). apply String.eqb_eq in E. subst x. exact Hx.
  - intros Hn. exists n. split; [exact Hn|apply String.eqb_refl].
Qed.

Lemma has_name_false (n : string) (l : list string) : has_name n l = false <-> ~ In n l.
Proof.
  rewrite <- has_name_In. destruct (has_name n l); split; congruence.
Qed.

Lemma has_name_app (n : string) (l1 l2 : list string) :
  has_name n (l1 ++ l2) = has_name n l1 || has_name n l2.
Proof. unfold has_name. apply existsb_app. Qed.

Lemma range_length (a b : Z) : length (range a b) = Z.to_nat (b - a).
Proof. unfold range. rewrite length_map, length_seq. reflexivity. Qed.

Lemma In_range (a b i : Z) : In i (range a b) <-> a <= i < b.
Proof.
  unfold range. rewrite in_map_iff. split.
  - intros (k & E & Hk). apply in_seq in Hk. lia.
  - intros Hi. exists (Z.to_nat (i - a)). split; [lia|]. apply in_seq. lia.
Qed.

Lemma NoDup_range (a b : Z) : List.NoDup (range a b).
Proof.
  unfold range. apply Finite.Injective_map_NoDup; [|apply seq_NoDup].
  intros x y E. lia.
Qed.

(** ** Frames *)

Lemma lookup_col_None (n : string) (f : frame) :
  lookup_col n f = None <-> has_name n (names f) = false.
Proof.
  induction f as [|[m c] f IH]; simpl; [tauto|].
  rewrite (String.eqb_sym n m). destruct (String.eqb m n); simpl; [split; discriminate|exact IH].
Qed.

Lemma lookup_col_app (n : string) (f g : frame) :
  lookup_col n (f ++ g) =
  match lookup_col n f with Some c => Some c | None => lookup_col n g end.
Proof.
  induction f as [|[m c] f IH]; simpl; [reflexivity|].
  destruct (String.eqb m n); [reflexivity|exact IH].
Qed.

Lemma lookup_setitem_eq (f : frame) (n : string) (c : column) :
  lookup_col n (setitem f n c) = Some c.
Proof.
  induction f as [|[m c'] f IH]; simpl.
  - rewrite String.eqb_refl. reflexivity.
  - destruct (String.eqb m n) eqn:E; simpl; rewrite E; [reflexivity|exact IH].
Qed.

Lemma lookup_setitem_ne (f : frame) (n m : string) (c : column) :
  n <> m -> lookup_col m (setitem f n c) = lookup_col m f.
Proof.
  intros Hne. induction f as [|[k c'] f IH]; simpl.
  - apply String.eqb_neq in Hne. rewrite Hne. reflexivity.
  - destruct (String.eqb k n) eqn:E; simpl.
    + apply String.eqb_eq in E. subst k.
      apply String.eqb_neq in Hne. rewrite Hne. reflexivity.
    + destruct (String.eqb k m); [reflexivity|exact IH].
Qed.

Lemma setitem_fresh (f : frame) (n : string) (c : column) :
  has_name n (names f) = false -> setitem f n c = f ++ [(n, c)].
Proof.
  induction f as [|[m c'] f IH]; simpl; [reflexivity|].
  rewrite (String.eqb_sym n m). destruct (String.eqb m n); simpl; [discriminate|].
  intros Hf. rewrite (IH Hf). reflexivity.
Qed.

Lemma names_setitem_present (f : frame) (n : string) (c : column) :
  has_name n (names f) = true -> names (setitem f n c) = names f.
Proof.
  induction f as [|[m c'] f IH]; simpl; [discriminate|].
  rewrite (String.eqb_sym n m). destruct (String.eqb m n); simpl; [reflexivity|].
  intros Hf. rewrite (IH Hf). reflexivity.
Qed.

Lemma lookup_col_has_name (n : string) (f : frame) (c : column) :
  lookup_col n f = Some c -> has_name n (names f) = true.
Proof.
  intros Hl. destruct (has_name n (names f)) eqn:E; [reflexivity|].
  apply lookup_col_None in E. congruence.
Qed.

Lemma names_app (f g : frame) : names (f ++ g) = names f ++ names g.
Proof. apply map_app. Qed.

Lemma rmapM_map {A B C} (g : B -> result C) (h : A -> B) (k : A -> C) (l : list A) :
  (forall x, g (h x) = Ok (k x)) -> rmapM g (List.map h l) = Ok (List.map k l).
Proof.
  intros Hg. induction l as [|a l IH]; simpl; [reflexivity|].
  rewrite Hg, IH. reflexivity.
Qed.

Lemma rmapM_length {A B} (g : A -> result B) (l : list A) (l' : list B) :
  rmapM g l = Ok l' -> length l' = length l.
Proof.
  revert l'. induction l as [|a l IH]; simpl; intros l' E.
  - injection E as <-. reflexivity.
  - destruct (g a); [|discriminate]. destruct (rmapM g l); [|discriminate].
    injection E as <-. simpl. rewrite (IH _ eq_refl). reflexivity.
Qed.

Lemma setitem_app_present (f g : frame) (n : string) (c : column) :
  has_name n (names f) = true -> setitem (f ++ g) n c = setitem f n c ++ g.
Proof.
  induction f as [|[m c'] f IH]; simpl; [discriminate|].
  rewrite (String.eqb_sym n m). destruct (String.eqb m n); simpl; [reflexivity|].
  intros Hf. rewrite (IH Hf). reflexivity.
Qed.

Lemma nrows_app (f g : frame) : f <> [] -> nrows (f ++ g) = nrows f.
Proof. destruct f; [congruence|reflexivity]. Qed.

(** ** The frame that [transform_data_] builds *)

Lemma sin_cos_names_differ (tag : string) (i j : Z) : sin_name tag i <> cos_name tag j.
Proof. unfold sin_name, cos_name. intros E. apply append_cancel_l in E. discriminate E. Qed.

Lemma sin_name_inj (tag : string) (i j : Z) : sin_name tag i = sin_name tag j -> i = j.
Proof.
  unfold sin_name. intros E. apply append_cancel_l in E.
  apply (append_cancel_l "_sin_") in E. exact (str_int_inj _ _ E).
Qed.

Lemma cos_name_inj (tag : string) (i j : Z) : cos_name tag i = cos_name tag j -> i = j.
Proof.
  unfold cos_name. intros E. apply append_cancel_l in E.
  apply (append_cancel_l "_cos_") in E. exact (str_int_inj _ _ E).
Qed.

Lemma names_season_cols (tag : string) (period : R) (ds : list Z) (order : Z) :
  names (season_cols tag period ds order) = season_names tag order.
Proof.
  unfold season_cols, season_names, names.
  induction (range 1 (order + 1)) as [|i l IH]; simpl; [reflexivity|].
  rewrite IH. reflexivity.
Qed.

Lemma cycle_position_ints (i : Z) (ds : list Z) (period : R) :
  cycle_position i (List.map Int ds) period
  = Ok (List.map (fun d => Num (phase period i d)) ds).
Proof. unfold cycle_position. apply rmapM_map. intros d. reflexivity. Qed.

Lemma harmonic_run (tag dayname : string) (period : R) (ds : list Z) (i : Z) (g : frame) :
  lookup_col dayname g = Some (List.map Int ds) ->
  has_name (sin_name tag i) (names g) = false ->
  has_name (cos_name tag i) (names g) = false ->
  harmonic tag dayname period i g = (Ok tt, g ++ pair_cols tag period ds i).
Proof.
  intros Hd Hs Hc. unfold harmonic, OnFrame.getitem, OnFrame.lift, OnFrame.setitem.
  cbn [bind F_monad]. unfold getitem. rewrite Hd, cycle_position_ints.
  unfold np_sin, np_cos.
  rewrite !(rmapM_map _ _ (fun d => Num (sin (phase period i d)))) by reflexivity.
  rewrite !(rmapM_map _ _ (fun d => Num (cos (phase period i d)))) by reflexivity.
  fold (sin_name tag i). fold (cos_name tag i).
  rewrite (setitem_fresh g) by exact Hs.
  rewrite setitem_fresh.
  - rewrite <- app_assoc. reflexivity.
  - rewrite names_app, has_name_app, Hc. simpl.
    destruct (String.eqb_spec (cos_name tag i) (sin_name tag i)) as [E|_]; [|reflexivity].
    symmetry in E. destruct (sin_cos_names_differ _ _ _ E).
Qed.

Lemma season_run (tag dayname : string) (period : R) (ds : list Z) (l : list Z) :
  List.NoDup l ->
  forall g : frame,
  lookup_col dayname g = Some (List.map Int ds) ->
  (forall i, In i l -> has_name (sin_name tag i) (names g) = false
                       /\ has_name (cos_name tag i) (names g) = false) ->
  for_ l (harmonic tag dayname period) g
  = (Ok tt, g ++ flat_map (pair_cols tag period ds) l).
Proof.
  induction 1 as [|i l Hi Hnd IH]; intros g Hd Hfresh; simpl.
  - rewrite app_nil_r. reflexivity.
  - destruct (Hfresh i (or_introl eq_refl)) as [Hs Hc].
    rewrite (harmonic_run _ _ _ ds) by assumption.
    rewrite IH.
    + rewrite <- app_assoc. reflexivity.
    + rewrite lookup_col_app, Hd. reflexivity.
    + intros j Hj. destruct (Hfresh j (or_intror Hj)) as [Hsj Hcj].
      assert (Hne : j <> i) by (intros ->; exact (Hi Hj)).
      rewrite names_app, !has_name_app, Hsj, Hcj. simpl.
      destruct (String.eqb_spec (sin_name tag j) (sin_name tag i)) as [E|_];
        [destruct (Hne (sin_name_inj _ _ _ E))|].
      destruct (String.eqb_spec (sin_name tag j) (cos_name tag i)) as [E|_];
        [destruct (sin_cos_names_differ _ _ _ E)|].
      destruct (String.eqb_spec (cos_name tag j) (sin_name tag i)) as [E|_];
        [symmetry in E; destruct (sin_cos_names_differ _ _ _ E)|].
      destruct (String.eqb_spec (cos_name tag j) (cos_name tag i)) as [E|_];
        [destruct (Hne (cos_name_inj _ _ _ E))|].
      split; reflexivity.
Qed.

Lemma fresh_names_spec (self : Chronos) (f : frame) (n : string) :
  fresh_names self f = true -> In n (reserved_names self) ->
  has_name n (names f) = false.
Proof.
  unfold fresh_names. intros Hf Hn. apply has_name_false. intros Hin.
  rewrite forallb_forall in Hf. specialize (Hf n Hin).
  apply has_name_In in Hn. rewrite Hn in Hf. discriminate Hf.
Qed.

Lemma datetimelike_stamps (ns : list Z) : datetimelike (List.map Stamp ns) = true.
Proof.
  unfold datetimelike. destruct ns as [|n ns]; [reflexivity|].
  cbn [List.map forallb existsb is_stamp orb andb].
  rewrite Bool.andb_true_r. induction ns as [|a ns IH]; [reflexivity|exact IH].
Qed.

Lemma dt_values_stamps (ns : list Z) :
  dt_values (List.map Stamp ns) = Ok (List.map Some ns).
Proof.
  unfold dt_values. rewrite datetimelike_stamps, List.map_map. reflexivity.
Qed.

Lemma dt_field_stamps (g : Z -> Z) (ns : list Z) :
  dt_field g (List.map Some ns) = List.map (fun n => Int (g n)) ns.
Proof.
  unfold dt_field. rewrite List.map_map.
  replace (forallb _ (List.map Some ns)) with true; [reflexivity|].
  symmetry. apply forallb_forall. intros x Hx. apply in_map_iff in Hx.
  destruct Hx as (n & <- & _). reflexivity.
Qed.

Lemma In_season_names (tag : string) (order : Z) (i : Z) :
  In i (range 1 (order + 1)) ->
  In (sin_name tag i) (season_names tag order)
  /\ In (cos_name tag i) (season_names tag order).
Proof.
  intros Hi. unfold season_names. rewrite !in_flat_map.
  split; exists i; simpl; auto.
Qed.

Lemma days_col_run (ns : list Z) :
  rmapM (arith (fun v : R => (v / (1e9 * 60 * 60 * 24))%R))
        (List.map datetime_astype_float (List.map Stamp ns)) = Ok (days_col ns).
Proof. rewrite List.map_map. unfold days_col. apply rmapM_map. reflexivity. Qed.

Lemma prepared_frame (self : Chronos) (f : frame) (ns : list Z) :
  has_name (time_col_ self) (names f) = true ->
  fresh_names self f = true ->
  setitem (setitem (setitem (setitem f
     "weekday" (List.map (fun n => Int (Calendar.dayofweek n)) ns))
     "monthday" (List.map (fun n => Int (Calendar.day n - 1)) ns))
     "yearday" (List.map (fun n => Int (Calendar.dayofyear n - 1)) ns))
     (time_col_ self) (days_col ns)
  = setitem f (time_col_ self) (days_col ns) ++ helper_cols ns.
Proof.
  intros Htime Hfresh.
  assert (Hres : forall n, In n (reserved_names self) -> has_name n (names f) = false)
    by (intros n; apply fresh_names_spec; exact Hfresh).
  rewrite (setitem_fresh f) by (apply Hres; simpl; auto).
  rewrite (setitem_fresh _ "monthday")
    by (rewrite names_app, has_name_app, Hres by (simpl; auto); reflexivity).
  rewrite (setitem_fresh _ "yearday")
    by (rewrite !names_app, !has_name_app, Hres by (simpl; auto); reflexivity).
  rewrite <- !app_assoc. rewrite setitem_app_present by exact Htime. reflexivity.
Qed.

Lemma season_names_other (n tag : string) (order : Z) :
  (forall j, n <> sin_name tag j /\ n <> cos_name tag j) ->
  has_name n (season_names tag order) = false.
Proof.
  intros Hn. apply has_name_false. unfold season_names. rewrite in_flat_map.
  intros (j & _ & [E|[E|[]]]); symmetry in E; destruct (Hn j); contradiction.
Qed.

Ltac names_differ :=
  unfold sin_name, cos_name; simpl; intros; try split; discriminate.

Lemma reserved_harmonic (self : Chronos) (n : string) :
  In n (harmonic_names self) -> In n (reserved_names self).
Proof.
  intros Hn. unfold reserved_names. right. apply in_or_app. right. exact Hn.
Qed.

Lemma reserved_yearly (self : Chronos) (i : Z) :
  In i (range 1 (year_seasonality_order_ self + 1)) ->
  In (sin_name "yearly" i) (reserved_names self)
  /\ In (cos_name "yearly" i) (reserved_names self).
Proof.
  intros Hi. destruct (In_season_names "yearly" _ _ Hi) as [Hs Hc].
  split; apply reserved_harmonic; unfold harmonic_names;
    apply in_or_app; left; assumption.
Qed.

Lemma reserved_monthly (self : Chronos) (i : Z) :
  In i (range 1 (month_seasonality_order_ self + 1)) ->
  In (sin_name "monthly" i) (reserved_names self)
  /\ In (cos_name "monthly" i) (reserved_names self).
Proof.
  intros Hi. destruct (In_season_names "monthly" _ _ Hi) as [Hs Hc].
  split; apply reserved_harmonic; unfold harmonic_names;
    apply in_or_app; right; apply in_or_app; left; assumption.
Qed.

Lemma reserved_weekly (self : Chronos) (i : Z) :
  In i (range 1 (weekly_seasonality_order_ self + 1)) ->
  In (sin_name "weekly" i) (reserved_names self)
  /\ In (cos_name "weekly" i) (reserved_names self).
Proof.
  intros Hi. destruct (In_season_names "weekly" _ _ Hi) as [Hs Hc].
  split; apply reserved_harmonic; unfold harmonic_names;
    apply in_or_app; right; apply in_or_app; right; assumption.
Qed.

Lemma add_features_run (self : Chronos) (f : frame) (ns : list Z) :
  lookup_col (time_col_ self) f = Some (List.map Stamp ns) ->
  fresh_names self f = true ->
  add_features self f
  = (Ok tt, ("CONST", repeat (Num 1) (nrows (setitem f (time_col_ self) (days_col ns))))
            :: setitem f (time_col_ self) (days_col ns)
               ++ helper_cols ns ++ harmonic_cols self ns).
Proof.
  intros Ht Hfresh.
  assert (Hres : forall n, In n (reserved_names self) -> has_name n (names f) = false)
    by (intros n; apply fresh_names_spec; exact Hfresh).
  assert (Htime : has_name (time_col_ self) (names f) = true)
    by (eapply lookup_col_has_name; exact Ht).
  assert (Hne : forall n, In n (reserved_names self) -> n <> time_col_ self).
  { intros n Hn ->. rewrite (Hres _ Hn) in Htime. discriminate. }
  unfold add_features, OnFrame.getitem, OnFrame.lift, OnFrame.setitem.
  cbn [bind F_monad]. unfold getitem.
  rewrite Ht, dt_values_stamps, dt_field_stamps.
  rewrite lookup_setitem_ne by (apply Hne; simpl; auto).
  rewrite Ht, dt_values_stamps, dt_field_stamps.
  rewrite !lookup_setitem_ne by (apply Hne; simpl; auto).
  rewrite Ht, dt_values_stamps, dt_field_stamps.
  rewrite !lookup_setitem_ne by (apply Hne; simpl; auto).
  rewrite Ht, days_col_run.
  rewrite (prepared_frame self f ns Htime Hfresh).
  set (f1 := setitem f (time_col_ self) (days_col ns)).
  assert (Hn1 : names f1 = names f) by (apply names_setitem_present; exact Htime).
  assert (Hl1 : forall n, In n (reserved_names self) -> lookup_col n f1 = None).
  { intros n Hn. apply lookup_col_None. rewrite Hn1. exact (Hres n Hn). }
  rewrite (season_run _ _ _ (List.map (fun n => Calendar.dayofyear n - 1) ns)).
  2: apply NoDup_range.
  2: { rewrite lookup_col_app, Hl1 by (simpl; auto). simpl. rewrite List.map_map. reflexivity. }
  2: { intros i Hi. destruct (reserved_yearly self i Hi) as [Hs Hc].
       rewrite names_app, !has_name_app, Hn1, (Hres _ Hs), (Hres _ Hc).
       split; reflexivity. }
  fold (season_cols "yearly" 366 (List.map (fun n => Calendar.dayofyear n - 1) ns)
                    (year_seasonality_order_ self)).
  rewrite (season_run _ _ _ (List.map (fun n => Calendar.day n - 1) ns)).
  2: apply NoDup_range.
  2: { rewrite !lookup_col_app, Hl1 by (simpl; auto). simpl. rewrite List.map_map. reflexivity. }
  2: { intros i Hi. destruct (reserved_monthly self i Hi) as [Hs Hc].
       rewrite !names_app, !has_name_app, Hn1, (Hres _ Hs), (Hres _ Hc).
       rewrite names_season_cols.
       rewrite !season_names_other by names_differ.
       split; reflexivity. }
  fold (season_cols "monthly" 31 (List.map (fun n => Calendar.day n - 1) ns)
                    (month_seasonality_order_ self)).
  rewrite (season_run _ _ _ (List.map Calendar.dayofweek ns)).
  2: apply NoDup_range.
  2: { rewrite !lookup_col_app, Hl1 by (simpl; auto). simpl. rewrite List.map_map. reflexivity. }
  2: { intros i Hi. destruct (reserved_weekly self i Hi) as [Hs Hc].
       rewrite !names_app, !has_name_app, Hn1, (Hres _ Hs), (Hres _ Hc).
       rewrite !names_season_cols.
       rewrite !season_names_other by names_differ.
       split; reflexivity. }
  fold (season_cols "weekly" 7 (List.map Calendar.dayofweek ns)
                    (weekly_seasonality_order_ self)).
  assert (Hf1 : f1 <> []).
  { intros E. rewrite E in Hn1. destruct f; [discriminate Htime|discriminate Hn1]. }
  unfold OnFrame.insert_front, insert_front.
  rewrite !names_app, !has_name_app, Hn1, (Hres "CONST") by (simpl; auto).
  rewrite !names_season_cols.
  rewrite !season_names_other by names_differ.
  simpl has_name. simpl orb. cbv iota.
  rewrite <- !app_assoc. rewrite (nrows_app f1) by exact Hf1.
  unfold harmonic_cols. reflexivity.
Qed.

Lemma filter_keep (labels : list string) (g : frame) :
  (forall n, In n (names g) -> has_name n labels = false) ->
  List.filter (fun nc => negb (has_name (fst nc) labels)) g = g.
Proof.
  induction g as [|[n c] g IH]; simpl; intros Hg; [reflexivity|].
  rewrite (Hg n) by auto. simpl. rewrite IH by auto. reflexivity.
Qed.

Lemma harmonic_not_helper (self : Chronos) (n : string) :
  In n (harmonic_names self) -> has_name n helper_names = false.
Proof.
  unfold harmonic_names, season_names. rewrite !in_app_iff, !in_flat_map.
  intros [(i & _ & Hn)|[(i & _ & Hn)|(i & _ & Hn)]];
    destruct Hn as [<-|[<-|[]]]; reflexivity.
Qed.

Lemma names_harmonic_cols (self : Chronos) (ns : list Z) :
  names (harmonic_cols self ns) = harmonic_names self.
Proof.
  unfold harmonic_cols, harmonic_names.
  rewrite !names_app, !names_season_cols. reflexivity.
Qed.

(** Dropping the helper columns from what [add_features] leaves. *)
Lemma drop_helpers (self : Chronos) (f : frame) (ns : list Z) :
  has_name (time_col_ self) (names f) = true ->
  fresh_names self f = true ->
  drop (("CONST", repeat (Num 1) (nrows (setitem f (time_col_ self) (days_col ns))))
        :: setitem f (time_col_ self) (days_col ns)
           ++ helper_cols ns ++ harmonic_cols self ns)
       ["weekday"; "monthday"; "yearday"]
  = Ok (transformed self f ns).
Proof.
  intros Htime Hfresh. unfold drop, transformed.
  set (f1 := setitem f (time_col_ self) (days_col ns)).
  assert (Hn1 : names f1 = names f) by (apply names_setitem_present; exact Htime).
  set (g := ("CONST", repeat (Num 1) (nrows f1))
            :: f1 ++ helper_cols ns ++ harmonic_cols self ns).
  assert (Hfind : forall l, In l helper_names -> has_name l (names g) = true).
  { intros l Hl. apply has_name_In. unfold g, names.
    rewrite List.map_cons, !List.map_app. right.
    apply in_or_app. right. apply in_or_app. left. exact Hl. }
  cbn [List.find].
  rewrite !Hfind by (simpl; auto). cbn [negb].
  unfold g. cbn [List.filter fst].
  change (has_name "CONST" ["weekday"; "monthday"; "yearday"]) with false.
  cbn [negb]. rewrite !List.filter_app.
  rewrite (filter_keep _ f1), (filter_keep _ (harmonic_cols self ns)).
  - reflexivity.
  - intros n Hn. rewrite names_harmonic_cols in Hn.
    exact (harmonic_not_helper self n Hn).
  - intros n Hn. rewrite Hn1 in Hn. apply has_name_false. intros Hh.
    assert (Hr : In n (reserved_names self)).
    { unfold reserved_names. right. apply in_or_app. left. exact Hh. }
    apply (fresh_names_spec self f n Hfresh) in Hr.
    apply has_name_false in Hr. exact (Hr Hn).
Qed.

(** ** Running the program: the object store *)

Lemma M_bind_ok {A B} (m : M A) (k : A -> M B) (w w' : world) (a : A) :
  m w = (Ok a, w') -> bind m k w = k a w'.
Proof. intros E. cbn [bind M_monad]. rewrite E. reflexivity. Qed.

Lemma M_bind_raise {A B} (m : M A) (k : A -> M B) (w w' : world) (e : exn) :
  m w = (Raise e, w') -> bind m k w = (Raise e, w').
Proof. intros E. cbn [bind M_monad]. rewrite E. reflexivity. Qed.

Lemma set_frames_same (w : world) : set_frames (frames w) w = w.
Proof. destruct w. reflexivity. Qed.

Lemma lookup_snoc {A} (l : list A) (x : A) : (l ++ [x]) !! length l = Some x.
Proof. apply list_lookup_middle. reflexivity. Qed.

Lemma insert_snoc {A} (l : list A) (x y : A) : <[length l := y]> (l ++ [x]) = l ++ [y].
Proof.
  rewrite insert_app_r_alt by lia. rewrite Nat.sub_diag. reflexivity.
Qed.

Lemma deref_run (w : world) (r : ref) (f : frame) :
  frames w !! r = Some f -> deref r w = (Ok f, w).
Proof. intros E. unfold deref. rewrite E. reflexivity. Qed.

Lemma df_copy_run (w : world) (r : ref) (f : frame) :
  frames w !! r = Some f ->
  df_copy r w = (Ok (length (frames w)), set_frames (frames w ++ [f]) w).
Proof.
  intros E. unfold df_copy. rewrite (M_bind_ok _ _ _ _ _ (deref_run w r f E)).
  reflexivity.
Qed.

Lemma df_getitem_run (w : world) (r : ref) (f : frame) (n : string) :
  frames w !! r = Some f -> df_getitem r n w = (getitem f n, w).
Proof.
  intros E. unfold df_getitem, on, OnFrame.getitem. rewrite E.
  rewrite list_insert_id by exact E. rewrite set_frames_same. reflexivity.
Qed.

Lemma df_drop_run (w : world) (r : ref) (f f' : frame) (labels : list string) :
  frames w !! r = Some f -> drop f labels = Ok f' ->
  df_drop r labels w = (Ok (length (frames w)), set_frames (frames w ++ [f']) w).
Proof.
  intros E Hd. unfold df_drop. rewrite (M_bind_ok _ _ _ _ _ (deref_run w r f E)).
  unfold lift. cbn [bind M_monad]. rewrite Hd. reflexivity.
Qed.

Lemma df_drop_raise (w : world) (r : ref) (f : frame) (labels : list string) (e : exn) :
  frames w !! r = Some f -> drop f labels = Raise e ->
  df_drop r labels w = (Raise e, w).
Proof.
  intros E Hd. unfold df_drop. rewrite (M_bind_ok _ _ _ _ _ (deref_run w r f E)).
  unfold lift. cbn [bind M_monad]. rewrite Hd. reflexivity.
Qed.

(** [transform_data_] on a frame with a datetime column and no name
    clash: two new objects, the second one is the result. *)
Lemma transform_data_run (w : world) (data : ref) (f : frame) (ns : list Z) :
  frames w !! data = Some f ->
  lookup_col (time_col_ (inst w)) f = Some (List.map Stamp ns) ->
  fresh_names (inst w) f = true ->
  transform_data_ data w
  = (Ok (Datatypes.S (length (frames w))),
     set_frames (frames w ++ [with_helpers (inst w) f ns; transformed (inst w) f ns]) w).
Proof.
  intros Hd Ht Hfresh. unfold transform_data_.
  cbn [bind M_monad get_self]. rewrite (df_copy_run w data f Hd).
  unfold on at 1. cbn [frames set_frames].
  rewrite lookup_snoc, (add_features_run _ f ns Ht Hfresh), insert_snoc.
  fold (with_helpers (inst w) f ns).
  erewrite df_drop_run.
  - cbn [frames set_frames inst param_store]. rewrite length_app, <- app_assoc.
    simpl. rewrite Nat.add_1_r. reflexivity.
  - cbn [frames set_frames]. apply lookup_snoc.
  - apply drop_helpers; [|exact Hfresh]. eapply lookup_col_has_name. exact Ht.
Qed.

(** [transform_data_] only ever adds objects to the store: whatever it
    does, and whether it returns or raises, the objects that were there
    are the same afterwards, and so are the instance and the parameters. *)
Lemma transform_data_grows (w : world) (data : ref) :
  exists extra : list frame,
    snd (transform_data_ data w) = set_frames (frames w ++ extra) w.
Proof.
  unfold transform_data_. cbn [bind M_monad get_self].
  destruct (frames w !! data) as [f|] eqn:Hd.
  - rewrite (df_copy_run w data f Hd). unfold on at 1. cbn [frames set_frames].
    rewrite lookup_snoc. destruct (add_features (inst w) f) as [res f'].
    rewrite insert_snoc. destruct res as [[]|e].
    + destruct (drop f' ["weekday"; "monthday"; "yearday"]) as [f''|e] eqn:Hdrop.
      * erewrite df_drop_run; [|apply lookup_snoc|exact Hdrop].
        exists [f'; f'']. cbn. rewrite <- app_assoc. reflexivity.
      * erewrite df_drop_raise; [|apply lookup_snoc|exact Hdrop].
        exists [f']. reflexivity.
    + exists [f']. reflexivity.
  - unfold df_copy, deref. cbn [bind M_monad]. rewrite Hd.
    exists []. cbn. rewrite app_nil_r, set_frames_same. reflexivity.
Qed.

(** C8. [transform_data_] works on a copy: the frame that the caller
    passed, read through the caller's reference, has the same columns and
    the same values after the call as before it, whether the call returns
    or raises. *)
Theorem transform_data_leaves_input (w : world) (data : ref) (f : frame) :
  frames w !! data = Some f ->
  frames (snd (transform_data_ data w)) !! data = Some f.
Proof.
  intros Hd. destruct (transform_data_grows w data) as [extra ->].
  cbn [frames set_frames]. apply lookup_app_l_Some. exact Hd.
Qed.

Lemma lookup_col_In (n : string) (f : frame) (c : column) :
  lookup_col n f = Some c -> In (n, c) f.
Proof.
  induction f as [|[m c'] f IH]; simpl; [discriminate|].
  destruct (String.eqb_spec m n) as [->|_].
  - intros E. injection E as ->. left. reflexivity.
  - intros E. right. exact (IH E).
Qed.

Lemma In_setitem (f : frame) (n m : string) (col c : column) :
  In (m, c) (setitem f n col) -> (m, c) = (n, col) \/ In (m, c) f.
Proof.
  induction f as [|[k c'] f IH]; simpl.
  - intros [E|[]]. left. symmetry. exact E.
  - destruct (String.eqb_spec k n) as [->|_]; simpl.
    + intros [E|Hin]; [left; symmetry; exact E|right; right; exact Hin].
    + intros [E|Hin]; [right; left; exact E|].
      destruct (IH Hin) as [E|Hin']; [left; exact E|right; right; exact Hin'].
Qed.

Lemma nrows_setitem (f : frame) (n : string) (col : column) :
  has_name n (names f) = true -> length col = nrows f ->
  nrows (setitem f n col) = nrows f.
Proof.
  destruct f as [|[m c] f]; simpl; [discriminate|].
  intros _ Hlen. destruct (String.eqb m n); simpl; [exact Hlen|reflexivity].
Qed.

Lemma rectangular_In (f : frame) (n : string) (c : column) :
  rectangular f -> In (n, c) f -> length c = nrows f.
Proof.
  unfold rectangular. rewrite List.Forall_forall. intros Hr Hin. exact (Hr _ Hin).
Qed.

Lemma length_season_names (tag : string) (order : Z) :
  length (season_names tag order) = (2 * Z.to_nat order)%nat.
Proof.
  unfold season_names.
  assert (Hl : length (range 1 (order + 1)) = Z.to_nat order)
    by (rewrite range_length; f_equal; lia).
  rewrite <- Hl. clear Hl.
  induction (range 1 (order + 1)) as [|i l IH]; [reflexivity|].
  cbn [flat_map app length]. rewrite IH. lia.
Qed.

Lemma length_harmonic_names (self : Chronos) :
  length (harmonic_names self)
  = (2 * (Z.to_nat (year_seasonality_order_ self)
          + Z.to_nat (month_seasonality_order_ self)
          + Z.to_nat (weekly_seasonality_order_ self)))%nat.
Proof.
  unfold harmonic_names. rewrite !length_app, !length_season_names. lia.
Qed.

Lemma names_transformed (self : Chronos) (f : frame) (ns : list Z) :
  has_name (time_col_ self) (names f) = true ->
  names (transformed self f ns) = "CONST" :: names f ++ harmonic_names self.
Proof.
  intros Htime. unfold transformed. cbn [names List.map fst].
  fold (names (setitem f (time_col_ self) (days_col ns) ++ harmonic_cols self ns)).
  rewrite names_app, names_harmonic_cols, names_setitem_present by exact Htime.
  reflexivity.
Qed.

Lemma season_cols_spec (tag : string) (period : R) (ds : list Z) (order : Z)
    (n : string) (c : column) :
  In (n, c) (season_cols tag period ds order) ->
  length c = length ds /\ Forall unit_bounded c.
Proof.
  unfold season_cols. rewrite in_flat_map. intros (i & _ & [E|[E|[]]]);
    injection E as _ <-; rewrite length_map; (split; [reflexivity|]);
    apply List.Forall_forall; intros x Hx; apply in_map_iff in Hx;
    destruct Hx as (d & <- & _); eexists; (split; [reflexivity|]).
  - apply SIN_bound.
  - apply COS_bound.
Qed.

Lemma harmonic_cols_spec (self : Chronos) (ns : list Z) (n : string) (c : column) :
  In (n, c) (harmonic_cols self ns) ->
  length c = length ns /\ Forall unit_bounded c.
Proof.
  unfold harmonic_cols. rewrite !in_app_iff.
  intros [Hin|[Hin|Hin]]; apply season_cols_spec in Hin;
    rewrite length_map in Hin; exact Hin.
Qed.

(** The columns of the output: the constant, the columns of the input
    with the time column converted, and the harmonic columns. *)
Lemma In_transformed (self : Chronos) (f : frame) (ns : list Z) (n : string) (c : column) :
  In (n, c) (transformed self f ns) ->
  (n, c) = ("CONST", repeat (Num 1) (nrows (setitem f (time_col_ self) (days_col ns))))
  \/ (n, c) = (time_col_ self, days_col ns)
  \/ In (n, c) f
  \/ In (n, c) (harmonic_cols self ns).
Proof.
  unfold transformed. cbn [In]. rewrite in_app_iff.
  intros [E|[Hin|Hin]]; [left; symmetry; exact E| |right; right; right; exact Hin].
  right. apply In_setitem in Hin. destruct Hin as [E|Hin]; [left; exact E|right; left; exact Hin].
Qed.

Lemma lookup_snoc2 {A} (l : list A) (x y : A) :
  (l ++ [x; y]) !! Datatypes.S (length l) = Some y.
Proof.
  change (l ++ [x; y]) with (l ++ [x] ++ [y]). rewrite app_assoc.
  replace (Datatypes.S (length l)) with (length (l ++ [x]))
    by (rewrite length_app; simpl; lia).
  apply lookup_snoc.
Qed.

Lemma harmonic_not_const (self : Chronos) (n : string) :
  In n (harmonic_names self) -> n <> "CONST".
Proof.
  unfold harmonic_names, season_names. rewrite !in_app_iff, !in_flat_map.
  intros [(i & _ & Hn)|[(i & _ & Hn)|(i & _ & Hn)]];
    destruct Hn as [<-|[<-|[]]]; unfold sin_name, cos_name; simpl; discriminate.
Qed.

Lemma fresh_not_harmonic (self : Chronos) (f : frame) (n : string) :
  fresh_names self f = true -> In n (names f) -> ~ In n (harmonic_names self).
Proof.
  intros Hfresh Hn Hh. apply reserved_harmonic in Hh.
  apply (fresh_names_spec self f n Hfresh) in Hh.
  apply has_name_false in Hh. exact (Hh Hn).
Qed.

Lemma In_names (f : frame) (n : string) (c : column) : In (n, c) f -> In n (names f).
Proof. intros Hin. unfold names. apply in_map_iff. exists (n, c). auto. Qed.

Lemma length_days_col (ns : list Z) : length (days_col ns) = length ns.
Proof. unfold days_col. apply length_map. Qed.

(** C1 (amended). For a frame whose time column holds time stamps, whose
    columns all have the same length and none of whose names is one that
    the builder writes, and for non-negative orders (Y, M, W), the output
    of [transform_data_] has the columns of the input and exactly
    1 + 2(Y+M+W) more; every sine and cosine column is there and holds
    floats in [-1, 1]; every column has as many rows as the input. *)
Theorem transform_data_shape (w : world) (data : ref) (f : frame) (ns : list Z) :
  frames w !! data = Some f ->
  lookup_col (time_col_ (inst w)) f = Some (List.map Stamp ns) ->
  fresh_names (inst w) f = true ->
  rectangular f ->
  0 <= year_seasonality_order_ (inst w) ->
  0 <= month_seasonality_order_ (inst w) ->
  0 <= weekly_seasonality_order_ (inst w) ->
  exists (r : ref) (w' : world) (out : frame),
    transform_data_ data w = (Ok r, w')
    /\ frames w' !! r = Some out
    /\ Z.of_nat (length out)
       = Z.of_nat (length f)
         + (1 + 2 * (year_seasonality_order_ (inst w)
                     + month_seasonality_order_ (inst w)
                     + weekly_seasonality_order_ (inst w)))
    /\ (forall n, In n (harmonic_names (inst w)) -> In n (names out))
    /\ (forall n c, In (n, c) out -> In n (harmonic_names (inst w)) ->
                    Forall unit_bounded c)
    /\ rectangular out
    /\ nrows out = nrows f.
Proof.
  intros Hd Ht Hfresh Hrect HY HM HW.
  assert (Htime : has_name (time_col_ (inst w)) (names f) = true)
    by (eapply lookup_col_has_name; exact Ht).
  assert (Hns : length ns = nrows f).
  { rewrite <- (rectangular_In f _ _ Hrect (lookup_col_In _ _ _ Ht)).
    rewrite length_map. reflexivity. }
  assert (Hn1 : nrows (setitem f (time_col_ (inst w)) (days_col ns)) = nrows f).
  { apply nrows_setitem; [exact Htime|]. rewrite length_days_col. exact Hns. }
  eexists; eexists; exists (transformed (inst w) f ns).
  split; [exact (transform_data_run w data f ns Hd Ht Hfresh)|].
  split; [apply lookup_snoc2|].
  assert (Hnames := names_transformed (inst w) f ns Htime).
  split.
  { rewrite <- (length_map fst (transformed (inst w) f ns)).
    fold (names (transformed (inst w) f ns)). rewrite Hnames.
    cbn [length]. rewrite length_app, length_harmonic_names.
    unfold names. rewrite length_map. lia. }
  split.
  { intros n Hn. rewrite Hnames. right. apply in_or_app. right. exact Hn. }
  split.
  { intros n c Hin Hh. apply In_transformed in Hin.
    destruct Hin as [E|[E|[Hin|Hin]]].
    - injection E as -> _. destruct (harmonic_not_const _ _ Hh eq_refl).
    - injection E as -> _. apply has_name_In in Htime.
      destruct (fresh_not_harmonic _ _ _ Hfresh Htime Hh).
    - destruct (fresh_not_harmonic _ _ _ Hfresh (In_names _ _ _ Hin) Hh).
    - exact (proj2 (harmonic_cols_spec _ _ _ _ Hin)). }
  assert (Hrows : nrows (transformed (inst w) f ns) = nrows f).
  { unfold transformed. cbn [nrows]. rewrite repeat_length. exact Hn1. }
  split; [|exact Hrows].
  unfold rectangular. apply List.Forall_forall. intros [n c] Hin.
  cbn [snd]. rewrite Hrows. apply In_transformed in Hin.
  destruct Hin as [E|[E|[Hin|Hin]]].
  - injection E as _ ->. rewrite repeat_length. exact Hn1.
  - injection E as _ ->. rewrite length_days_col. exact Hns.
  - exact (rectangular_In f n c Hrect Hin).
  - rewrite (proj1 (harmonic_cols_spec _ _ _ _ Hin)). exact Hns.
Qed.

Lemma rectangular_two_days : rectangular two_days.
Proof. repeat constructor. Qed.

Lemma transform_data_shape_witness :
  exists (r : ref) (w' : world) (out : frame),
    transform_data_ 0%nat (world_of default two_days) = (Ok r, w')
    /\ frames w' !! r = Some out
    /\ Z.of_nat (length out) = Z.of_nat (length two_days) + (1 + 2 * (10 + 5 + 3))
    /\ (forall n, In n (harmonic_names default) -> In n (names out))
    /\ (forall n c, In (n, c) out -> In n (harmonic_names default) ->
                    Forall unit_bounded c)
    /\ rectangular out
    /\ nrows out = nrows two_days.
Proof.
  apply (transform_data_shape (world_of default two_days) 0%nat two_days
                              [0; 86400000000000]).
  - reflexivity.
  - reflexivity.
  - vm_compute. reflexivity.
  - exact rectangular_two_days.
  - simpl. lia.
  - simpl. lia.
  - simpl. lia.
Defined.

(** C1, as stated, fails: with orders (1, 1, 1) the claim gives 7 feature
    columns, but the output has 9 columns, and 8 once the target is
    dropped as [fit] and [predict] do: the time column, converted to days,
    is a feature as well. *)
Lemma transform_data_feature_count_counterexample :
  exists (r : ref) (w' : world) (out X : frame),
    transform_data_ 0%nat (world_of one_harmonic two_days) = (Ok r, w')
    /\ frames w' !! r = Some out
    /\ drop out [target_col_ one_harmonic] = Ok X
    /\ Z.of_nat (length out) <> 1 + 2 * (1 + 1 + 1)
    /\ Z.of_nat (length X) <> 1 + 2 * (1 + 1 + 1).
Proof.
  eexists; eexists; eexists; eexists.
  split.
  { apply (transform_data_run (world_of one_harmonic two_days) 0%nat two_days
                              [0; 86400000000000]); reflexivity. }
  split; [apply lookup_snoc2|].
  split; [reflexivity|].
  split.
  - change (Z.of_nat (length _)) with 9. lia.
  - change (Z.of_nat (length _)) with 8. lia.
Qed.

Lemma filter_names_drop (l g : list string) :
  (forall n, In n g -> has_name n l = true) ->
  List.filter (fun n => negb (has_name n l)) g = [].
Proof.
  induction g as [|n g IH]; simpl; intros Hg; [reflexivity|].
  rewrite (Hg n) by auto. simpl. apply IH. auto.
Qed.

Lemma filter_names_keep (l g : list string) :
  (forall n, In n g -> has_name n l = false) ->
  List.filter (fun n => negb (has_name n l)) g = g.
Proof.
  induction g as [|n g IH]; simpl; intros Hg; [reflexivity|].
  rewrite (Hg n) by auto. simpl. rewrite IH by auto. reflexivity.
Qed.

(** C6 (amended). The columns of the output are, in this order: the
    constant, the columns of the input, the yearly sine/cosine pairs for
    orders 1..Y,
    the monthly pairs for 1..M, the weekly pairs for 1..W; so the columns
    that the builder adds are the constant first, then the yearly, the
    monthly and the weekly pairs.  The output depends on the frame and the
    configuration only: a second call on the same frame, from any state
    of the store, builds the same frame. *)
Theorem transform_data_column_order (w : world) (data : ref) (f : frame) (ns : list Z) :
  frames w !! data = Some f ->
  lookup_col (time_col_ (inst w)) f = Some (List.map Stamp ns) ->
  fresh_names (inst w) f = true ->
  exists (r : ref) (w' : world) (out : frame),
    transform_data_ data w = (Ok r, w')
    /\ frames w' !! r = Some out
    /\ names out
       = "CONST" :: names f
         ++ season_names "yearly" (year_seasonality_order_ (inst w))
         ++ season_names "monthly" (month_seasonality_order_ (inst w))
         ++ season_names "weekly" (weekly_seasonality_order_ (inst w))
    /\ List.filter (fun n => negb (has_name n (names f))) (names out)
       = "CONST" :: season_names "yearly" (year_seasonality_order_ (inst w))
         ++ season_names "monthly" (month_seasonality_order_ (inst w))
         ++ season_names "weekly" (weekly_seasonality_order_ (inst w))
    /\ (forall (w2 : world) (data2 : ref),
          frames w2 !! data2 = Some f -> inst w2 = inst w ->
          exists (r2 : ref) (w2' : world),
            transform_data_ data2 w2 = (Ok r2, w2')
            /\ frames w2' !! r2 = Some out).
Proof.
  intros Hd Ht Hfresh.
  assert (Htime : has_name (time_col_ (inst w)) (names f) = true)
    by (eapply lookup_col_has_name; exact Ht).
  eexists; eexists; exists (transformed (inst w) f ns).
  split; [exact (transform_data_run w data f ns Hd Ht Hfresh)|].
  split; [apply lookup_snoc2|].
  assert (Hnames := names_transformed (inst w) f ns Htime).
  unfold harmonic_names in Hnames.
  split; [exact Hnames|].
  split.
  - rewrite Hnames. cbn [List.filter].
    rewrite (fresh_names_spec _ _ "CONST" Hfresh) by (left; reflexivity).
    cbn [negb]. rewrite List.filter_app. rewrite filter_names_drop.
    + rewrite filter_names_keep; [reflexivity|].
      intros n Hn. apply (fresh_names_spec _ _ n Hfresh).
      apply reserved_harmonic. exact Hn.
    + intros n Hn. apply has_name_In. exact Hn.
  - intros w2 data2 Hd2 Hinst. eexists; eexists.
    rewrite <- Hinst in Ht, Hfresh.
    split; [exact (transform_data_run w2 data2 f ns Hd2 Ht Hfresh)|].
    rewrite Hinst. apply lookup_snoc2.
Qed.

Lemma transform_data_column_order_witness :
  exists (r : ref) (w' : world) (out : frame),
    transform_data_ 0%nat (world_of one_harmonic two_days) = (Ok r, w')
    /\ frames w' !! r = Some out
    /\ names out
       = ["CONST"; "ds"; "y"; "yearly_sin_1"; "yearly_cos_1";
          "monthly_sin_1"; "monthly_cos_1"; "weekly_sin_1"; "weekly_cos_1"]
    /\ List.filter (fun n => negb (has_name n (names two_days))) (names out)
       = ["CONST"; "yearly_sin_1"; "yearly_cos_1";
          "monthly_sin_1"; "monthly_cos_1"; "weekly_sin_1"; "weekly_cos_1"]
    /\ (forall (w2 : world) (data2 : ref),
          frames w2 !! data2 = Some two_days -> inst w2 = one_harmonic ->
          exists (r2 : ref) (w2' : world),
            transform_data_ data2 w2 = (Ok r2, w2')
            /\ frames w2' !! r2 = Some out).
Proof.
  apply (transform_data_column_order (world_of one_harmonic two_days) 0%nat two_days
                                     [0; 86400000000000]); reflexivity.
Defined.

(** C6, as stated, fails: the yearly pairs do not follow the constant.
    The columns of the input stand between them, the time column,
    converted to days, first; here the second and the third column are
    [ds] and [y]. *)
Lemma transform_data_column_order_counterexample :
  exists (r : ref) (w' : world) (out : frame),
    transform_data_ 0%nat (world_of one_harmonic two_days) = (Ok r, w')
    /\ frames w' !! r = Some out
    /\ names out !! 1%nat = Some "ds"
    /\ names out !! 2%nat = Some "y"
    /\ names out <> "CONST" :: harmonic_names one_harmonic.
Proof.
  eexists; eexists; eexists.
  split.
  { apply (transform_data_run (world_of one_harmonic two_days) 0%nat two_days
                              [0; 86400000000000]); reflexivity. }
  split; [apply lookup_snoc2|].
  split; [reflexivity|]. split; [reflexivity|].
  intros E. discriminate E.
Qed.

Lemma transform_data_leaves_input_witness :
  frames (snd (transform_data_ 0%nat (world_of default two_days))) !! 0%nat
  = Some two_days.
Proof.
  apply (transform_data_leaves_input (world_of default two_days) 0%nat two_days).
  reflexivity.
Defined.

(** ** Valid input *)

Lemma is_datetime_stamps (c : column) :
  is_datetime c = true -> c = List.map Stamp (stamps c).
Proof.
  unfold is_datetime, stamps. induction c as [|x c IH]; simpl; [reflexivity|].
  destruct x; simpl; try discriminate. intros H. rewrite <- IH by exact H. reflexivity.
Qed.

Lemma is_series_time (self : Chronos) (f : frame) :
  is_series self f = true ->
  exists ns, lookup_col (time_col_ self) f = Some (List.map Stamp ns).
Proof.
  unfold is_series. rewrite !andb_true_iff. intros [[[_ _] Htime] Hall].
  destruct (lookup_col (time_col_ self) f) as [t|] eqn:Ht.
  - exists (stamps t). f_equal. apply is_datetime_stamps.
    rewrite forallb_forall in Hall.
    specialize (Hall _ (lookup_col_In _ _ _ Ht)). cbn [fst snd] in Hall.
    rewrite String.eqb_refl in Hall. exact Hall.
  - apply lookup_col_None in Ht. congruence.
Qed.

Lemma is_series_fresh (self : Chronos) (f : frame) :
  is_series self f = true -> fresh_names self f = true.
Proof. unfold is_series. rewrite !andb_true_iff. tauto. Qed.

Lemma torch_tensor_numeric (c : column) :
  is_numeric c = true -> torch_tensor c = Ok (List.map astype_float c).
Proof.
  unfold torch_tensor, is_numeric. induction c as [|x c IH]; simpl; [reflexivity|].
  rewrite andb_true_iff. intros [Hx Hc]. rewrite (IH Hc).
  destruct x; try discriminate; reflexivity.
Qed.

Lemma is_numeric_days_col (ns : list Z) : is_numeric (days_col ns) = true.
Proof. unfold is_numeric, days_col. apply forallb_forall. intros x Hx.
  apply in_map_iff in Hx. destruct Hx as (n & <- & _). reflexivity. Qed.

Lemma unit_bounded_numeric (c : column) : Forall unit_bounded c -> is_numeric c = true.
Proof.
  intros Hc. unfold is_numeric. apply forallb_forall. intros x Hx.
  rewrite List.Forall_forall in Hc. destruct (Hc x Hx) as (v & -> & _). reflexivity.
Qed.

Lemma distinct_NoDup (l : list string) : distinct l = true -> List.NoDup l.
Proof.
  induction l as [|n l IH]; simpl; [constructor|].
  rewrite andb_true_iff, negb_true_iff. intros [Hn Hl].
  constructor; [apply has_name_false; exact Hn|exact (IH Hl)].
Qed.

Lemma In_setitem_distinct (f : frame) (n m : string) (col c : column) :
  List.NoDup (names f) ->
  In (m, c) (setitem f n col) -> (m, c) = (n, col) \/ (m <> n /\ In (m, c) f).
Proof.
  induction f as [|[k c'] f IH]; simpl; intros Hnd.
  - intros [E|[]]. left. symmetry. exact E.
  - apply List.NoDup_cons_iff in Hnd. destruct Hnd as [Hk Hnd].
    destruct (String.eqb_spec k n) as [->|Hkn]; simpl.
    + intros [E|Hin]; [left; symmetry; exact E|right].
      split; [|right; exact Hin].
      intros ->. apply Hk. exact (In_names _ _ _ Hin).
    + intros [E|Hin].
      * right. injection E as <- <-. split; [exact Hkn|left; reflexivity].
      * destruct (IH Hnd Hin) as [E|[Hne Hin']]; [left; exact E|right].
        split; [exact Hne|right; exact Hin'].
Qed.

Lemma transformed_numeric (self : Chronos) (f : frame) (ns : list Z) (n : string) (c : column) :
  is_series self f = true ->
  In (n, c) (transformed self f ns) -> is_numeric c = true.
Proof.
  unfold is_series. rewrite !andb_true_iff. intros [[[Hd _] _] Hall].
  unfold transformed. cbn [In]. rewrite in_app_iff. intros [E|[Hin|Hin]].
  - injection E as _ <-. unfold is_numeric. apply forallb_forall.
    intros x Hx. apply repeat_spec in Hx. subst x. reflexivity.
  - apply In_setitem_distinct in Hin; [|exact (distinct_NoDup _ Hd)].
    destruct Hin as [E|[Hne Hin]].
    + injection E as _ ->. apply is_numeric_days_col.
    + rewrite forallb_forall in Hall. specialize (Hall _ Hin). cbn [fst snd] in Hall.
      apply String.eqb_neq in Hne. rewrite Hne in Hall. exact Hall.
  - apply unit_bounded_numeric. exact (proj2 (harmonic_cols_spec _ _ _ _ Hin)).
Qed.

Lemma design_matrix_run (self : Chronos) (f : frame) (ns : list Z) :
  is_series self f = true ->
  rmapM torch_tensor (List.map snd (features self f ns)) = Ok (design_matrix self f ns).
Proof.
  intros Hs. unfold design_matrix.
  assert (Hall : forall nc, In nc (features self f ns) -> is_numeric (snd nc) = true).
  { intros [n c] Hin. unfold features in Hin. apply List.filter_In in Hin.
    exact (transformed_numeric self f ns n c Hs (proj1 Hin)). }
  induction (features self f ns) as [|nc g IH]; simpl; [reflexivity|].
  rewrite torch_tensor_numeric by (apply Hall; left; reflexivity).
  simpl. rewrite IH by (intros x Hx; apply Hall; right; exact Hx). reflexivity.
Qed.

Lemma drop_target_run (self : Chronos) (f : frame) (ns : list Z) :
  has_name (target_col_ self) (names (transformed self f ns)) = true ->
  drop (transformed self f ns) [target_col_ self] = Ok (features self f ns).
Proof. intros Hy. unfold drop. cbn [List.find]. rewrite Hy. reflexivity. Qed.

(** The target column of the output is the one of the input. *)
Lemma lookup_target_transformed (self : Chronos) (f : frame) (ns : list Z) :
  fresh_names self f = true ->
  has_name (time_col_ self) (names f) = true ->
  time_col_ self <> target_col_ self ->
  has_name (target_col_ self) (reserved_names self) = false ->
  lookup_col (target_col_ self) (transformed self f ns)
  = lookup_col (target_col_ self) f.
Proof.
  intros Hfresh Htime Hne Hres. unfold transformed. cbn [lookup_col].
  destruct (String.eqb_spec "CONST" (target_col_ self)) as [E|_].
  { apply has_name_false in Hres. destruct Hres. rewrite <- E. left. reflexivity. }
  rewrite lookup_col_app, lookup_setitem_ne by exact Hne.
  destruct (lookup_col (target_col_ self) f); [reflexivity|].
  apply lookup_col_None. rewrite names_harmonic_cols.
  apply has_name_false. intros Hh. apply has_name_false in Hres. apply Hres.
  apply reserved_harmonic. exact Hh.
Qed.

Lemma present_not_reserved (self : Chronos) (f : frame) (n : string) :
  fresh_names self f = true -> has_name n (names f) = true ->
  has_name n (reserved_names self) = false.
Proof.
  intros Hfresh Hn. apply has_name_false. intros Hr.
  rewrite (fresh_names_spec self f n Hfresh Hr) in Hn. discriminate Hn.
Qed.

Lemma predictions_frame (time : string) (a b c y t : column) :
  has_name time prediction_names = false ->
  select (setitem (setitem (setitem (setitem (setitem [] "yhat" a)
                                             "yhat_lower" b)
                                    "yhat_upper" c)
                           "y" y)
                  time t)
         [time; "y"; "yhat"; "yhat_upper"; "yhat_lower"]
  = Ok [(time, t); ("y", y); ("yhat", a); ("yhat_upper", c); ("yhat_lower", b)].
Proof.
  unfold prediction_names. cbn [has_name existsb]. rewrite !orb_false_iff.
  intros (Hy & Hyhat & Hlo & Hup & _).
  rewrite (String.eqb_sym time) in Hy, Hyhat, Hlo, Hup.
  change (setitem (setitem (setitem (setitem [] "yhat" a) "yhat_lower" b)
                          "yhat_upper" c) "y" y)
    with [("yhat", a); ("yhat_lower", b); ("yhat_upper", c); ("y", y)].
  cbn [setitem]. rewrite Hy, Hyhat, Hlo, Hup.
  unfold select, getitem. cbn [rmapM lookup_col].
  rewrite Hy, Hyhat, Hlo, Hup, String.eqb_refl. reflexivity.
Qed.

Lemma df_values_run (w : world) (r : ref) (f : frame) :
  frames w !! r = Some f -> df_values r w = (Ok (List.map snd f), w).
Proof.
  intros E. unfold df_values. rewrite (M_bind_ok _ _ _ _ _ (deref_run w r f E)).
  reflexivity.
Qed.

Lemma df_columns_run (w : world) (r : ref) (f : frame) :
  frames w !! r = Some f -> df_columns r w = (Ok (names f), w).
Proof.
  intros E. unfold df_columns. rewrite (M_bind_ok _ _ _ _ _ (deref_run w r f E)).
  reflexivity.
Qed.

Lemma on_run {A} (w : world) (r : ref) (f : frame) (c : F A) :
  frames w !! r = Some f ->
  on r c w = (fst (c f), set_frames (<[r := snd (c f)]> (frames w)) w).
Proof. intros E. unfold on. rewrite E. destruct (c f). reflexivity. Qed.

Lemma df_select_run (w : world) (r : ref) (f f' : frame) (labels : list string) :
  frames w !! r = Some f -> select f labels = Ok f' ->
  df_select r labels w = (Ok (length (frames w)), set_frames (frames w ++ [f']) w).
Proof.
  intros E Hs. unfold df_select. rewrite (M_bind_ok _ _ _ _ _ (deref_run w r f E)).
  unfold lift. cbn [bind M_monad]. rewrite Hs. reflexivity.
Qed.

(** The two ranks are computed from the same two floats. *)
Lemma ntiles_inv (n : nat) (ci_interval : Q) (lower upper : Z) :
  lower_ntile n ci_interval = Ok lower ->
  upper_ntile n ci_interval = Ok upper ->
  exists space nf : Float.float,
    space_on_each_side ci_interval = Ok space
    /\ Float.of_int (Z.of_nat n) = Ok nf
    /\ Float.to_int (Float.mul nf space) = Ok lower
    /\ Float.to_int (Float.mul nf (Float.sub (Float.Finite 1) space)) = Ok upper.
Proof.
  unfold lower_ntile, upper_ntile. cbn [bind result_monad rbind].
  destruct (space_on_each_side ci_interval) as [space|e]; [|discriminate].
  destruct (Float.of_int (Z.of_nat n)) as [nf|e]; [|discriminate].
  intros Hlo Hhi. exists space, nf. repeat split; assumption.
Qed.

Lemma predict_run (predictive : predictive_draw) (w : world) (data : ref)
    (f : frame) (ns : list Z) (ys : column) (m : model_fn) (g : guide_fn)
    (sample_number : nat) (ci_interval : Q) (samples : tensor2) (lower upper : Z)
    (lo hi : list Q) :
  let self := inst w in
  predictive m g sample_number (design_matrix self f ns) = Ok samples ->
  lower_ntile (length samples) ci_interval = Ok lower ->
  upper_ntile (length samples) ci_interval = Ok upper ->
  frames w !! data = Some f ->
  is_series self f = true ->
  lookup_col (time_col_ self) f = Some (List.map Stamp ns) ->
  lookup_col (target_col_ self) f = Some ys ->
  time_col_ self <> target_col_ self ->
  has_name (time_col_ self) prediction_names = false ->
  has_name (method_ self) ["MAP"; "MLE"] = true ->
  model self = Some m -> guide self = Some g ->
  kthvalue samples lower = Ok lo ->
  kthvalue samples upper = Ok hi ->
  exists w' : world,
    predict predictive data sample_number ci_interval w
    = (Ok (length (frames w) + 4)%nat, w')
    /\ frames w' !! (length (frames w) + 4)%nat
       = Some (predictions (time_col_ self) (List.map Stamp ns)
                           (List.map astype_float ys) (mean0 samples) lo hi)
    /\ inst w' = inst w.
Proof.
  intros self Hsamples Hlower Hupper Hd Hs Ht Hy Hne Hpn Hmeth Hm Hg Hlo Hhi.
  destruct (ntiles_inv _ _ _ _ Hlower Hupper) as (space & nf & Hspace & Hnf & Elo & Ehi).
  assert (Hfresh := is_series_fresh _ _ Hs).
  assert (Htime : has_name (time_col_ self) (names f) = true)
    by (eapply lookup_col_has_name; exact Ht).
  assert (Hyn : has_name (target_col_ self) (names f) = true)
    by (eapply lookup_col_has_name; exact Hy).
  assert (Hyres := present_not_reserved _ _ _ Hfresh Hyn).
  assert (Hylook : lookup_col (target_col_ self) (transformed self f ns) = Some ys).
  { rewrite lookup_target_transformed by assumption. exact Hy. }
  unfold predict. cbn [bind M_monad get_self]. fold self.
  rewrite (transform_data_run w data f ns Hd Ht Hfresh). fold self.
  set (w1 := set_frames (frames w ++ [with_helpers self f ns; transformed self f ns]) w).
  rewrite (df_getitem_run w1 _ (transformed self f ns)) by apply lookup_snoc2.
  unfold getitem. rewrite Hylook. unfold lift at 1.
  rewrite torch_tensor_numeric.
  2: { apply (transformed_numeric self f ns (target_col_ self)); [exact Hs|].
       apply lookup_col_In. exact Hylook. }
  erewrite df_drop_run; [|apply lookup_snoc2|apply drop_target_run].
  2: { eapply lookup_col_has_name. exact Hylook. }
  set (w2 := set_frames (frames w1 ++ [features self f ns]) w1).
  rewrite (df_values_run w2 _ (features self f ns)) by apply lookup_snoc.
  unfold lift. rewrite (design_matrix_run self f ns Hs), Hmeth, Hm, Hg.
  cbn [getattr_opt]. rewrite Hsamples.
  fold (space_on_each_side ci_interval). rewrite Hspace, Hnf, Elo, Ehi.
  rewrite Hlo, Hhi. unfold alloc.
  set (P0 := setitem (setitem (setitem [] "yhat" (floats (mean0 samples)))
                              "yhat_lower" (floats lo)) "yhat_upper" (floats hi)).
  set (w3 := set_frames (frames w2 ++ [P0]) w2).
  rewrite (on_run w3 _ P0) by apply lookup_snoc.
  cbn [OnFrame.setitem fst snd].
  change (frames w3) with (frames w2 ++ [P0]). rewrite insert_snoc.
  set (P1 := setitem P0 "y" (List.map astype_float ys)).
  set (w4 := set_frames (frames w2 ++ [P1]) w3).
  assert (Hd4 : frames w4 !! data = Some f).
  { cbn [w4 w3 w2 w1 frames set_frames].
    do 3 apply lookup_app_l_Some. exact Hd. }
  rewrite (df_getitem_run w4 data f _ Hd4). unfold getitem. rewrite Ht.
  rewrite (on_run w4 _ P1) by (cbn [w4 frames set_frames]; apply lookup_snoc).
  cbn [OnFrame.setitem fst snd].
  change (frames w4) with (frames w2 ++ [P1]). rewrite insert_snoc.
  set (P2 := setitem P1 (time_col_ self) (List.map Stamp ns)).
  set (w5 := set_frames (frames w2 ++ [P2]) w4).
  erewrite (df_select_run w5 _ P2);
    [|cbn [w5 frames set_frames]; apply lookup_snoc
     |exact (predictions_frame _ _ _ _ _ _ Hpn)].
  assert (Hlen : length (frames w5) = (length (frames w) + 4)%nat).
  { cbn [w5 w4 w3 w2 w1 frames set_frames]. rewrite !length_app. simpl. lia. }
  eexists. split; [rewrite Hlen; reflexivity|].
  split; [|reflexivity].
  cbn [frames set_frames]. rewrite <- Hlen. apply lookup_snoc.
Qed.

(** [predict] on a series without the target column: the lookup of the
    target in the output of [transform_data_] raises. *)
Lemma predict_missing_target (predictive : predictive_draw) (w : world) (data : ref)
    (f : frame) (sample_number : nat) (ci_interval : Q) :
  frames w !! data = Some f ->
  is_series (inst w) f = true ->
  lookup_col (target_col_ (inst w)) f = None ->
  has_name (target_col_ (inst w)) (reserved_names (inst w)) = false ->
  exists w' : world,
    predict predictive data sample_number ci_interval w
    = (Raise (KeyError (target_col_ (inst w))), w').
Proof.
  intros Hd Hs Hy Hres. destruct (is_series_time _ _ Hs) as [ns Ht].
  assert (Hfresh := is_series_fresh _ _ Hs).
  assert (Htime : has_name (time_col_ (inst w)) (names f) = true)
    by (eapply lookup_col_has_name; exact Ht).
  assert (Hne : time_col_ (inst w) <> target_col_ (inst w)).
  { intros E. rewrite <- E, Ht in Hy. discriminate Hy. }
  unfold predict. cbn [bind M_monad get_self].
  rewrite (transform_data_run w data f ns Hd Ht Hfresh).
  rewrite (df_getitem_run _ _ (transformed (inst w) f ns)) by apply lookup_snoc2.
  unfold getitem. rewrite lookup_target_transformed, Hy by assumption.
  eexists. reflexivity.
Qed.

(** With a method that is neither MAP nor MLE, [predict] does not return,
    whatever it is given. *)
Lemma predict_unsupported_raises (predictive : predictive_draw) (w : world) (data : ref)
    (sample_number : nat) (ci_interval : Q) :
  has_name (method_ (inst w)) ["MAP"; "MLE"] = false ->
  exists (e : exn) (w' : world),
    predict predictive data sample_number ci_interval w = (Raise e, w').
Proof.
  intros Hmeth. unfold predict. cbn [bind M_monad get_self].
  destruct (transform_data_ data w) as [[r1|e] w1]; [|eauto].
  destruct (df_getitem r1 (target_col_ (inst w)) w1) as [[ycol|e] w2]; [|eauto].
  unfold lift at 1. destruct (torch_tensor ycol) as [y|e]; [|eauto].
  destruct (df_drop r1 [target_col_ (inst w)] w2) as [[r2|e] w3]; [|eauto].
  destruct (df_values r2 w3) as [[values|e] w4]; [|eauto].
  unfold lift at 1. destruct (rmapM torch_tensor values) as [X|e]; [|eauto].
  rewrite Hmeth. unfold raise, lift. eauto.
Qed.

(** On a series that has its target column, the exception is the one of
    the method dispatch. *)
Lemma predict_unsupported_run (predictive : predictive_draw) (w : world) (data : ref)
    (f : frame) (ys : column) (sample_number : nat) (ci_interval : Q) :
  frames w !! data = Some f ->
  is_series (inst w) f = true ->
  lookup_col (target_col_ (inst w)) f = Some ys ->
  time_col_ (inst w) <> target_col_ (inst w) ->
  has_name (method_ (inst w)) ["MAP"; "MLE"] = false ->
  exists w' : world,
    predict predictive data sample_number ci_interval w
    = (Raise (NotImplementedError
                ("Did not implement .predict for " ++ method_ (inst w))), w').
Proof.
  intros Hd Hs Hy Hne Hmeth. destruct (is_series_time _ _ Hs) as [ns Ht].
  assert (Hfresh := is_series_fresh _ _ Hs).
  assert (Htime : has_name (time_col_ (inst w)) (names f) = true)
    by (eapply lookup_col_has_name; exact Ht).
  assert (Hyn : has_name (target_col_ (inst w)) (names f) = true)
    by (eapply lookup_col_has_name; exact Hy).
  assert (Hyres := present_not_reserved _ _ _ Hfresh Hyn).
  assert (Hylook : lookup_col (target_col_ (inst w)) (transformed (inst w) f ns) = Some ys).
  { rewrite lookup_target_transformed by assumption. exact Hy. }
  unfold predict. cbn [bind M_monad get_self].
  rewrite (transform_data_run w data f ns Hd Ht Hfresh).
  rewrite (df_getitem_run _ _ (transformed (inst w) f ns)) by apply lookup_snoc2.
  unfold getitem. rewrite Hylook. unfold lift at 1.
  rewrite torch_tensor_numeric.
  2: { apply (transformed_numeric (inst w) f ns (target_col_ (inst w))); [exact Hs|].
       apply lookup_col_In. exact Hylook. }
  erewrite df_drop_run; [|apply lookup_snoc2|apply drop_target_run].
  2: { eapply lookup_col_has_name. exact Hylook. }
  rewrite (df_values_run _ _ (features (inst w) f ns)) by apply lookup_snoc.
  unfold lift at 1. rewrite (design_matrix_run (inst w) f ns Hs), Hmeth.
  unfold raise, lift. eexists. reflexivity.
Qed.

Lemma unsupported_method (method : string) :
  method <> "MLE" -> method <> "MAP" ->
  String.eqb method "MAP" = false /\ String.eqb method "MLE" = false
  /\ has_name method ["MAP"; "MLE"] = false /\ has_name method ["MLE"; "MAP"] = false.
Proof.
  intros Hmle Hmap. apply String.eqb_neq in Hmle, Hmap.
  unfold has_name. cbn [existsb]. rewrite Hmle, Hmap. repeat split.
Qed.

(** C4. With a configured method other than MLE and MAP: [predict] never
    returns a result, and on a series with its target column what it
    raises is the "not implemented" error of the method dispatch; the
    three seasonality getters raise their "not implemented" error, in
    any state. *)
Theorem unsupported_method_not_implemented (w : world) :
  method_ (inst w) <> "MLE" -> method_ (inst w) <> "MAP" ->
  (forall predictive data sample_number ci_interval,
      exists (e : exn) (w' : world),
        predict predictive data sample_number ci_interval w = (Raise e, w'))
  /\ (forall predictive data f ys sample_number ci_interval,
         frames w !! data = Some f ->
         is_series (inst w) f = true ->
         lookup_col (target_col_ (inst w)) f = Some ys ->
         time_col_ (inst w) <> target_col_ (inst w) ->
         exists w' : world,
           predict predictive data sample_number ci_interval w
           = (Raise (NotImplementedError
                       ("Did not implement .predict for " ++ method_ (inst w))), w'))
  /\ get_weekly_seasonality w
     = (Raise (NotImplementedError
                 "Did not implement weekly seasonality for non MAP non MLE"), w)
  /\ get_monthly_seasonality w
     = (Raise (NotImplementedError
                 "Did not implement monthly seasonality for non MAP non MLE"), w)
  /\ get_yearly_seasonality w
     = (Raise (NotImplementedError
                 "Did not implement yearly seasonality for non MAP non MLE"), w).
Proof.
  intros Hmle Hmap.
  destruct (unsupported_method _ Hmle Hmap) as (Emap & Emle & Hmeth & _).
  split; [intros; apply predict_unsupported_raises; exact Hmeth|].
  split; [intros; eapply predict_unsupported_run; eassumption|].
  unfold get_weekly_seasonality, get_monthly_seasonality, get_yearly_seasonality.
  cbn [bind M_monad get_self]. rewrite Emap, Emle. repeat split.
Qed.

Lemma unsupported_method_not_implemented_witness :
  get_weekly_seasonality (world_of mcmc two_days)
  = (Raise (NotImplementedError
              "Did not implement weekly seasonality for non MAP non MLE"),
     world_of mcmc two_days)
  /\ exists w' : world,
       predict draw_zeros 0%nat 100%nat 0.95%Q (world_of mcmc two_days)
       = (Raise (NotImplementedError "Did not implement .predict for MCMC"), w').
Proof.
  destruct (unsupported_method_not_implemented (world_of mcmc two_days))
    as (_ & Hpredict & Hweekly & _); [discriminate|discriminate|].
  split; [exact Hweekly|].
  apply (Hpredict draw_zeros 0%nat two_days [Num 1; NaN] 100%nat 0.95%Q).
  - reflexivity.
  - vm_compute. reflexivity.
  - reflexivity.
  - discriminate.
Defined.

(** ** [fit] *)

Lemma inst_on {A} (r : ref) (c : F A) (w : world) : inst (snd (on r c w)) = inst w.
Proof. unfold on. destruct (frames w !! r); [destruct (c f)|]; reflexivity. Qed.

Lemma inst_df_copy (r : ref) (w : world) : inst (snd (df_copy r w)) = inst w.
Proof.
  unfold df_copy, deref. cbn [bind M_monad].
  destruct (frames w !! r); reflexivity.
Qed.

Lemma inst_df_drop (r : ref) (labels : list string) (w : world) :
  inst (snd (df_drop r labels w)) = inst w.
Proof.
  unfold df_drop, deref, lift. cbn [bind M_monad].
  destruct (frames w !! r) as [f|]; [|reflexivity].
  destruct (drop f labels); reflexivity.
Qed.

Lemma inst_df_values (r : ref) (w : world) : inst (snd (df_values r w)) = inst w.
Proof.
  unfold df_values, deref. cbn [bind M_monad].
  destruct (frames w !! r); reflexivity.
Qed.

Lemma inst_df_columns (r : ref) (w : world) : inst (snd (df_columns r w)) = inst w.
Proof.
  unfold df_columns, deref. cbn [bind M_monad].
  destruct (frames w !! r); reflexivity.
Qed.

Lemma inst_transform_data_ (data : ref) (w : world) :
  inst (snd (transform_data_ data w)) = inst w.
Proof. destruct (transform_data_grows w data) as [extra ->]. reflexivity. Qed.

Lemma getattr_method (self : Chronos) :
  getattr_str self "method" = Raise (AttributeError "method").
Proof. reflexivity. Qed.

Lemma fit_unsupported_raises (optimise : svi_outcome) (w : world) (data : ref) :
  has_name (method_ (inst w)) ["MLE"; "MAP"] = false ->
  exists (e : exn) (w' : world), fit optimise data w = (Raise e, w').
Proof.
  intros Hmeth. unfold fit. cbn [bind M_monad get_self update_self].
  destruct (df_copy data w) as [[h|e] w0] eqn:E0; [|eauto].
  pose proof (inst_df_copy data w) as I0. rewrite E0 in I0. cbn [snd] in I0.
  destruct (transform_data_ data (set_inst (with_history h (inst w0)) w0))
    as [[r1|e] w1] eqn:E1; [|eauto].
  pose proof (inst_transform_data_ data (set_inst (with_history h (inst w0)) w0)) as I1.
  rewrite E1 in I1. cbn [snd set_inst inst] in I1.
  destruct (df_getitem r1 (target_col_ (inst w1)) w1) as [[ycol|e] w2] eqn:E2; [|eauto].
  pose proof (inst_on r1 (OnFrame.getitem (target_col_ (inst w1))) w1) as I2.
  unfold df_getitem in E2. rewrite E2 in I2. cbn [snd] in I2.
  unfold lift at 1. destruct (torch_tensor ycol) as [y|e]; [|eauto].
  destruct (df_drop r1 [target_col_ (inst w1)] w2) as [[r2|e] w3] eqn:E3; [|eauto].
  pose proof (inst_df_drop r1 [target_col_ (inst w1)] w2) as I3.
  rewrite E3 in I3. cbn [snd] in I3.
  destruct (df_values r2 w3) as [[values|e] w4] eqn:E4; [|eauto].
  pose proof (inst_df_values r2 w3) as I4. rewrite E4 in I4. cbn [snd] in I4.
  unfold lift at 1. destruct (rmapM torch_tensor values) as [X|e]; [|eauto].
  destruct (df_columns r2 w4) as [[columns|e] w5] eqn:E5; [|eauto].
  pose proof (inst_df_columns r2 w4) as I5. rewrite E5 in I5. cbn [snd] in I5.
  cbn [set_inst inst with_X_names method_].
  rewrite I5, I4, I3, I2, I1. cbn [with_history method_]. rewrite I0, Hmeth.
  unfold lift. rewrite getattr_method. eauto.
Qed.

(** On a series with its target column, [fit] with an unsupported method
    gets as far as the method dispatch: the history and the feature names
    are set, the parameter store is untouched, and reading [self.method]
    raises. *)
Lemma fit_unsupported_run (optimise : svi_outcome) (w : world) (data : ref)
    (f : frame) (ys : column) :
  frames w !! data = Some f ->
  is_series (inst w) f = true ->
  lookup_col (target_col_ (inst w)) f = Some ys ->
  time_col_ (inst w) <> target_col_ (inst w) ->
  has_name (method_ (inst w)) ["MLE"; "MAP"] = false ->
  exists w' : world,
    fit optimise data w = (Raise (AttributeError "method"), w')
    /\ history (inst w') = Some (length (frames w))
    /\ frames w' !! length (frames w) = Some f
    /\ model (inst w') = model (inst w)
    /\ param_store w' = param_store w.
Proof.
  intros Hd Hs Hy Hne Hmeth. destruct (is_series_time _ _ Hs) as [ns Ht].
  assert (Hfresh := is_series_fresh _ _ Hs).
  assert (Htime : has_name (time_col_ (inst w)) (names f) = true)
    by (eapply lookup_col_has_name; exact Ht).
  assert (Hyn : has_name (target_col_ (inst w)) (names f) = true)
    by (eapply lookup_col_has_name; exact Hy).
  assert (Hyres := present_not_reserved _ _ _ Hfresh Hyn).
  set (h := length (frames w)).
  set (self := with_history h (inst w)).
  assert (Hylook : lookup_col (target_col_ self) (transformed self f ns) = Some ys).
  { rewrite (lookup_target_transformed self f ns) by assumption. exact Hy. }
  unfold fit. cbn [bind M_monad get_self update_self].
  rewrite (df_copy_run w data f Hd). fold h.
  cbn [set_frames inst frames param_store set_inst]. fold self.
  set (w0 := set_inst self (set_frames (frames w ++ [f]) w)).
  rewrite (transform_data_run w0 data f ns);
    [|apply lookup_app_l_Some; exact Hd|exact Ht|exact Hfresh].
  set (w1 := set_frames (frames w0 ++ [with_helpers (inst w0) f ns;
                                       transformed (inst w0) f ns]) w0).
  change (inst w1) with self. change (inst w0) with self in w1.
  rewrite (df_getitem_run w1 _ (transformed self f ns)) by apply lookup_snoc2.
  unfold getitem. rewrite Hylook. unfold lift at 1.
  rewrite torch_tensor_numeric.
  2: { apply (transformed_numeric self f ns (target_col_ self)); [exact Hs|].
       apply lookup_col_In. exact Hylook. }
  erewrite df_drop_run; [|apply lookup_snoc2|apply (drop_target_run self)].
  2: { eapply lookup_col_has_name. exact Hylook. }
  set (w2 := set_frames (frames w1 ++ [features self f ns]) w1).
  rewrite (df_values_run w2 _ (features self f ns)) by apply lookup_snoc.
  unfold lift at 1. rewrite (design_matrix_run self f ns Hs).
  rewrite (df_columns_run w2 _ (features self f ns)) by apply lookup_snoc.
  cbn [set_inst inst with_X_names method_ w2 w1 w0 set_frames self with_history].
  rewrite Hmeth. unfold lift. cbn [getattr_str String.eqb Ascii.eqb Bool.eqb].
  eexists. split; [reflexivity|]. cbn [inst history frames model param_store].
  repeat split.
  cbn [frames set_inst set_frames w2 w1 w0].
  do 2 apply lookup_app_l_Some. apply lookup_snoc.
Qed.

(** C9. With a configured method other than MLE and MAP, [fit] never
    completes: it raises, whatever it is given, so the MCMC branch is
    never taken; on a series with its target column what it raises is
    the attribute error for [self.method], after the history was stored
    and without any training. *)
Theorem fit_unsupported_method_attribute_error (w : world) :
  method_ (inst w) <> "MLE" -> method_ (inst w) <> "MAP" ->
  (forall optimise data,
      exists (e : exn) (w' : world), fit optimise data w = (Raise e, w'))
  /\ (forall optimise data f ys,
         frames w !! data = Some f ->
         is_series (inst w) f = true ->
         lookup_col (target_col_ (inst w)) f = Some ys ->
         time_col_ (inst w) <> target_col_ (inst w) ->
         exists w' : world,
           fit optimise data w = (Raise (AttributeError "method"), w')
           /\ history (inst w') = Some (length (frames w))
           /\ frames w' !! length (frames w) = Some f
           /\ model (inst w') = model (inst w)
           /\ param_store w' = param_store w).
Proof.
  intros Hmle Hmap.
  destruct (unsupported_method _ Hmle Hmap) as (_ & _ & _ & Hmeth).
  split; [intros; apply fit_unsupported_raises; exact Hmeth|].
  intros. eapply fit_unsupported_run; eassumption.
Qed.

Lemma fit_unsupported_method_attribute_error_witness :
  exists w' : world,
    fit no_training 0%nat (world_of mcmc two_days)
    = (Raise (AttributeError "method"), w')
    /\ history (inst w') = Some 1%nat
    /\ frames w' !! 1%nat = Some two_days
    /\ model (inst w') = None
    /\ param_store w' = ∅.
Proof.
  destruct (fit_unsupported_method_attribute_error (world_of mcmc two_days))
    as [_ Hfit]; [discriminate|discriminate|].
  apply (Hfit no_training 0%nat two_days [Num 1; NaN]).
  - reflexivity.
  - vm_compute. reflexivity.
  - reflexivity.
  - discriminate.
Defined.


(** ** Order statistics *)

Lemma Forall_insert_sorted (P : Q -> Prop) (x : Q) (l : list Q) :
  P x -> Forall P l -> Forall P (insert_sorted x l).
Proof.
  intros Hx Hl. induction Hl as [|y l Hy Hl IH]; simpl.
  - constructor; [exact Hx|constructor].
  - destruct (Qle_bool x y); constructor; auto.
Qed.

Lemma insert_sorted_sorted (x : Q) (l : list Q) :
  StronglySorted Qle l -> StronglySorted Qle (insert_sorted x l).
Proof.
  induction 1 as [|y l Hs IH Hy]; simpl.
  - constructor; constructor.
  - destruct (Qle_bool x y) eqn:E.
    + apply Qle_bool_iff in E. constructor; [constructor; assumption|].
      constructor; [exact E|].
      eapply List.Forall_impl; [|exact Hy]. intros z Hz. cbv beta in Hz.
      eapply Qle_trans; eassumption.
    + constructor; [exact IH|].
      apply Forall_insert_sorted; [|exact Hy].
      apply Qlt_le_weak. apply Qnot_le_lt. intros Hle.
      apply Qle_bool_iff in Hle. congruence.
Qed.

Lemma sort_sorted (l : list Q) : StronglySorted Qle (sort l).
Proof.
  unfold sort. induction l as [|x l IH]; simpl; [constructor|].
  apply insert_sorted_sorted. exact IH.
Qed.

Lemma length_insert_sorted (x : Q) (l : list Q) :
  length (insert_sorted x l) = Datatypes.S (length l).
Proof.
  induction l as [|y l IH]; simpl; [reflexivity|].
  destruct (Qle_bool x y); simpl; [reflexivity|]. rewrite IH. reflexivity.
Qed.

Lemma length_sort (l : list Q) : length (sort l) = length l.
Proof.
  unfold sort. induction l as [|x l IH]; simpl; [reflexivity|].
  rewrite length_insert_sorted, IH. reflexivity.
Qed.

Lemma nth_sorted (l : list Q) :
  StronglySorted Qle l ->
  forall i j : nat, (i <= j)%nat -> (j < length l)%nat ->
  (nth i l 0 <= nth j l 0)%Q.
Proof.
  induction 1 as [|x l Hs IH Hx]; intros i j Hij Hj; simpl in Hj; [lia|].
  destruct i as [|i], j as [|j]; simpl.
  - apply Qle_refl.
  - rewrite List.Forall_forall in Hx. apply Hx. apply nth_In. lia.
  - lia.
  - apply IH; lia.
Qed.

Lemma length_along_dim0 (t : tensor2) (j : nat) : length (along_dim0 t j) = length t.
Proof. unfold along_dim0. apply length_map. Qed.

(** Two ranks within range select ordered values, row by row. *)
Lemma kthvalue_ordered (t : tensor2) (k1 k2 : Z) :
  1 <= k1 -> k1 <= k2 -> k2 <= Z.of_nat (length t) ->
  exists lo hi : list Q,
    kthvalue t k1 = Ok lo /\ kthvalue t k2 = Ok hi
    /\ length lo = row_count t /\ length hi = row_count t
    /\ forall (row : nat) (a b : Q),
         lo !! row = Some a -> hi !! row = Some b -> (a <= b)%Q.
Proof.
  intros H1 H12 H2n. unfold kthvalue.
  replace ((1 <=? k1) && (k1 <=? Z.of_nat (length t))) with true
    by (symmetry; apply andb_true_iff; split; apply Z.leb_le; lia).
  replace ((1 <=? k2) && (k2 <=? Z.of_nat (length t))) with true
    by (symmetry; apply andb_true_iff; split; apply Z.leb_le; lia).
  eexists; eexists. split; [reflexivity|]. split; [reflexivity|].
  split; [rewrite length_map, length_seq; reflexivity|].
  split; [rewrite length_map, length_seq; reflexivity|].
  intros row a b Ha Hb.
  rewrite list_lookup_fmap in Ha, Hb.
  destruct (seq 0 (row_count t) !! row) as [j|]; [|discriminate].
  cbn in Ha, Hb. injection Ha as <-. injection Hb as <-.
  apply nth_sorted; [apply sort_sorted|lia|].
  rewrite length_sort, length_along_dim0. lia.
Qed.

Lemma int_of_Q_nonneg (q : Q) : (0 <= q)%Q -> int_of_Q q = Qfloor q.
Proof.
  intros Hq. unfold int_of_Q. apply Qle_bool_iff in Hq. rewrite Hq. reflexivity.
Qed.

(** *** Rounding to binary64 *)

Section Rounding.
Import Float.

Lemma pow2_pos (e : Z) : (0 < 2 ^ e)%Q.
Proof. apply Qpower_0_lt. reflexivity. Qed.

Lemma pow2_le (a b : Z) : a <= b -> (2 ^ a <= 2 ^ b)%Q.
Proof. intros H. apply Qpower_le_compat_l; [exact H|discriminate]. Qed.

Lemma pow2_add (a b : Z) : (2 ^ (a + b) == 2 ^ a * 2 ^ b)%Q.
Proof. apply Qpower_plus. discriminate. Qed.

Lemma pow2_sub (a b : Z) : (2 ^ (a - b) == 2 ^ a / 2 ^ b)%Q.
Proof. apply Qpower_minus. discriminate. Qed.

Lemma pow2_Z (k : Z) : 0 <= k -> (2 ^ k == inject_Z (2 ^ k))%Q.
Proof. intros H. symmetry. apply (Zpower_Qpower 2 k H). Qed.

(** A quotient of two powers of two with a non-negative difference is an
    integer. *)
Lemma pow2_quot (k e : Z) : e <= k -> (2 ^ k / 2 ^ e == inject_Z (2 ^ (k - e)))%Q.
Proof. intros H. rewrite <- pow2_sub. apply pow2_Z. lia. Qed.

Lemma binade_bounds (q : Q) :
  (0 < q)%Q ->
  let e0 := Z.log2 (Qnum q) - Z.log2 (Zpos (Qden q)) in
  (2 ^ (e0 - 1) < q)%Q /\ (q < 2 ^ (e0 + 1))%Q.
Proof.
  destruct q as [n d]. intros Hq e0. cbn [Qnum Qden] in e0.
  assert (Hn : 0 < n) by (unfold Qlt in Hq; cbn in Hq; lia).
  destruct (Z.log2_spec n Hn) as [Hn1 Hn2].
  destruct (Z.log2_spec (Zpos d) (Pos2Z.is_pos d)) as [Hd1 Hd2].
  assert (Hln := Z.log2_nonneg n). assert (Hld := Z.log2_nonneg (Zpos d)).
  rewrite Z.pow_succ_r in Hn2, Hd2 by assumption.
  set (ln := Z.log2 n) in *. set (ld := Z.log2 (Zpos d)) in *.
  assert (Hq' : (n # d == inject_Z n / inject_Z (Zpos d))%Q) by apply Qmake_Qdiv.
  assert (Hdpos : (0 < inject_Z (Zpos d))%Q) by reflexivity.
  split.
  - replace (e0 - 1) with (ln - (ld + 1)) by (unfold e0; lia).
    rewrite pow2_sub, (pow2_Z ln), (pow2_Z (ld + 1)), Hq' by lia.
    apply Qlt_shift_div_l; [exact Hdpos|].
    unfold Qdiv. rewrite <- Qmult_assoc, (Qmult_comm (/ _)), Qmult_assoc.
    apply Qlt_shift_div_r; [rewrite <- (pow2_Z (ld + 1)) by lia; apply pow2_pos|].
    rewrite <- !inject_Z_mult, <- Zlt_Qlt. 
    replace (2 ^ (ld + 1)) with (2 * 2 ^ ld) by (rewrite Z.pow_add_r by lia; change (2 ^ 1) with 2; lia).
    nia.
  - replace (e0 + 1) with (ln + 1 - ld) by (unfold e0; lia).
    rewrite pow2_sub, (pow2_Z (ln + 1)), (pow2_Z ld), Hq' by lia.
    apply Qlt_shift_div_r; [exact Hdpos|].
    unfold Qdiv. rewrite <- Qmult_assoc, (Qmult_comm (/ _)), Qmult_assoc.
    apply Qlt_shift_div_l; [rewrite <- (pow2_Z ld) by lia; apply pow2_pos|].
    rewrite <- !inject_Z_mult, <- Zlt_Qlt.
    replace (2 ^ (ln + 1)) with (2 * 2 ^ ln) by (rewrite Z.pow_add_r by lia; change (2 ^ 1) with 2; lia).
    nia.
Qed.

Lemma binade_spec (q : Q) :
  (0 < q)%Q -> (2 ^ binade q <= q)%Q /\ (q < 2 ^ (binade q + 1))%Q.
Proof.
  intros Hq. destruct (binade_bounds q Hq) as [Hlo Hhi]. unfold binade.
  set (e0 := Z.log2 (Qnum q) - Z.log2 (Zpos (Qden q))) in *.
  destruct (Qle_bool (2 ^ e0) q) eqn:E.
  - split; [apply Qle_bool_iff; exact E|exact Hhi].
  - split; [apply Qlt_le_weak; exact Hlo|].
    replace (e0 - 1 + 1) with e0 by lia.
    apply Qnot_le_lt. intros H. apply Qle_bool_iff in H. congruence.
Qed.

Lemma binade_le (a b : Q) : (0 < a)%Q -> (a <= b)%Q -> binade a <= binade b.
Proof.
  intros Ha Hab.
  assert (Hb : (0 < b)%Q) by (eapply Qlt_le_trans; eassumption).
  destruct (binade_spec a Ha) as [A1 A2]. destruct (binade_spec b Hb) as [B1 B2].
  assert (binade a < binade b + 1); [|lia].
  apply (Qpower_lt_compat_l_inv 2); [|reflexivity].
  eapply Qle_lt_trans; [exact A1|]. eapply Qle_lt_trans; [exact Hab|exact B2].
Qed.

Lemma round_half_even_bounds (q : Q) :
  Qfloor q <= round_half_even q <= Qfloor q + 1.
Proof.
  unfold round_half_even.
  destruct (q - inject_Z (Qfloor q) ?= 1 # 2)%Q; [destruct (Z.even (Qfloor q))|..]; lia.
Qed.

Lemma round_half_even_le (a b : Q) :
  (a <= b)%Q -> round_half_even a <= round_half_even b.
Proof.
  intros Hab. assert (Hf := Qfloor_resp_le a b Hab).
  destruct (Z.eq_dec (Qfloor a) (Qfloor b)) as [E|Hne].
  - unfold round_half_even. rewrite E.
    destruct (Qcompare_spec (a - inject_Z (Qfloor b)) (1 # 2)) as [Ha|Ha|Ha];
      destruct (Qcompare_spec (b - inject_Z (Qfloor b)) (1 # 2)) as [Hb|Hb|Hb];
      try destruct (Z.even (Qfloor b)); try lia; exfalso; lra.
  - assert (Ha := round_half_even_bounds a). assert (Hb := round_half_even_bounds b). lia.
Qed.

Lemma round_half_even_comp (a b : Q) :
  (a == b)%Q -> round_half_even a = round_half_even b.
Proof.
  intros E. apply Z.le_antisymm; apply round_half_even_le; rewrite E; apply Qle_refl.
Qed.

Lemma round_half_even_Z (z : Z) : round_half_even (inject_Z z) = z.
Proof.
  unfold round_half_even. rewrite Qfloor_Z.
  destruct (Qcompare_spec (inject_Z z - inject_Z z) (1 # 2)) as [H|H|H];
    [exfalso; lra|reflexivity|exfalso; lra].
Qed.

Lemma on_grid_le (e : Z) (a b : Q) : (a <= b)%Q -> (on_grid e a <= on_grid e b)%Q.
Proof.
  intros Hab. unfold on_grid. assert (Hp := pow2_pos e).
  apply Qmult_le_compat_r; [|apply Qlt_le_weak; exact Hp].
  rewrite <- Zle_Qle. apply round_half_even_le.
  unfold Qdiv. apply Qmult_le_compat_r; [exact Hab|].
  apply Qlt_le_weak. apply Qinv_lt_0_compat. exact Hp.
Qed.

Lemma on_grid_pow2 (e k : Z) : e <= k -> (on_grid e (2 ^ k) == 2 ^ k)%Q.
Proof.
  intros H. unfold on_grid.
  rewrite (round_half_even_comp _ _ (pow2_quot k e H)), round_half_even_Z.
  rewrite <- pow2_Z by lia. rewrite <- pow2_add. replace (k - e + e) with k by lia.
  reflexivity.
Qed.

Lemma on_grid_Z (e : Z) (z : Z) : e <= 0 -> (on_grid e (inject_Z z) == inject_Z z)%Q.
Proof.
  intros H. unfold on_grid.
  assert (E : (inject_Z z / 2 ^ e == inject_Z (z * 2 ^ (- e)))%Q).
  { rewrite inject_Z_mult, <- pow2_Z by lia. rewrite Qpower_opp. reflexivity. }
  rewrite (round_half_even_comp _ _ E), round_half_even_Z.
  rewrite inject_Z_mult, <- pow2_Z by lia. rewrite <- Qmult_assoc, <- pow2_add.
  replace (- e + e) with 0 by lia. change (2 ^ 0)%Q with 1%Q. ring.
Qed.

Lemma round_pos (prec emin : Z) (q : Q) :
  (0 < q)%Q -> round prec emin q = on_grid (Z.max (binade q - (prec - 1)) emin) q.
Proof.
  intros Hq. unfold round.
  destruct (Qcompare_spec q 0) as [H|H|H]; [exfalso; lra|exfalso; lra|reflexivity].
Qed.

Lemma round_zero (prec emin : Z) (q : Q) : (q == 0)%Q -> round prec emin q = 0%Q.
Proof.
  intros Hq. unfold round.
  destruct (Qcompare_spec q 0) as [H|H|H]; [reflexivity|exfalso; lra|exfalso; lra].
Qed.

Lemma on_grid_nonneg (e : Z) (q : Q) : (0 <= q)%Q -> (0 <= on_grid e q)%Q.
Proof.
  intros Hq. unfold on_grid. assert (Hp := pow2_pos e).
  apply Qmult_le_0_compat; [|apply Qlt_le_weak; exact Hp].
  change 0%Q with (inject_Z 0). rewrite <- Zle_Qle.
  rewrite <- (round_half_even_Z 0). apply round_half_even_le.
  change (inject_Z 0) with 0%Q. apply Qle_shift_div_l; [exact Hp|]. lra.
Qed.

Lemma round_nonneg (prec emin : Z) (q : Q) : (0 <= q)%Q -> (0 <= round prec emin q)%Q.
Proof.
  intros Hq. destruct (Qlt_le_dec 0 q) as [Hpos|Hle].
  - rewrite round_pos by exact Hpos. apply on_grid_nonneg. exact Hq.
  - rewrite round_zero by lra. apply Qle_refl.
Qed.

(** Rounding is monotone. *)
Lemma round_le (prec emin : Z) (a b : Q) :
  1 <= prec -> (0 <= a)%Q -> (a <= b)%Q -> (round prec emin a <= round prec emin b)%Q.
Proof.
  intros Hprec Ha Hab. destruct (Qlt_le_dec 0 a) as [Hpos|Hle].
  2: { rewrite (round_zero _ _ a) by lra. apply round_nonneg. lra. }
  assert (Hb : (0 < b)%Q) by lra.
  rewrite !round_pos by assumption.
  assert (Hbin := binade_le a b Hpos Hab).
  set (ea := Z.max (binade a - (prec - 1)) emin).
  set (eb := Z.max (binade b - (prec - 1)) emin).
  destruct (Z.eq_dec ea eb) as [E|Hne].
  - rewrite E. apply on_grid_le. exact Hab.
  - assert (Hlt : binade a < binade b) by (unfold ea, eb in Hne; lia).
    destruct (binade_spec a Hpos) as [_ A2]. destruct (binade_spec b Hb) as [B1 _].
    apply Qle_trans with (2 ^ binade b)%Q.
    + rewrite <- (on_grid_pow2 ea (binade b)) by (unfold ea; lia).
      apply on_grid_le. apply Qlt_le_weak. eapply Qlt_le_trans; [exact A2|].
      apply pow2_le. lia.
    + rewrite <- (on_grid_pow2 eb (binade b)) at 1 by (unfold eb, ea in *; lia).
      apply on_grid_le. exact B1.
Qed.

(** The integers below 2^prec are representable. *)
Lemma round_Z (prec emin : Z) (z : Z) :
  1 <= prec -> emin <= 0 -> 0 <= z < 2 ^ prec ->
  (round prec emin (inject_Z z) == inject_Z z)%Q.
Proof.
  intros Hprec Hemin Hz. destruct (Z.eq_dec z 0) as [->|Hnz].
  - rewrite round_zero by reflexivity. reflexivity.
  - assert (Hpos : (0 < inject_Z z)%Q) by (change 0%Q with (inject_Z 0); rewrite <- Zlt_Qlt; lia).
    rewrite round_pos by exact Hpos. apply on_grid_Z.
    destruct (binade_spec _ Hpos) as [B1 _].
    assert (binade (inject_Z z) < prec); [|lia].
    apply (Qpower_lt_compat_l_inv 2); [|reflexivity].
    eapply Qle_lt_trans; [exact B1|].
    rewrite pow2_Z by lia. rewrite <- Zlt_Qlt. lia.
Qed.

Lemma float64_le (a b : Q) : (0 <= a)%Q -> (a <= b)%Q -> (float64 a <= float64 b)%Q.
Proof. apply round_le. lia. Qed.

Lemma float64_Z (z : Z) : 0 <= z < 2 ^ 53 -> (float64 (inject_Z z) == inject_Z z)%Q.
Proof. apply round_Z; lia. Qed.

Lemma float64_half : (float64 (1 # 2) == 1 # 2)%Q.
Proof. vm_compute. reflexivity. Qed.

Lemma float64_max_large (z : Z) : z < 2 ^ 53 -> (inject_Z z <= float64_max)%Q.
Proof.
  intros H. apply Qle_trans with (inject_Z (2 ^ 53 - 1)).
  - rewrite <- Zle_Qle. lia.
  - vm_compute. discriminate.
Qed.

(** An exact result between 0 and a float [b] gives a finite float
    between 0 and [b]. *)
Lemma of_Q_finite (q b : Q) :
  (0 <= q)%Q -> (q <= b)%Q -> (float64 b == b)%Q -> (b <= float64_max)%Q ->
  of_Q q = Finite (float64 q) /\ (0 <= float64 q)%Q /\ (float64 q <= b)%Q.
Proof.
  intros H0 Hb Eb Hmax.
  assert (Hr0 : (0 <= float64 q)%Q) by (apply round_nonneg; exact H0).
  assert (Hrb : (float64 q <= b)%Q) by (rewrite <- Eb; apply float64_le; assumption).
  split; [|split; assumption].
  unfold of_Q. replace (Qle_bool (Qabs (float64 q)) float64_max) with true; [reflexivity|].
  symmetry. apply Qle_bool_iff. rewrite Qabs_pos by exact Hr0.
  eapply Qle_trans; eassumption.
Qed.

End Rounding.

(** For a level strictly between 0 and 1 and fewer than 2^53 samples,
    both ranks are computed without overflow, and
    0 <= lower <= upper <= n. *)
Lemma ntiles_in_range (n : nat) (ci_interval : Q) :
  (0 < ci_interval)%Q -> (ci_interval < 1)%Q -> Z.of_nat n < 2 ^ 53 ->
  exists lower upper : Z,
    lower_ntile n ci_interval = Ok lower /\ upper_ntile n ci_interval = Ok upper
    /\ 0 <= lower /\ lower <= upper /\ upper <= Z.of_nat n.
Proof.
  intros H0 H1 Hn.
  assert (E1 : (Float.float64 1 == 1)%Q) by (apply (float64_Z 1); lia).
  assert (M1 : (1 <= Float.float64_max)%Q) by (apply (float64_max_large 1); lia).
  assert (Mh : ((1 # 2) <= Float.float64_max)%Q) by lra.
  destruct (of_Q_finite ci_interval 1) as (Ec & Hc0 & Hc1); [lra|lra|exact E1|exact M1|].
  set (c := Float.float64 ci_interval) in *.
  destruct (of_Q_finite (1 - c) 1) as (Ea & Ha0 & Ha1); [lra|lra|exact E1|exact M1|].
  set (a := Float.float64 (1 - c)) in *.
  assert (Eh : (a / 2 == a * (1 # 2))%Q) by field.
  destruct (of_Q_finite (a / 2) (1 # 2)) as (Es & Hs0 & Hs1);
    [lra|lra|exact float64_half|exact Mh|].
  set (s := Float.float64 (a / 2)) in *.
  destruct (of_Q_finite (1 - s) 1) as (Eu & Hu0 & Hu1); [lra|lra|exact E1|exact M1|].
  assert (Hu2 : ((1 # 2) <= Float.float64 (1 - s))%Q).
  { rewrite <- float64_half. apply float64_le; lra. }
  set (u := Float.float64 (1 - s)) in *.
  set (N := inject_Z (Z.of_nat n)).
  assert (HN0 : (0 <= N)%Q).
  { unfold N. change 0%Q with (inject_Z 0). rewrite <- Zle_Qle. lia. }
  assert (EN : (Float.float64 N == N)%Q) by (apply float64_Z; lia).
  assert (MN : (N <= Float.float64_max)%Q) by (apply float64_max_large; exact Hn).
  destruct (of_Q_finite N N) as (Ef & _ & _); [exact HN0|lra|exact EN|exact MN|].
  set (nf := Float.float64 N) in *.
  destruct (of_Q_finite (nf * s) N) as (El & Hl0 & Hl1); [nra|nra|exact EN|exact MN|].
  destruct (of_Q_finite (nf * u) N) as (Eup & Hup0 & Hup1); [nra|nra|exact EN|exact MN|].
  assert (Hlu : (Float.float64 (nf * s) <= Float.float64 (nf * u))%Q)
    by (apply float64_le; nra).
  exists (Qfloor (Float.float64 (nf * s))), (Qfloor (Float.float64 (nf * u))).
  unfold lower_ntile, upper_ntile, space_on_each_side, Float.of_int.
  fold N. rewrite Ec, Ef. cbn [Float.sub]. rewrite Ea. cbn [Float.div].
  change (Qeq_bool 2 0) with false. cbv iota. rewrite Es.
  cbn [bind result_monad rbind Float.sub Float.mul]. rewrite Eu.
  cbn [Float.mul]. rewrite El, Eup. cbn [Float.to_int].
  rewrite !int_of_Q_nonneg by assumption.
  split; [reflexivity|]. split; [reflexivity|].
  split; [|split].
  - rewrite <- (Qfloor_Z 0). apply Qfloor_resp_le. exact Hl0.
  - apply Qfloor_resp_le. exact Hlu.
  - rewrite <- (Qfloor_Z (Z.of_nat n)). apply Qfloor_resp_le. exact Hup1.
Qed.

Lemma lookup_map {A B} (h : A -> B) (l : list A) (i : nat) :
  List.map h l !! i = option_map h (l !! i).
Proof.
  revert i. induction l as [|a l IH]; intros [|i]; simpl; try reflexivity. apply IH.
Qed.

Lemma lookup_floats (l : list Q) (row : nat) (x : cell) :
  floats l !! row = Some x -> exists q : Q, l !! row = Some q /\ x = Num (Q2R q).
Proof.
  unfold floats, column. rewrite lookup_map.
  destruct (l !! row) as [q|]; [|discriminate].
  cbn. intros E. injection E as <-. exists q. split; reflexivity.
Qed.

(** [predict] returns, for a fitted point-estimate model, a series with
    its target column and ranks within range: the frame it returns, and
    the order of the two bounds. *)
Lemma predict_returns (predictive : predictive_draw) (w : world)
    (data : ref) (f : frame) (ns : list Z) (ys : column) (m : model_fn) (g : guide_fn)
    (sample_number : nat) (ci_interval : Q) (rank : Z) :
  frames w !! data = Some f ->
  is_series (inst w) f = true ->
  lookup_col (time_col_ (inst w)) f = Some (List.map Stamp ns) ->
  lookup_col (target_col_ (inst w)) f = Some ys ->
  time_col_ (inst w) <> target_col_ (inst w) ->
  has_name (time_col_ (inst w)) prediction_names = false ->
  has_name (method_ (inst w)) ["MAP"; "MLE"] = true ->
  model (inst w) = Some m -> guide (inst w) = Some g ->
  draws predictive m g sample_number (nrows f) ->
  (0 < ci_interval)%Q -> (ci_interval < 1)%Q ->
  Z.of_nat sample_number < 2 ^ 53 ->
  lower_ntile sample_number ci_interval = Ok rank -> 1 <= rank ->
  exists (w' : world) (samples : tensor2) (lo hi : list Q),
    (predictive m g sample_number (design_matrix (inst w) f ns) = Ok samples
     /\ row_count samples = nrows f)
    /\ predict predictive data sample_number ci_interval w
       = (Ok (length (frames w) + 4)%nat, w')
    /\ frames w' !! (length (frames w) + 4)%nat
       = Some (predictions (time_col_ (inst w)) (List.map Stamp ns)
                           (List.map astype_float ys) (mean0 samples) lo hi)
    /\ length lo = nrows f /\ length hi = nrows f
    /\ forall (row : nat) (a b : Q),
         lo !! row = Some a -> hi !! row = Some b -> (a <= b)%Q.
Proof.
  intros Hd Hs Ht Hy Hne Hpn Hmeth Hm Hg Hshape H0 H1 Hbig Hrank Hlow.
  destruct (Hshape (design_matrix (inst w) f ns)) as (samples & Hsamples & Hn & Hrows).
  destruct (ntiles_in_range sample_number ci_interval H0 H1 Hbig)
    as (lower & upper & Hlower & Hupper & _ & Hlu & Hun).
  rewrite Hlower in Hrank. injection Hrank as ->.
  rewrite <- Hn in Hlower, Hupper, Hun.
  destruct (kthvalue_ordered samples _ _ Hlow Hlu Hun)
    as (lo & hi & Hklo & Hkhi & Hllo & Hlhi & Hle).
  assert (Hrc : row_count samples = nrows f).
  { assert (Hpos : (0 < length samples)%nat) by lia.
    revert Hrows Hpos. generalize samples.
    intros [|s0 t] Hrows Hpos; [simpl in Hpos; lia|].
    exact (List.Forall_inv Hrows). }
  destruct (predict_run predictive w data f ns ys m g sample_number ci_interval
              samples rank upper lo hi
              Hsamples Hlower Hupper Hd Hs Ht Hy Hne Hpn Hmeth Hm Hg Hklo Hkhi)
    as (w' & Hrun & Hlook & _).
  exists w', samples, lo, hi. rewrite Hllo, Hlhi.
  split; [split; assumption|]. rewrite Hrc.
  repeat (split; [assumption || reflexivity|]). exact Hle.
Qed.

(** C2 (amended). For a fitted point-estimate model, a series with its
    target column, a [Predictive] that draws [n] samples (fewer than
    2^53) of one value per row, and a confidence level strictly between 0
    and 1 for which the lower rank that the code computes in floats,
    int(n * ((1.0 - level) / 2.0)), is at least 1, [predict] returns a
    frame with one [yhat_lower] and one [yhat_upper] per row of the input,
    and yhat_lower <= yhat_upper on every row.  (Nothing is said of
    [yhat].) *)
Theorem predict_interval_ordered (predictive : predictive_draw) (w : world)
    (data : ref) (f : frame) (ys : column) (m : model_fn) (g : guide_fn)
    (sample_number : nat) (ci_interval : Q) (rank : Z) :
  frames w !! data = Some f ->
  is_series (inst w) f = true ->
  lookup_col (target_col_ (inst w)) f = Some ys ->
  time_col_ (inst w) <> target_col_ (inst w) ->
  has_name (time_col_ (inst w)) prediction_names = false ->
  has_name (method_ (inst w)) ["MAP"; "MLE"] = true ->
  model (inst w) = Some m -> guide (inst w) = Some g ->
  draws predictive m g sample_number (nrows f) ->
  (0 < ci_interval)%Q -> (ci_interval < 1)%Q ->
  Z.of_nat sample_number < 2 ^ 53 ->
  lower_ntile sample_number ci_interval = Ok rank -> 1 <= rank ->
  exists (r : ref) (w' : world) (preds : frame) (lower upper : column),
    predict predictive data sample_number ci_interval w = (Ok r, w')
    /\ frames w' !! r = Some preds
    /\ lookup_col "yhat_lower" preds = Some lower
    /\ lookup_col "yhat_upper" preds = Some upper
    /\ length lower = nrows f /\ length upper = nrows f
    /\ forall (row : nat) (a b : cell),
         lower !! row = Some a -> upper !! row = Some b ->
         exists x y : R, a = Num x /\ b = Num y /\ (x <= y)%R.
Proof.
  intros Hd Hs Hy Hne Hpn Hmeth Hm Hg Hshape H0 H1 Hbig Hrank Hlow.
  destruct (is_series_time _ _ Hs) as [ns Ht].
  destruct (predict_returns predictive w data f ns ys m g sample_number ci_interval rank
              Hd Hs Ht Hy Hne Hpn Hmeth Hm Hg Hshape H0 H1 Hbig Hrank Hlow)
    as (w' & samples & lo & hi & _ & Hrun & Hlook & Hllo & Hlhi & Hle).
  unfold prediction_names in Hpn. cbn [has_name existsb] in Hpn.
  rewrite !orb_false_iff in Hpn. destruct Hpn as (_ & _ & Hnlo & Hnup & _).
  exists (length (frames w) + 4)%nat, w'. eexists. exists (floats lo), (floats hi).
  split; [exact Hrun|]. split; [exact Hlook|].
  unfold predictions. cbn [lookup_col]. rewrite Hnlo, Hnup.
  split; [reflexivity|]. split; [reflexivity|].
  unfold floats. rewrite !length_map.
  split; [exact Hllo|]. split; [exact Hlhi|].
  intros row a b Ha Hb.
  apply lookup_floats in Ha, Hb.
  destruct Ha as (qa & Ha & ->), Hb as (qb & Hb & ->).
  exists (Q2R qa), (Q2R qb). split; [reflexivity|]. split; [reflexivity|].
  apply Qle_Rle. exact (Hle row qa qb Ha Hb).
Qed.

Lemma draw_outlier_shape (m : model_fn) (g : guide_fn) :
  draws draw_outlier m g 100%nat (nrows two_days).
Proof.
  intros X. eexists. split; [reflexivity|]. split; [reflexivity|].
  apply List.Forall_app. split.
  - apply List.Forall_forall. intros s Hs. apply repeat_spec in Hs. subst s. reflexivity.
  - repeat constructor.
Qed.

Lemma predict_interval_ordered_witness :
  exists (r : ref) (w' : world) (preds : frame) (lower upper : column),
    predict draw_outlier 0%nat 100%nat 0.95%Q (world_of fitted_mle two_days) = (Ok r, w')
    /\ frames w' !! r = Some preds
    /\ lookup_col "yhat_lower" preds = Some lower
    /\ lookup_col "yhat_upper" preds = Some upper
    /\ length lower = nrows two_days /\ length upper = nrows two_days
    /\ forall (row : nat) (a b : cell),
         lower !! row = Some a -> upper !! row = Some b ->
         exists x y : R, a = Num x /\ b = Num y /\ (x <= y)%R.
Proof.
  apply (predict_interval_ordered draw_outlier (world_of fitted_mle two_days) 0%nat
           two_days [Num 1; NaN] model_MLE_ guide_MLE_ 100%nat 0.95%Q 2).
  - reflexivity.
  - vm_compute. reflexivity.
  - reflexivity.
  - discriminate.
  - reflexivity.
  - reflexivity.
  - reflexivity.
  - reflexivity.
  - apply draw_outlier_shape.
  - reflexivity.
  - reflexivity.
  - vm_compute. reflexivity.
  - vm_compute. reflexivity.
  - lia.
Defined.

(** C2, as stated, fails: 99 samples at 0 and one at 1000, at the default
    level 0.95.  The ranks are 2 and 97; the mean of the first row is 10,
    the upper bound, the 97th smallest sample, is 0. *)
Lemma predict_mean_above_upper_counterexample :
  exists (r : ref) (w' : world) (preds : frame) (yhat upper : column) (x y : R),
    predict draw_outlier 0%nat 100%nat 0.95%Q (world_of fitted_mle two_days) = (Ok r, w')
    /\ frames w' !! r = Some preds
    /\ lookup_col "yhat" preds = Some yhat
    /\ lookup_col "yhat_upper" preds = Some upper
    /\ yhat !! 0%nat = Some (Num x)
    /\ upper !! 0%nat = Some (Num y)
    /\ ~ (x <= y)%R.
Proof.
  destruct (predict_run draw_outlier (world_of fitted_mle two_days) 0%nat two_days
              [0; 86400000000000] [Num 1; NaN] model_MLE_ guide_MLE_ 100%nat 0.95%Q
              (repeat [0%Q; 0%Q] 99 ++ [[1000%Q; 1000%Q]]) 2 97
              [0%Q; 0%Q] [0%Q; 0%Q])
    as (w' & Hrun & Hlook & _);
    [reflexivity|vm_compute; reflexivity|vm_compute; reflexivity|reflexivity
    |vm_compute; reflexivity|reflexivity|reflexivity|discriminate|reflexivity
    |reflexivity|reflexivity|reflexivity|vm_compute; reflexivity
    |vm_compute; reflexivity|].
  eexists; exists w'; eexists; eexists; eexists; eexists; eexists.
  split; [exact Hrun|]. split; [exact Hlook|].
  split; [reflexivity|]. split; [reflexivity|].
  split; [reflexivity|]. split; [reflexivity|].
  intros Hle. apply Rle_Qle in Hle. lazy in Hle. apply Hle. reflexivity.
Qed.

(** With 10 samples at the default level the lower rank is int(0.25) = 0,
    and [kthvalue] refuses it: [predict] raises.  With 20 samples at the
    level 0.9 the exact product is 1, the float product is
    0.9999999999999998, and the rank is 0 as well. *)
Lemma predict_few_samples_raises :
  lower_ntile 10%nat 0.95%Q = Ok 0
  /\ lower_ntile 20%nat 0.9%Q = Ok 0
  /\ kthvalue (repeat [0%Q; 0%Q] 10) 0
     = Raise (RuntimeError "kthvalue(): selected number k out of range for dimension 0").
Proof. split; [|split]; vm_compute; reflexivity. Qed.

(** C10. [predict] looks the target column up although no prediction
    uses its values.  On a series without the target column it raises the
    key error of that lookup, before any prediction is made; on a series
    whose target column is all [NaN], a fitted point-estimate model whose
    [Predictive] completes and whose lower rank, as the code computes it,
    is at least 1 returns its predictions, with the [NaN] column as [y]. *)
Theorem predict_needs_target_column (predictive : predictive_draw) (w : world)
    (data : ref) (f : frame) (sample_number : nat) (ci_interval : Q) :
  frames w !! data = Some f ->
  is_series (inst w) f = true ->
  has_name (target_col_ (inst w)) (reserved_names (inst w)) = false ->
  (lookup_col (target_col_ (inst w)) f = None ->
   exists w' : world,
     predict predictive data sample_number ci_interval w
     = (Raise (KeyError (target_col_ (inst w))), w'))
  /\ (forall (m : model_fn) (g : guide_fn) (rank : Z),
        lookup_col (target_col_ (inst w)) f = Some (repeat NaN (nrows f)) ->
        time_col_ (inst w) <> target_col_ (inst w) ->
        has_name (time_col_ (inst w)) prediction_names = false ->
        has_name (method_ (inst w)) ["MAP"; "MLE"] = true ->
        model (inst w) = Some m -> guide (inst w) = Some g ->
        draws predictive m g sample_number (nrows f) ->
        (0 < ci_interval)%Q -> (ci_interval < 1)%Q ->
        Z.of_nat sample_number < 2 ^ 53 ->
        lower_ntile sample_number ci_interval = Ok rank -> 1 <= rank ->
        exists (r : ref) (w' : world) (preds : frame),
          predict predictive data sample_number ci_interval w = (Ok r, w')
          /\ frames w' !! r = Some preds
          /\ lookup_col "y" preds = Some (repeat NaN (nrows f))).
Proof.
  intros Hd Hs Hres. split.
  - intros Hy. exact (predict_missing_target predictive w data f sample_number
                        ci_interval Hd Hs Hy Hres).
  - intros m g rank Hy Hne Hpn Hmeth Hm Hg Hshape H0 H1 Hbig Hrank Hlow.
    destruct (is_series_time _ _ Hs) as [ns Ht].
    destruct (predict_returns predictive w data f ns _ m g sample_number ci_interval rank
                Hd Hs Ht Hy Hne Hpn Hmeth Hm Hg Hshape H0 H1 Hbig Hrank Hlow)
      as (w' & samples & lo & hi & _ & Hrun & Hlook & _).
    unfold prediction_names in Hpn. cbn [has_name existsb] in Hpn.
    rewrite !orb_false_iff in Hpn. destruct Hpn as (Hny & _).
    exists (length (frames w) + 4)%nat, w'. eexists.
    split; [exact Hrun|]. split; [exact Hlook|].
    unfold predictions. cbn [lookup_col]. rewrite Hny.
    cbn [String.eqb Ascii.eqb Bool.eqb]. rewrite map_repeat. reflexivity.
Qed.

Lemma predict_needs_target_column_witness :
  (exists w' : world,
      predict draw_outlier 0%nat 100%nat 0.95%Q (world_of fitted_mle stamps_only)
      = (Raise (KeyError "y"), w'))
  /\ (exists (r : ref) (w' : world) (preds : frame),
         predict draw_outlier 0%nat 100%nat 0.95%Q (world_of fitted_mle two_unknown)
         = (Ok r, w')
         /\ frames w' !! r = Some preds
         /\ lookup_col "y" preds = Some [NaN; NaN]).
Proof.
  split.
  - destruct (predict_needs_target_column draw_outlier (world_of fitted_mle stamps_only)
                0%nat stamps_only 100%nat 0.95%Q) as [Hmissing _].
    + reflexivity.
    + vm_compute. reflexivity.
    + vm_compute. reflexivity.
    + apply Hmissing. reflexivity.
  - destruct (predict_needs_target_column draw_outlier (world_of fitted_mle two_unknown)
                0%nat two_unknown 100%nat 0.95%Q) as [_ Hnan].
    + reflexivity.
    + vm_compute. reflexivity.
    + vm_compute. reflexivity.
    + apply (Hnan model_MLE_ guide_MLE_ 2);
        [reflexivity|discriminate|reflexivity|reflexivity|reflexivity|reflexivity
        |apply draw_outlier_shape|reflexivity|reflexivity|vm_compute; reflexivity
        |vm_compute; reflexivity|lia].
Defined.

(** ** [make_future_dataframe] *)

Lemma pd_concat_run (w : world) (a b : ref) (fa fb : frame) :
  frames w !! a = Some fa -> frames w !! b = Some fb ->
  pd_concat a b w
  = (Ok (length (frames w)), set_frames (frames w ++ [concat_frames fa fb]) w).
Proof.
  intros Ha Hb. unfold pd_concat.
  rewrite (M_bind_ok _ _ _ _ _ (deref_run w a fa Ha)).
  rewrite (M_bind_ok _ _ _ _ _ (deref_run w b fb Hb)).
  reflexivity.
Qed.

Lemma stamps_map_Stamp (ns : list Z) : stamps (List.map Stamp ns) = ns.
Proof.
  unfold stamps. induction ns as [|n ns IH]; [reflexivity|].
  cbn [List.map flat_map app]. rewrite IH. reflexivity.
Qed.

Lemma series_max_stamps (ns : list Z) :
  series_max (List.map Stamp ns) = Ok (stamp_max ns).
Proof. unfold series_max. rewrite datetimelike_stamps, stamps_map_Stamp. reflexivity. Qed.

Lemma make_future_dataframe_run (w : world) (h : ref) (hist : frame) (ns : list Z)
    (period : Z) (fr : freq) (include_history : bool) :
  history (inst w) = Some h ->
  frames w !! h = Some hist ->
  lookup_col (time_col_ (inst w)) hist = Some (List.map Stamp ns) ->
  ns <> [] -> -1 <= period ->
  (forall mx, stamp_max ns = Some mx -> 0 < period ->
              mx + period * step_ns fr <= timestamp_max) ->
  make_future_dataframe period fr include_history w
  = (Ok (length (frames w) + 2)%nat,
     set_frames (frames w ++ [future_frame (inst w) (future_stamps ns period fr); hist;
                              concat_frames hist
                                (future_frame (inst w) (future_stamps ns period fr))]) w).
Proof.
  intros Hh Hd Ht Hns Hp Hmax. unfold make_future_dataframe.
  cbn [bind M_monad get_self]. rewrite Hh. unfold lift at 1. cbn [getattr_opt].
  rewrite (df_getitem_run w h hist _ Hd). unfold getitem. rewrite Ht.
  unfold lift at 1. rewrite series_max_stamps.
  unfold lift at 1, date_range, future_stamps.
  destruct ns as [|n0 ns]; [congruence|]. cbn [stamp_max] in *.
  specialize (Hmax _ eq_refl).
  replace (period + 1 <? 0) with false by (symmetry; apply Z.ltb_ge; lia).
  replace ((1 <? period + 1)
           && (timestamp_max <? fold_left Z.max ns n0 + (period + 1 - 1) * step_ns fr))
    with false.
  2: { symmetry. apply andb_false_iff.
       destruct (Z.ltb_spec 1 (period + 1)) as [Hpos|_]; [right|left; reflexivity].
       apply Z.ltb_ge. replace (period + 1 - 1) with period by lia. apply Hmax. lia. }
  set (new := tl (List.map (fun k => fold_left Z.max ns n0 + k * step_ns fr)
                           (range 0 (period + 1)))).
  fold (future_frame (inst w) new).
  unfold alloc at 1.
  set (w1 := set_frames (frames w ++ [future_frame (inst w) new]) w).
  rewrite (df_copy_run w1 h hist) by (apply lookup_app_l_Some; exact Hd).
  set (w2 := set_frames (frames w1 ++ [hist]) w1).
  rewrite (pd_concat_run w2 _ _ hist (future_frame (inst w) new)).
  - cbn [ret M_monad]. f_equal.
    + f_equal. cbn [w2 w1 frames set_frames]. rewrite !length_app. simpl. lia.
    + cbn [w2 w1 frames set_frames]. rewrite <- !app_assoc. reflexivity.
  - apply lookup_snoc.
  - cbn [w2 frames set_frames]. apply lookup_app_l_Some. apply lookup_snoc.
Qed.

Lemma range_cons (a b : Z) : a < b -> range a b = a :: range (a + 1) b.
Proof.
  intros Hab. unfold range.
  replace (Z.to_nat (b - a)) with (Datatypes.S (Z.to_nat (b - (a + 1)))) by lia.
  cbn [seq List.map]. f_equal; [lia|].
  rewrite <- seq_shift, List.map_map. apply List.map_ext. intros k. lia.
Qed.

Lemma future_stamps_spec (ns : list Z) (mx period : Z) (fr : freq) :
  stamp_max ns = Some mx -> 0 <= period ->
  future_stamps ns period fr
  = List.map (fun k => mx + k * step_ns fr) (range 1 (period + 1)).
Proof.
  intros Hmx Hp. unfold future_stamps. rewrite Hmx.
  rewrite (range_cons 0) by lia. reflexivity.
Qed.

Lemma fold_max_ge (l : list Z) (a : Z) :
  a <= fold_left Z.max l a /\ Forall (fun s => s <= fold_left Z.max l a) l.
Proof.
  revert a. induction l as [|x l IH]; intros a; simpl; [split; [lia|constructor]|].
  destruct (IH (Z.max a x)) as [H1 H2]. split; [lia|].
  constructor; [lia|exact H2].
Qed.

Lemma fold_max_In (l : list Z) (a : Z) : In (fold_left Z.max l a) (a :: l).
Proof.
  revert a. induction l as [|x l IH]; intros a; simpl; [auto|].
  destruct (IH (Z.max a x)) as [E|Hin]; [|auto].
  rewrite <- E. destruct (Z.max_spec a x) as [[_ ->]|[_ ->]]; auto.
Qed.

(** [Series.max()] is the largest stamp of the column. *)
Lemma stamp_max_spec (ns : list Z) (mx : Z) :
  stamp_max ns = Some mx -> In mx ns /\ Forall (fun s => s <= mx) ns.
Proof.
  destruct ns as [|n0 ns]; simpl; [discriminate|]. intros E. injection E as <-.
  split; [apply fold_max_In|].
  destruct (fold_max_ge ns n0) as [H1 H2]. constructor; assumption.
Qed.

Lemma step_ns_pos (fr : freq) : 0 < step_ns fr.
Proof. destruct fr; reflexivity. Qed.

Lemma lookup_col_extend (ext : string -> column) (a : frame) (n : string) (c : column) :
  lookup_col n a = Some c ->
  lookup_col n (List.map (fun nc => (fst nc, snd nc ++ ext (fst nc))) a)
  = Some (c ++ ext n).
Proof.
  induction a as [|[m c0] a IH]; simpl; [discriminate|].
  destruct (String.eqb_spec m n) as [->|_].
  - intros E. injection E as ->. reflexivity.
  - exact IH.
Qed.

Lemma lookup_concat_frames (a b : frame) (n : string) (c : column) :
  lookup_col n a = Some c ->
  lookup_col n (concat_frames a b)
  = Some (c ++ match lookup_col n b with
               | Some c' => c'
               | None => repeat NaN (nrows b)
               end).
Proof.
  intros Ha. unfold concat_frames. rewrite lookup_col_app.
  match goal with |- context [lookup_col n (List.map ?g a)] =>
    assert (E : lookup_col n (List.map g a)
                = Some (c ++ match lookup_col n b with
                             | Some c' => c'
                             | None => repeat NaN (nrows b)
                             end))
  end.
  { exact (lookup_col_extend
             (fun m => match lookup_col m b with
                       | Some c' => c'
                       | None => repeat NaN (nrows b)
                       end) a n c Ha). }
  rewrite E. reflexivity.
Qed.

Lemma future_frame_cols (self : Chronos) (new : list Z) :
  time_col_ self <> target_col_ self ->
  future_frame self new
  = [(time_col_ self, List.map Stamp new); (target_col_ self, repeat NaN (length new))].
Proof.
  intros Hne. unfold future_frame. cbn [setitem].
  apply String.eqb_neq in Hne. rewrite Hne. reflexivity.
Qed.

(** Every column of the concatenation has the rows of both frames. *)
Lemma concat_frames_rows (a b : frame) (k : nat) (n : string) (c : column) :
  rectangular a ->
  (forall n' c', In (n', c') b -> length c' = k) -> nrows b = k ->
  In (n, c) (concat_frames a b) -> length c = (nrows a + k)%nat.
Proof.
  intros Ha Hb Hnb. unfold concat_frames. rewrite in_app_iff, !in_map_iff.
  intros [([m c0] & E & Hin)|([m c0] & E & Hin)]; cbn [fst snd] in E;
    injection E as _ <-; rewrite length_app.
  - rewrite (rectangular_In a m c0 Ha Hin). f_equal.
    destruct (lookup_col m b) as [c'|] eqn:El.
    + exact (Hb m c' (lookup_col_In _ _ _ El)).
    + rewrite repeat_length. exact Hnb.
  - rewrite repeat_length. f_equal. apply List.filter_In in Hin.
    exact (Hb m c0 (proj1 Hin)).
Qed.

Lemma nrows_concat_frames (a b : frame) (n : string) (c : column) :
  lookup_col n a = Some c -> rectangular a ->
  forall k, (forall n' c', In (n', c') b -> length c' = k) -> nrows b = k ->
  nrows (concat_frames a b) = (nrows a + k)%nat.
Proof.
  intros Hl Ha k Hb Hnb.
  destruct a as [|[m c0] a]; [discriminate|].
  apply (concat_frames_rows ((m, c0) :: a) b k m
           (c0 ++ match lookup_col m b with
                  | Some c' => c'
                  | None => repeat NaN (nrows b)
                  end) Ha Hb Hnb).
  left. reflexivity.
Qed.

Lemma sorted_map_seq (h : nat -> Z) (s n : nat) :
  (forall i j : nat, (i < j)%nat -> h i < h j) ->
  StronglySorted Z.lt (List.map h (seq s n)).
Proof.
  intros Hh. revert s. induction n as [|n IH]; intros s; simpl; constructor.
  - apply IH.
  - apply List.Forall_forall. intros y Hy. apply in_map_iff in Hy.
    destruct Hy as (k & <- & Hk). apply in_seq in Hk. apply Hh. lia.
Qed.

Lemma future_stamps_sorted (ns : list Z) (mx period : Z) (fr : freq) :
  stamp_max ns = Some mx -> 0 <= period ->
  length (future_stamps ns period fr) = Z.to_nat period
  /\ Forall (fun t => mx < t) (future_stamps ns period fr)
  /\ StronglySorted Z.lt (future_stamps ns period fr).
Proof.
  intros Hmx Hp. rewrite (future_stamps_spec ns mx period fr Hmx Hp).
  assert (Hstep := step_ns_pos fr).
  split; [rewrite length_map, range_length; f_equal; lia|].
  split.
  - apply List.Forall_forall. intros t Ht. apply in_map_iff in Ht.
    destruct Ht as (k & <- & Hk). apply In_range in Hk. nia.
  - unfold range. rewrite List.map_map. apply sorted_map_seq.
    intros i j Hij. nia.
Qed.

(** C5 (amended). For an instance whose history is a non-empty series
    every stamp of which lies at least 30 days before [Timestamp.max],
    [make_future_dataframe(30, "D", True)] returns a frame with the rows
    of the history and 30 more; its time column is the one of the history
    followed by 30 new stamps, each strictly greater than the maximum of
    the history, and strictly increasing. *)
Theorem make_future_dataframe_thirty_days (w : world) (h : ref) (hist : frame)
    (ns : list Z) :
  history (inst w) = Some h ->
  frames w !! h = Some hist ->
  lookup_col (time_col_ (inst w)) hist = Some (List.map Stamp ns) ->
  ns <> [] ->
  Forall (fun s => s + 30 * Calendar.ns_per_day <= timestamp_max) ns ->
  rectangular hist ->
  time_col_ (inst w) <> target_col_ (inst w) ->
  exists (r : ref) (w' : world) (out : frame) (new : list Z) (mx : Z),
    make_future_dataframe 30 D true w = (Ok r, w')
    /\ frames w' !! r = Some out
    /\ nrows out = (nrows hist + 30)%nat
    /\ rectangular out
    /\ lookup_col (time_col_ (inst w)) out = Some (List.map Stamp (ns ++ new))
    /\ length new = 30%nat
    /\ In mx ns /\ Forall (fun s => s <= mx) ns
    /\ Forall (fun t => mx < t) new
    /\ StronglySorted Z.lt new.
Proof.
  intros Hh Hd Ht Hns Hrange Hrect Hne.
  destruct (stamp_max ns) as [mx|] eqn:Hmx; [|destruct ns; [congruence|discriminate]].
  destruct (stamp_max_spec ns mx Hmx) as [Hin Hmax].
  assert (Hlast : mx + 30 * step_ns D <= timestamp_max)
    by exact (proj1 (List.Forall_forall _ _) Hrange mx Hin).
  destruct (future_stamps_sorted ns mx 30 D Hmx) as (Hlen & Hgt & Hsorted); [lia|].
  set (new := future_stamps ns 30 D) in *.
  set (fut := future_frame (inst w) new).
  assert (Hfut : fut = [(time_col_ (inst w), List.map Stamp new);
                        (target_col_ (inst w), repeat NaN (length new))])
    by (apply future_frame_cols; exact Hne).
  assert (Hcols : forall n' c', In (n', c') fut -> length c' = 30%nat).
  { rewrite Hfut. intros n' c' [E|[E|[]]]; injection E as _ <-.
    - rewrite length_map. exact Hlen.
    - rewrite repeat_length. exact Hlen. }
  assert (Hnf : nrows fut = 30%nat).
  { rewrite Hfut. cbn [nrows]. rewrite length_map. exact Hlen. }
  eexists; eexists; exists (concat_frames hist fut), new, mx.
  split.
  { apply (make_future_dataframe_run w h hist ns 30 D true Hh Hd Ht Hns); [lia|].
    intros mx' Hmx' _. rewrite Hmx in Hmx'. injection Hmx' as <-. exact Hlast. }
  split.
  { cbn [frames set_frames]. fold new. fold fut.
    replace (length (frames w) + 2)%nat with (length (frames w ++ [fut; hist]))
      by (rewrite length_app; reflexivity).
    change (frames w ++ [fut; hist; concat_frames hist fut])
      with (frames w ++ [fut; hist] ++ [concat_frames hist fut]).
    rewrite app_assoc. apply lookup_snoc. }
  split; [exact (nrows_concat_frames hist fut _ _ Ht Hrect 30%nat Hcols Hnf)|].
  split.
  { unfold rectangular. apply List.Forall_forall. intros [n c] Hc. cbn [snd].
    rewrite (nrows_concat_frames hist fut _ _ Ht Hrect 30%nat Hcols Hnf).
    exact (concat_frames_rows hist fut 30%nat n c Hrect Hcols Hnf Hc). }
  split.
  { rewrite (lookup_concat_frames hist fut _ _ Ht). rewrite Hfut. cbn [lookup_col].
    rewrite String.eqb_refl, List.map_app. reflexivity. }
  repeat split; assumption.
Qed.

Lemma make_future_dataframe_thirty_days_witness :
  exists (r : ref) (w' : world) (out : frame) (new : list Z) (mx : Z),
    make_future_dataframe 30 D true (fitted_world two_days) = (Ok r, w')
    /\ frames w' !! r = Some out
    /\ nrows out = (nrows two_days + 30)%nat
    /\ rectangular out
    /\ lookup_col "ds" out = Some (List.map Stamp ([0; 86400000000000] ++ new))
    /\ length new = 30%nat
    /\ In mx [0; 86400000000000] /\ Forall (fun s => s <= mx) [0; 86400000000000]
    /\ Forall (fun t => mx < t) new
    /\ StronglySorted Z.lt new.
Proof.
  apply (make_future_dataframe_thirty_days (fitted_world two_days) 0%nat two_days
           [0; 86400000000000]).
  - reflexivity.
  - reflexivity.
  - reflexivity.
  - discriminate.
  - repeat constructor; vm_compute; discriminate.
  - exact rectangular_two_days.
  - discriminate.
Defined.

(** C5, as stated, fails for a history that ends less than 30 days before
    [Timestamp.max] (2262-04-11 23:47:16.854775807): with the single row
    2262-04-11 00:00:00 the first new stamp is out of bounds, and
    [pd.date_range] raises. *)
Lemma make_future_dataframe_thirty_days_counterexample :
  make_future_dataframe 30 D true (fitted_world late_history)
  = (Raise (OutOfBoundsDatetime "Cannot generate range"), fitted_world late_history).
Proof. vm_compute. reflexivity. Qed.

(** [include_history] is never read. *)
Lemma make_future_dataframe_ignores_flag (period : Z) (fr : freq) (w : world) :
  make_future_dataframe period fr false w = make_future_dataframe period fr true w.
Proof. reflexivity. Qed.

(** C3. With [include_history=False] the history is still there: for a
    history of two days and [period=2] the result has four rows, the two
    of the history first, where the claim has the two new rows only. *)
Theorem make_future_dataframe_keeps_history :
  exists (r : ref) (w' : world),
    make_future_dataframe 2 D false (fitted_world two_days) = (Ok r, w')
    /\ frames w' !! r
       = Some [("ds", [Stamp 0; Stamp 86400000000000;
                       Stamp 172800000000000; Stamp 259200000000000]);
               ("y", [Num 1; NaN; NaN; NaN])].
Proof.
  eexists; eexists. split.
  - apply (make_future_dataframe_run (fitted_world two_days) 0%nat two_days
             [0; 86400000000000] 2 D false); try reflexivity; [discriminate|lia|].
    intros mx Hmx _. injection Hmx as <-. vm_compute. discriminate.
  - reflexivity.
Qed.


(** ** Seasonality decomposition *)

Lemma reshape2_flatten (pairs : list (R * R)) : reshape2 (flatten_pairs pairs) = Ok pairs.
Proof.
  induction pairs as [|[a b] ps IH]; [reflexivity|].
  change (flatten_pairs ((a, b) :: ps)) with (a :: b :: flatten_pairs ps).
  cbn [reshape2]. rewrite IH. reflexivity.
Qed.

Lemma add_cycle_map (period : R) (days : list Z) (i : nat) (p : R * R) (g : Z -> R) :
  add_cycle period days i p (List.map g days)
  = List.map (fun d => (g d + (fst p * sin (IZR (Z.of_nat i + 1) * 2 * PI * IZR d / period)
                              + snd p * cos (IZR (Z.of_nat i + 1) * 2 * PI * IZR d / period)))%R)
             days.
Proof.
  unfold add_cycle. induction days as [|d days IH]; simpl; [reflexivity|].
  rewrite IH. rewrite mult_IZR. reflexivity.
Qed.

Lemma cycles_map (period : R) (days : list Z) (pairs : list (R * R)) :
  forall (i : nat) (g : Z -> R),
    cycles period days i pairs (List.map g days)
    = List.map (fun d => (g d + harmonic_sum period d (Z.of_nat i + 1) pairs)%R) days.
Proof.
  induction pairs as [|p ps IH]; intros i g; simpl.
  - apply List.map_ext. intros d. rewrite Rplus_0_r. reflexivity.
  - rewrite add_cycle_map, IH. apply List.map_ext. intros d.
    replace (Z.of_nat (Datatypes.S i) + 1) with (Z.of_nat i + 1 + 1) by lia.
    rewrite !Rplus_assoc. reflexivity.
Qed.

Lemma cycles_zeros (period : R) (days : list Z) (pairs : list (R * R)) :
  cycles period days 0 pairs (List.map (fun _ => 0%R) days)
  = List.map (fun d => harmonic_sum period d 1 pairs) days.
Proof.
  rewrite cycles_map. apply List.map_ext. intros d. rewrite Rplus_0_l. reflexivity.
Qed.

Lemma seasonality_point_run (tag : string) (ndays : Z) (period : R) (dayname : string)
    (offset : Z) (param_name : string) (w : world) (X : list string) (params : list R)
    (pairs : list (R * R)) :
  param_store w !! param_name = Some params ->
  X_names (inst w) = Some X ->
  tagged_params tag X 0 params = Ok (flatten_pairs pairs) ->
  seasonality_point tag ndays period dayname offset param_name w
  = (Ok (length (frames w)),
     set_frames (frames w ++ [seasonality_table dayname offset ndays period pairs]) w).
Proof.
  intros Hp HX Ht. unfold seasonality_point.
  cbn [bind M_monad get_self]. unfold pyro_param. rewrite Hp, HX.
  unfold lift. cbn [getattr_opt]. rewrite Ht, reshape2_flatten.
  unfold alloc. rewrite cycles_zeros, List.map_map. reflexivity.
Qed.

Lemma getter_dispatch (w : world) (point : string -> M ref) (msg : string) :
  has_name (method_ (inst w)) ["MAP"; "MLE"] = true ->
  (let* self := get_self in
   if String.eqb (method_ self) "MAP" then point "AutoDelta.betas"
   else if String.eqb (method_ self) "MLE" then point "betas"
   else raise (NotImplementedError msg)) w
  = point (betas_name (method_ (inst w))) w.
Proof.
  intros Hmeth. cbn [bind M_monad get_self]. unfold betas_name.
  unfold has_name in Hmeth. cbn [existsb] in Hmeth.
  destruct (String.eqb (method_ (inst w)) "MAP"); [reflexivity|].
  destruct (String.eqb (method_ (inst w)) "MLE"); [reflexivity|discriminate Hmeth].
Qed.

(** C7. For a fitted point-estimate model whose stored weekly (monthly,
    yearly) coefficients are the pairs (sin_coef_i, cos_coef_i), i = 1, 2,
    ..., in column order, the weekly decomposition is the table of
    value(d) = sum_i sin_coef_i*sin(i*2*pi*d/7) + cos_coef_i*cos(i*2*pi*d/7)
    for the days d = 0..6, reported as they are; the monthly one has
    period 30 over the days 0..30, reported from 1; the yearly one has
    period 366 over the days 0..365, reported from 1. *)
Theorem seasonality_decomposition (w : world) (X : list string) (betas : list R)
    (weekly monthly yearly : list (R * R)) :
  has_name (method_ (inst w)) ["MAP"; "MLE"] = true ->
  X_names (inst w) = Some X ->
  param_store w !! betas_name (method_ (inst w)) = Some betas ->
  tagged_params "weekly" X 0 betas = Ok (flatten_pairs weekly) ->
  tagged_params "monthly" X 0 betas = Ok (flatten_pairs monthly) ->
  tagged_params "yearly" X 0 betas = Ok (flatten_pairs yearly) ->
  get_weekly_seasonality w
  = (Ok (length (frames w)),
     set_frames
       (frames w
        ++ [[("Weekday", List.map Int (range 0 7));
             ("Value", List.map (fun d => Num (harmonic_sum 7 d 1 weekly)) (range 0 7))]])
       w)
  /\ get_monthly_seasonality w
     = (Ok (length (frames w)),
        set_frames
          (frames w
           ++ [[("Monthday", List.map (fun d => Int (d + 1)) (range 0 31));
                ("Value", List.map (fun d => Num (harmonic_sum 30 d 1 monthly))
                                   (range 0 31))]])
          w)
  /\ get_yearly_seasonality w
     = (Ok (length (frames w)),
        set_frames
          (frames w
           ++ [[("Yearday", List.map (fun d => Int (d + 1)) (range 0 366));
                ("Value", List.map (fun d => Num (harmonic_sum 366 d 1 yearly))
                                   (range 0 366))]])
          w).
Proof.
  intros Hmeth HX Hp Hw Hm Hy.
  unfold get_weekly_seasonality, get_monthly_seasonality, get_yearly_seasonality.
  rewrite !getter_dispatch by exact Hmeth.
  unfold get_weekly_seasonality_point, get_monthly_seasonality_point,
    get_yearly_seasonality_point.
  rewrite (seasonality_point_run "weekly" _ _ _ _ _ w X betas weekly Hp HX Hw).
  rewrite (seasonality_point_run "monthly" _ _ _ _ _ w X betas monthly Hp HX Hm).
  rewrite (seasonality_point_run "yearly" _ _ _ _ _ w X betas yearly Hp HX Hy).
  unfold seasonality_table.
  replace (List.map (fun d => Int (d + 0)) (range 0 7)) with (List.map Int (range 0 7))
    by (apply List.map_ext; intros d; rewrite Z.add_0_r; reflexivity).
  repeat split.
Qed.

Lemma seasonality_decomposition_witness :
  get_weekly_seasonality decomposition_world
  = (Ok 0%nat,
     set_frames
       [[("Weekday", List.map Int (range 0 7));
         ("Value", List.map (fun d => Num (harmonic_sum 7 d 1 [(7, 8)%R])) (range 0 7))]]
       decomposition_world)
  /\ get_monthly_seasonality decomposition_world
     = (Ok 0%nat,
        set_frames
          [[("Monthday", List.map (fun d => Int (d + 1)) (range 0 31));
            ("Value", List.map (fun d => Num (harmonic_sum 30 d 1 [(5, 6)%R]))
                               (range 0 31))]]
          decomposition_world)
  /\ get_yearly_seasonality decomposition_world
     = (Ok 0%nat,
        set_frames
          [[("Yearday", List.map (fun d => Int (d + 1)) (range 0 366));
            ("Value", List.map (fun d => Num (harmonic_sum 366 d 1 [(3, 4)%R]))
                               (range 0 366))]]
          decomposition_world).
Proof.
  apply (seasonality_decomposition decomposition_world
           ["CONST"; "ds"; "yearly_sin_1"; "yearly_cos_1";
            "monthly_sin_1"; "monthly_cos_1"; "weekly_sin_1"; "weekly_cos_1"]
           [1; 2; 3; 4; 5; 6; 7; 8]%R [(7, 8)%R] [(5, 6)%R] [(3, 4)%R]);
    reflexivity.
Defined.

(** The source trains the monthly features on a period of 31 days and
    decomposes them on a period of 30: both are in the code, and the
    decomposition is the one above. *)
Example monthly_periods :
  phase 31 1 1 = (IZR (1 * 2) * PI * IZR 1 / 31)%R
  /\ harmonic_sum 30 1 1 [(1, 0)%R]
     = (1 * sin (IZR 1 * 2 * PI * IZR 1 / 30) + 0 * cos (IZR 1 * 2 * PI * IZR 1 / 30) + 0)%R.
Proof. split; reflexivity. Qed.


(** ** [transform_data_]: what it rejects *)

Lemma fresh_features_spec (self : Chronos) (f : frame) (n : string) :
  fresh_features self f = true -> In n (helper_names ++ harmonic_names self) ->
  has_name n (names f) = false.
Proof.
  unfold fresh_features. intros Hf Hn. apply has_name_false. intros Hin.
  rewrite forallb_forall in Hf. specialize (Hf n Hin).
  apply has_name_In in Hn. rewrite Hn in Hf. discriminate Hf.
Qed.

Lemma dt_values_not_datetime (c : column) :
  datetimelike c = false -> dt_values c = Raise (AttributeError "dt").
Proof. unfold dt_values. intros ->. reflexivity. Qed.

(** The statements of [add_features] up to the insertion of the constant,
    for a frame that may have a column named CONST already. *)
Lemma add_features_to_insert (self : Chronos) (f : frame) (ns : list Z) :
  lookup_col (time_col_ self) f = Some (List.map Stamp ns) ->
  fresh_features self f = true ->
  add_features self f
  = OnFrame.insert_front "CONST" (Num 1)
      (setitem f (time_col_ self) (days_col ns) ++ helper_cols ns ++ harmonic_cols self ns).
Proof.
  intros Ht Hfresh.
  assert (Hres : forall n, In n (helper_names ++ harmonic_names self) ->
                           has_name n (names f) = false)
    by (intros n; apply fresh_features_spec; exact Hfresh).
  assert (Hhelp : forall n, In n helper_names -> has_name n (names f) = false)
    by (intros n Hn; apply Hres; apply in_or_app; left; exact Hn).
  assert (Hharm : forall n, In n (harmonic_names self) -> has_name n (names f) = false)
    by (intros n Hn; apply Hres; apply in_or_app; right; exact Hn).
  assert (Htime : has_name (time_col_ self) (names f) = true)
    by (eapply lookup_col_has_name; exact Ht).
  assert (Hne : forall n, In n helper_names -> n <> time_col_ self).
  { intros n Hn ->. rewrite (Hhelp _ Hn) in Htime. discriminate. }
  unfold add_features, OnFrame.getitem, OnFrame.lift, OnFrame.setitem.
  cbn [bind F_monad]. unfold getitem.
  rewrite Ht, dt_values_stamps, dt_field_stamps.
  rewrite lookup_setitem_ne by (apply Hne; simpl; auto).
  rewrite Ht, dt_values_stamps, dt_field_stamps.
  rewrite !lookup_setitem_ne by (apply Hne; simpl; auto).
  rewrite Ht, dt_values_stamps, dt_field_stamps.
  rewrite !lookup_setitem_ne by (apply Hne; simpl; auto).
  rewrite Ht, days_col_run.
  rewrite (setitem_fresh f) by (apply Hhelp; simpl; auto).
  rewrite (setitem_fresh _ "monthday")
    by (rewrite names_app, has_name_app, Hhelp by (simpl; auto); reflexivity).
  rewrite (setitem_fresh _ "yearday")
    by (rewrite !names_app, !has_name_app, Hhelp by (simpl; auto); reflexivity).
  rewrite <- !app_assoc. rewrite setitem_app_present by exact Htime.
  change ([("weekday", List.map (fun n => Int (Calendar.dayofweek n)) ns)] ++
          [("monthday", List.map (fun n => Int (Calendar.day n - 1)) ns)] ++
          [("yearday", List.map (fun n => Int (Calendar.dayofyear n - 1)) ns)])
    with (helper_cols ns).
  set (f1 := setitem f (time_col_ self) (days_col ns)).
  assert (Hn1 : names f1 = names f) by (apply names_setitem_present; exact Htime).
  assert (Hl1 : forall n, In n helper_names -> lookup_col n f1 = None).
  { intros n Hn. apply lookup_col_None. rewrite Hn1. exact (Hhelp n Hn). }
  assert (Hin : forall tag order i, In i (range 1 (order + 1)) ->
                In (sin_name tag i) (season_names tag order)
                /\ In (cos_name tag i) (season_names tag order))
    by (intros; apply In_season_names; assumption).
  rewrite (season_run _ _ _ (List.map (fun n => Calendar.dayofyear n - 1) ns)).
  2: apply NoDup_range.
  2: { rewrite lookup_col_app, Hl1 by (simpl; auto). simpl. rewrite List.map_map. reflexivity. }
  2: { intros i Hi. destruct (Hin "yearly" _ i Hi) as [Hs Hc].
       rewrite names_app, !has_name_app, Hn1.
       rewrite !Hharm by (unfold harmonic_names; apply in_or_app; left; assumption).
       split; reflexivity. }
  fold (season_cols "yearly" 366 (List.map (fun n => Calendar.dayofyear n - 1) ns)
                    (year_seasonality_order_ self)).
  rewrite (season_run _ _ _ (List.map (fun n => Calendar.day n - 1) ns)).
  2: apply NoDup_range.
  2: { rewrite !lookup_col_app, Hl1 by (simpl; auto). simpl. rewrite List.map_map. reflexivity. }
  2: { intros i Hi. destruct (Hin "monthly" _ i Hi) as [Hs Hc].
       rewrite !names_app, !has_name_app, Hn1.
       rewrite !Hharm
         by (unfold harmonic_names; apply in_or_app; right; apply in_or_app; left; assumption).
       rewrite names_season_cols.
       rewrite !season_names_other by names_differ.
       split; reflexivity. }
  fold (season_cols "monthly" 31 (List.map (fun n => Calendar.day n - 1) ns)
                    (month_seasonality_order_ self)).
  rewrite (season_run _ _ _ (List.map Calendar.dayofweek ns)).
  2: apply NoDup_range.
  2: { rewrite !lookup_col_app, Hl1 by (simpl; auto). simpl. rewrite List.map_map. reflexivity. }
  2: { intros i Hi. destruct (Hin "weekly" _ i Hi) as [Hs Hc].
       rewrite !names_app, !has_name_app, Hn1.
       rewrite !Hharm
         by (unfold harmonic_names; apply in_or_app; right; apply in_or_app; right; assumption).
       rewrite !names_season_cols.
       rewrite !season_names_other by names_differ.
       split; reflexivity. }
  fold (season_cols "weekly" 7 (List.map Calendar.dayofweek ns)
                    (weekly_seasonality_order_ self)).
  rewrite <- !app_assoc. reflexivity.
Qed.

(** X1. A frame without the time column: [transform_data_] raises the key
    error of the first lookup, on the copy it has just made. *)
Theorem transform_data_missing_time (w : world) (data : ref) (f : frame) :
  frames w !! data = Some f ->
  lookup_col (time_col_ (inst w)) f = None ->
  transform_data_ data w
  = (Raise (KeyError (time_col_ (inst w))), set_frames (frames w ++ [f]) w).
Proof.
  intros Hd Ht. unfold transform_data_. cbn [bind M_monad get_self].
  rewrite (df_copy_run w data f Hd).
  rewrite (on_run _ _ f) by apply lookup_snoc.
  unfold add_features, OnFrame.getitem. cbn [bind F_monad]. unfold getitem.
  rewrite Ht. cbn [fst snd frames set_frames]. rewrite insert_snoc. reflexivity.
Qed.

Lemma transform_data_missing_time_witness :
  transform_data_ 0%nat (world_of default no_time_column)
  = (Raise (KeyError "ds"),
     set_frames [no_time_column; no_time_column] (world_of default no_time_column)).
Proof.
  apply (transform_data_missing_time (world_of default no_time_column) 0%nat
                                     no_time_column); reflexivity.
Defined.

(** X2. A time column that is not a datetime column (it holds a number,
    or it has rows and no time stamp at all): the [.dt] accessor raises,
    before any column is written. *)
Theorem transform_data_not_datetime (w : world) (data : ref) (f : frame) (t : column) :
  frames w !! data = Some f ->
  lookup_col (time_col_ (inst w)) f = Some t ->
  datetimelike t = false ->
  transform_data_ data w
  = (Raise (AttributeError "dt"), set_frames (frames w ++ [f]) w).
Proof.
  intros Hd Ht Hdt. unfold transform_data_. cbn [bind M_monad get_self].
  rewrite (df_copy_run w data f Hd).
  rewrite (on_run _ _ f) by apply lookup_snoc.
  unfold add_features, OnFrame.getitem, OnFrame.lift. cbn [bind F_monad]. unfold getitem.
  rewrite Ht, (dt_values_not_datetime t Hdt).
  cbn [fst snd frames set_frames]. rewrite insert_snoc. reflexivity.
Qed.

Lemma transform_data_not_datetime_witness :
  transform_data_ 0%nat (world_of default dates_as_numbers)
  = (Raise (AttributeError "dt"),
     set_frames [dates_as_numbers; dates_as_numbers] (world_of default dates_as_numbers)).
Proof.
  apply (transform_data_not_datetime (world_of default dates_as_numbers) 0%nat
                                     dates_as_numbers [Stamp 0; Int 20200101]);
    reflexivity.
Defined.

(** X3. A series that already has a column named CONST: every feature is
    computed, then [insert] refuses the duplicate name. *)
Theorem transform_data_const_clash (w : world) (data : ref) (f : frame) (ns : list Z) :
  frames w !! data = Some f ->
  lookup_col (time_col_ (inst w)) f = Some (List.map Stamp ns) ->
  fresh_features (inst w) f = true ->
  has_name "CONST" (names f) = true ->
  exists w' : world,
    transform_data_ data w
    = (Raise (ValueError "cannot insert CONST, already exists"), w')
    /\ frames w' !! data = Some f.
Proof.
  intros Hd Ht Hfresh Hconst. unfold transform_data_. cbn [bind M_monad get_self].
  rewrite (df_copy_run w data f Hd).
  rewrite (on_run _ _ f) by apply lookup_snoc.
  rewrite (add_features_to_insert (inst w) f ns Ht Hfresh).
  unfold OnFrame.insert_front, insert_front.
  assert (Htime : has_name (time_col_ (inst w)) (names f) = true)
    by (eapply lookup_col_has_name; exact Ht).
  rewrite names_app, has_name_app, names_setitem_present, Hconst by exact Htime.
  cbn [orb fst snd frames set_frames]. rewrite insert_snoc.
  eexists. split; [reflexivity|].
  cbn [frames set_frames]. apply lookup_app_l_Some. exact Hd.
Qed.

Lemma transform_data_const_clash_witness :
  exists w' : world,
    transform_data_ 0%nat (world_of default has_const_column)
    = (Raise (ValueError "cannot insert CONST, already exists"), w')
    /\ frames w' !! 0%nat = Some has_const_column.
Proof.
  apply (transform_data_const_clash (world_of default has_const_column) 0%nat
           has_const_column [0; 86400000000000]).
  - reflexivity.
  - reflexivity.
  - vm_compute. reflexivity.
  - reflexivity.
Defined.

(** ** [transform_data_]: more on its output *)

(** X4. Integer orders of any sign: a season whose order is zero or
    negative gets no column, so the output has the columns of the input
    and 1 + 2(max(Y,0) + max(M,0) + max(W,0)) more. *)
Theorem transform_data_any_orders (w : world) (data : ref) (f : frame) (ns : list Z) :
  frames w !! data = Some f ->
  lookup_col (time_col_ (inst w)) f = Some (List.map Stamp ns) ->
  fresh_names (inst w) f = true ->
  exists (r : ref) (w' : world) (out : frame),
    transform_data_ data w = (Ok r, w')
    /\ frames w' !! r = Some out
    /\ Z.of_nat (length out)
       = Z.of_nat (length f)
         + (1 + 2 * (Z.max 0 (year_seasonality_order_ (inst w))
                     + Z.max 0 (month_seasonality_order_ (inst w))
                     + Z.max 0 (weekly_seasonality_order_ (inst w))))
    /\ (year_seasonality_order_ (inst w) <= 0 ->
        month_seasonality_order_ (inst w) <= 0 ->
        weekly_seasonality_order_ (inst w) <= 0 ->
        names out = "CONST" :: names f).
Proof.
  intros Hd Ht Hfresh.
  assert (Htime : has_name (time_col_ (inst w)) (names f) = true)
    by (eapply lookup_col_has_name; exact Ht).
  eexists; eexists; exists (transformed (inst w) f ns).
  split; [exact (transform_data_run w data f ns Hd Ht Hfresh)|].
  split; [apply lookup_snoc2|].
  assert (Hnames := names_transformed (inst w) f ns Htime).
  split.
  - rewrite <- (length_map fst (transformed (inst w) f ns)).
    fold (names (transformed (inst w) f ns)). rewrite Hnames.
    cbn [length]. rewrite length_app, length_harmonic_names.
    unfold names. rewrite length_map. lia.
  - intros HY HM HW. rewrite Hnames. unfold harmonic_names, season_names, range.
    replace (Z.to_nat (year_seasonality_order_ (inst w) + 1 - 1)) with 0%nat by lia.
    replace (Z.to_nat (month_seasonality_order_ (inst w) + 1 - 1)) with 0%nat by lia.
    replace (Z.to_nat (weekly_seasonality_order_ (inst w) + 1 - 1)) with 0%nat by lia.
    simpl. rewrite app_nil_r. reflexivity.
Qed.

Lemma transform_data_any_orders_witness :
  exists (r : ref) (w' : world) (out : frame),
    transform_data_ 0%nat (world_of weekly_only two_days) = (Ok r, w')
    /\ frames w' !! r = Some out
    /\ Z.of_nat (length out) = Z.of_nat (length two_days) + (1 + 2 * (0 + 0 + 1))
    /\ (0 <= 0 -> -2 <= 0 -> 1 <= 0 -> names out = "CONST" :: names two_days).
Proof.
  apply (transform_data_any_orders (world_of weekly_only two_days) 0%nat two_days
                                   [0; 86400000000000]); reflexivity.
Defined.

Lemma lookup_season_cols (tag : string) (period : R) (ds : list Z) (order i : Z) :
  In i (range 1 (order + 1)) ->
  lookup_col (sin_name tag i) (season_cols tag period ds order)
  = Some (List.map (fun d => Num (sin (phase period i d))) ds)
  /\ lookup_col (cos_name tag i) (season_cols tag period ds order)
     = Some (List.map (fun d => Num (cos (phase period i d))) ds).
Proof.
  unfold season_cols. generalize (range 1 (order + 1)) as l.
  induction l as [|j l IH]; intros Hin; [destruct Hin|].
  cbn [flat_map pair_cols app lookup_col].
  destruct (Z.eq_dec j i) as [->|Hne].
  - rewrite String.eqb_refl.
    destruct (String.eqb_spec (sin_name tag i) (cos_name tag i)) as [E|_];
      [exfalso; exact (sin_cos_names_differ _ _ _ E)|].
    rewrite String.eqb_refl. split; reflexivity.
  - destruct Hin as [E|Hin]; [congruence|].
    destruct (String.eqb_spec (sin_name tag j) (sin_name tag i)) as [E|_];
      [exfalso; apply Hne; exact (sin_name_inj _ _ _ E)|].
    destruct (String.eqb_spec (cos_name tag j) (sin_name tag i)) as [E|_];
      [exfalso; exact (sin_cos_names_differ _ _ _ (eq_sym E))|].
    destruct (String.eqb_spec (sin_name tag j) (cos_name tag i)) as [E|_];
      [exfalso; exact (sin_cos_names_differ _ _ _ E)|].
    destruct (String.eqb_spec (cos_name tag j) (cos_name tag i)) as [E|_];
      [exfalso; apply Hne; exact (cos_name_inj _ _ _ E)|].
    exact (IH Hin).
Qed.

Lemma lookup_transformed (self : Chronos) (f : frame) (ns : list Z) (n : string) :
  n <> "CONST" ->
  lookup_col n (transformed self f ns)
  = match lookup_col n (setitem f (time_col_ self) (days_col ns)) with
    | Some c => Some c
    | None => lookup_col n (harmonic_cols self ns)
    end.
Proof.
  intros Hn. unfold transformed. cbn [lookup_col].
  destruct (String.eqb_spec "CONST" n) as [E|_]; [congruence|].
  apply lookup_col_app.
Qed.

Lemma lookup_harmonic_transformed (self : Chronos) (f : frame) (ns : list Z) (n : string) :
  fresh_names self f = true ->
  has_name (time_col_ self) (names f) = true ->
  In n (harmonic_names self) ->
  lookup_col n (transformed self f ns) = lookup_col n (harmonic_cols self ns).
Proof.
  intros Hfresh Htime Hn.
  rewrite lookup_transformed by (apply (harmonic_not_const self); exact Hn).
  assert (Hnone : lookup_col n (setitem f (time_col_ self) (days_col ns)) = None).
  { apply lookup_col_None. rewrite names_setitem_present by exact Htime.
    apply (fresh_names_spec self f n Hfresh). apply reserved_harmonic. exact Hn. }
  rewrite Hnone. reflexivity.
Qed.

Lemma lookup_weekly (self : Chronos) (ns : list Z) (i : Z) :
  In i (range 1 (weekly_seasonality_order_ self + 1)) ->
  let ds := List.map Calendar.dayofweek ns in
  lookup_col (sin_name "weekly" i) (harmonic_cols self ns)
  = Some (List.map (fun d => Num (sin (phase 7 i d))) ds)
  /\ lookup_col (cos_name "weekly" i) (harmonic_cols self ns)
     = Some (List.map (fun d => Num (cos (phase 7 i d))) ds).
Proof.
  intros Hi ds. unfold harmonic_cols. rewrite !lookup_col_app.
  assert (Hn : forall (n : string) tag period ds' order,
             (forall j, n <> sin_name tag j /\ n <> cos_name tag j) ->
             lookup_col n (season_cols tag period ds' order) = None).
  { intros n tag period ds' order Hj. apply lookup_col_None.
    rewrite names_season_cols. apply season_names_other. exact Hj. }
  rewrite (Hn (sin_name "weekly" i) "yearly") by (intros j; split; names_differ).
  rewrite (Hn (cos_name "weekly" i) "yearly") by (intros j; split; names_differ).
  rewrite (Hn (sin_name "weekly" i) "monthly") by (intros j; split; names_differ).
  rewrite (Hn (cos_name "weekly" i) "monthly") by (intros j; split; names_differ).
  destruct (lookup_season_cols "weekly" 7 ds _ i Hi) as [Es Ec].
  subst ds. rewrite Es, Ec. split; reflexivity.
Qed.

Lemma ns_per_day_float : (1e9 * 60 * 60 * 24)%R = IZR Calendar.ns_per_day.
Proof. unfold Calendar.ns_per_day. rewrite !mult_IZR. lra. Qed.

(** X6. On a rectangular frame the output keeps every column of the
    input but the time column as it is, holds the time column in days
    since the epoch (nanoseconds over the nanoseconds of a day, so a
    midnight stamp becomes a whole number), and starts with a column
    CONST of ones, one per row. *)
Theorem transform_data_keeps_columns (w : world) (data : ref) (f : frame) (ns : list Z) :
  frames w !! data = Some f ->
  lookup_col (time_col_ (inst w)) f = Some (List.map Stamp ns) ->
  fresh_names (inst w) f = true ->
  rectangular f ->
  exists (r : ref) (w' : world) (out : frame),
    transform_data_ data w = (Ok r, w')
    /\ frames w' !! r = Some out
    /\ lookup_col "CONST" out = Some (repeat (Num 1) (nrows f))
    /\ lookup_col (time_col_ (inst w)) out
       = Some (List.map (fun n => Num (IZR n / IZR Calendar.ns_per_day)) ns)
    /\ (forall (row : nat) (d : Z),
           ns !! row = Some (d * Calendar.ns_per_day) ->
           exists t : column,
             lookup_col (time_col_ (inst w)) out = Some t /\ t !! row = Some (Num (IZR d)))
    /\ (forall n : string,
           n <> time_col_ (inst w) -> has_name n (names f) = true ->
           lookup_col n out = lookup_col n f).
Proof.
  intros Hd Ht Hfresh Hrect.
  assert (Htime : has_name (time_col_ (inst w)) (names f) = true)
    by (eapply lookup_col_has_name; exact Ht).
  assert (Hrows : nrows (setitem f (time_col_ (inst w)) (days_col ns)) = nrows f).
  { apply nrows_setitem; [exact Htime|].
    rewrite length_days_col, <- (length_map Stamp ns).
    apply (rectangular_In f (time_col_ (inst w))); [exact Hrect|].
    apply lookup_col_In. exact Ht. }
  assert (Hnc : time_col_ (inst w) <> "CONST").
  { intros E. assert (Hf := present_not_reserved (inst w) f _ Hfresh Htime).
    rewrite E in Hf. discriminate Hf. }
  assert (Hdays : lookup_col (time_col_ (inst w)) (transformed (inst w) f ns)
                  = Some (List.map (fun n => Num (IZR n / IZR Calendar.ns_per_day)) ns)).
  { rewrite lookup_transformed by exact Hnc. rewrite lookup_setitem_eq.
    unfold days_col. rewrite ns_per_day_float. reflexivity. }
  eexists; eexists; exists (transformed (inst w) f ns).
  split; [exact (transform_data_run w data f ns Hd Ht Hfresh)|].
  split; [apply lookup_snoc2|].
  split; [|split; [exact Hdays|split]].
  - unfold transformed. cbn [lookup_col]. rewrite String.eqb_refl, Hrows. reflexivity.
  - intros row d Hrow.
    exists (List.map (fun n => Num (IZR n / IZR Calendar.ns_per_day)) ns).
    split; [exact Hdays|].
    unfold column. rewrite lookup_map, Hrow. cbn [option_map]. f_equal. f_equal.
    rewrite mult_IZR. field.
    unfold Calendar.ns_per_day. apply not_0_IZR. discriminate.
  - intros n Hne Hn.
    assert (Hn' : n <> "CONST").
    { intros E. assert (Hf := present_not_reserved (inst w) f _ Hfresh Hn).
      rewrite E in Hf. discriminate Hf. }
    rewrite lookup_transformed by exact Hn'.
    rewrite lookup_setitem_ne by congruence.
    destruct (lookup_col n f) as [c|] eqn:E; [reflexivity|].
    apply lookup_col_None in E. congruence.
Qed.

Lemma transform_data_keeps_columns_witness :
  exists (r : ref) (w' : world) (out : frame),
    transform_data_ 0%nat (world_of default two_days) = (Ok r, w')
    /\ frames w' !! r = Some out
    /\ lookup_col "CONST" out = Some [Num 1; Num 1]
    /\ lookup_col "ds" out
       = Some (List.map (fun n => Num (IZR n / IZR Calendar.ns_per_day)) [0; 86400000000000])
    /\ (forall (row : nat) (d : Z),
           [0; 86400000000000] !! row = Some (d * Calendar.ns_per_day) ->
           exists t : column, lookup_col "ds" out = Some t /\ t !! row = Some (Num (IZR d)))
    /\ (forall n : string,
           n <> "ds" -> has_name n ["ds"; "y"] = true ->
           lookup_col n out = lookup_col n two_days).
Proof.
  apply (transform_data_keeps_columns (world_of default two_days) 0%nat two_days
                                      [0; 86400000000000]);
    [reflexivity|reflexivity|reflexivity|exact rectangular_two_days].
Defined.

(** ** [fit]: training *)

Lemma names_filter (p : string -> bool) (f : frame) :
  names (List.filter (fun nc => p (fst nc)) f) = List.filter p (names f).
Proof.
  induction f as [|[n c] f IH]; [reflexivity|].
  cbn [List.filter names List.map fst]. destruct (p n); cbn [List.map fst]; 
    unfold names in IH; rewrite IH; reflexivity.
Qed.

Lemma names_features (self : Chronos) (f : frame) (ns : list Z) :
  has_name (time_col_ self) (names f) = true ->
  has_name (target_col_ self) (reserved_names self) = false ->
  names (features self f ns) = feature_names self f.
Proof.
  intros Htime Hres. unfold features, feature_names.
  rewrite (names_filter (fun n => negb (has_name n [target_col_ self]))).
  rewrite names_transformed by exact Htime.
  assert (Hp : forall n, has_name n [target_col_ self] = String.eqb n (target_col_ self)).
  { intros n. unfold has_name. cbn [existsb]. apply orb_false_r. }
  unfold reserved_names in Hres. cbn [has_name existsb] in Hres.
  apply orb_false_iff in Hres. destruct Hres as [Hc Hres].
  fold (has_name (target_col_ self) (helper_names ++ harmonic_names self)) in Hres.
  rewrite has_name_app in Hres. apply orb_false_iff in Hres. destruct Hres as [_ Hh].
  cbn [List.filter]. rewrite Hp, String.eqb_sym, Hc. cbn [negb].
  f_equal. rewrite List.filter_app. f_equal.
  - apply List.filter_ext. intros n. rewrite Hp. reflexivity.
  - apply filter_names_keep. intros n Hn.
    rewrite Hp. apply String.eqb_neq. intros ->.
    apply has_name_false in Hh. contradiction.
Qed.

(** [fit] on a series with its target, up to the call of
    [train_point_estimate]. *)
Lemma fit_run (optimise : svi_outcome) (w : world) (data : ref)
    (f : frame) (ns : list Z) (ys : column) :
  let h := length (frames w) in
  let self := with_history h (inst w) in
  let mg := point_model (method_ (inst w)) in
  frames w !! data = Some f ->
  is_series (inst w) f = true ->
  lookup_col (time_col_ (inst w)) f = Some (List.map Stamp ns) ->
  lookup_col (target_col_ (inst w)) f = Some ys ->
  time_col_ (inst w) <> target_col_ (inst w) ->
  has_name (method_ (inst w)) ["MLE"; "MAP"] = true ->
  fit optimise data w
  = train_point_estimate optimise (fst mg) (snd mg)
      (design_matrix (inst w) f ns) (List.map astype_float ys)
      {| frames := frames w ++ [f; with_helpers (inst w) f ns; transformed (inst w) f ns;
                                features (inst w) f ns];
         inst := with_model (fst mg) (snd mg)
                   (with_X_names (feature_names (inst w) f) self);
         param_store := param_store w |}.
Proof.
  intros h self mg Hd Hs Ht Hy Hne Hmeth.
  assert (Hfresh := is_series_fresh _ _ Hs).
  assert (Htime : has_name (time_col_ (inst w)) (names f) = true)
    by (eapply lookup_col_has_name; exact Ht).
  assert (Hyn : has_name (target_col_ (inst w)) (names f) = true)
    by (eapply lookup_col_has_name; exact Hy).
  assert (Hyres := present_not_reserved _ _ _ Hfresh Hyn).
  assert (Hylook : lookup_col (target_col_ self) (transformed self f ns) = Some ys).
  { rewrite (lookup_target_transformed self f ns) by assumption. exact Hy. }
  unfold fit. cbn [bind M_monad get_self update_self].
  rewrite (df_copy_run w data f Hd). fold h.
  cbn [set_frames inst frames param_store set_inst]. fold self.
  set (w0 := set_inst self (set_frames (frames w ++ [f]) w)).
  rewrite (transform_data_run w0 data f ns);
    [|apply lookup_app_l_Some; exact Hd|exact Ht|exact Hfresh].
  set (w1 := set_frames (frames w0 ++ [with_helpers (inst w0) f ns;
                                       transformed (inst w0) f ns]) w0).
  change (inst w1) with self. change (inst w0) with self in w1.
  rewrite (df_getitem_run w1 _ (transformed self f ns)) by apply lookup_snoc2.
  unfold getitem. rewrite Hylook. unfold lift at 1.
  rewrite torch_tensor_numeric.
  2: { apply (transformed_numeric self f ns (target_col_ self)); [exact Hs|].
       apply lookup_col_In. exact Hylook. }
  erewrite df_drop_run; [|apply lookup_snoc2|apply (drop_target_run self)].
  2: { eapply lookup_col_has_name. exact Hylook. }
  set (w2 := set_frames (frames w1 ++ [features self f ns]) w1).
  rewrite (df_values_run w2 _ (features self f ns)) by apply lookup_snoc.
  unfold lift at 1. rewrite (design_matrix_run self f ns Hs).
  rewrite (df_columns_run w2 _ (features self f ns)) by apply lookup_snoc.
  rewrite (names_features self f ns Htime Hyres).
  assert (Hworld : forall m g,
             set_inst (with_model m g (with_X_names (feature_names self f) self)) w2
             = {| frames := frames w ++ [f; with_helpers (inst w) f ns;
                                         transformed (inst w) f ns; features (inst w) f ns];
                  inst := with_model m g (with_X_names (feature_names (inst w) f) self);
                  param_store := param_store w |}).
  { intros m g. unfold set_inst, w2, w1, w0, set_frames, set_inst.
    cbn [frames inst param_store]. rewrite <- !app_assoc. reflexivity. }
  change (inst w2) with self.
  change (method_ (with_X_names (feature_names self f) self)) with (method_ (inst w)).
  rewrite Hmeth. subst mg. unfold point_model.
  destruct (String.eqb (method_ (inst w)) "MLE") eqn:Emle.
  - cbn [update_self]. unfold lift.
    cbn [fst snd set_inst inst with_model model guide getattr_opt].
    rewrite <- Hworld. reflexivity.
  - destruct (String.eqb (method_ (inst w)) "MAP") eqn:Emap.
    + cbn [update_self]. unfold lift.
      cbn [fst snd set_inst inst with_model model guide getattr_opt].
      rewrite <- Hworld. reflexivity.
    + cbn [has_name existsb] in Hmeth. rewrite Emle, Emap in Hmeth. discriminate Hmeth.
Qed.

(** X7. [fit] with MLE or MAP, at least one iteration, on a series with
    a target of at least one row, when the SVI steps complete on the
    design matrix and the target: it returns; the history is a new object
    equal to the data, the data object itself is as it was; the feature
    names are CONST, the
    input's columns but the target, then the harmonic names; the model and
    the guide are those of the method; the parameter store is what the
    steps leave, whatever it held before. *)
Theorem fit_trains (optimise : svi_outcome) (w : world) (data : ref)
    (f : frame) (ns : list Z) (ys : column) :
  frames w !! data = Some f ->
  is_series (inst w) f = true ->
  lookup_col (time_col_ (inst w)) f = Some (List.map Stamp ns) ->
  lookup_col (target_col_ (inst w)) f = Some ys ->
  time_col_ (inst w) <> target_col_ (inst w) ->
  has_name (method_ (inst w)) ["MLE"; "MAP"] = true ->
  0 < n_iter_ (inst w) ->
  ys <> [] ->
  fst (optimise (fst (point_model (method_ (inst w))))
                (snd (point_model (method_ (inst w))))
                (design_matrix (inst w) f ns) (List.map astype_float ys)) = Ok tt ->
  exists w' : world,
    fit optimise data w = (Ok tt, w')
    /\ frames w' !! data = Some f
    /\ history (inst w') = Some (length (frames w))
    /\ length (frames w) <> data
    /\ frames w' !! length (frames w) = Some f
    /\ X_names (inst w') = Some (feature_names (inst w) f)
    /\ model (inst w') = Some (fst (point_model (method_ (inst w))))
    /\ guide (inst w') = Some (snd (point_model (method_ (inst w))))
    /\ param_store w'
       = snd (optimise (fst (point_model (method_ (inst w))))
                       (snd (point_model (method_ (inst w))))
                       (design_matrix (inst w) f ns) (List.map astype_float ys)).
Proof.
  intros Hd Hs Ht Hy Hne Hmeth Hiter Hys Hopt.
  rewrite (fit_run optimise w data f ns ys Hd Hs Ht Hy Hne Hmeth).
  unfold train_point_estimate.
  cbn [bind M_monad get_self clear_param_store inst with_model n_iter_ with_X_names
       with_history].
  destruct (Z.leb_spec (n_iter_ (inst w)) 0) as [Hle|_]; [lia|].
  cbn [store_params]. unfold lift. rewrite Hopt, length_map.
  destruct ys as [|y0 ys]; [congruence|]. cbn [length Nat.eqb ret M_monad].
  eexists. split; [reflexivity|].
  cbn [frames inst set_param_store param_store history X_names model guide with_model
       with_X_names with_history].
  split; [apply lookup_app_l_Some; exact Hd|].
  split; [reflexivity|].
  split; [apply lookup_lt_Some in Hd; lia|].
  split; [|repeat split].
  change (frames w ++ [f; with_helpers (inst w) f ns; transformed (inst w) f ns;
                       features (inst w) f ns])
    with (frames w ++ [f] ++ [with_helpers (inst w) f ns; transformed (inst w) f ns;
                              features (inst w) f ns]).
  rewrite app_assoc. apply lookup_app_l_Some. apply lookup_snoc.
Qed.

Lemma fit_trains_witness :
  exists w' : world,
    fit trained_zeros 0%nat (world_of one_harmonic two_observed) = (Ok tt, w')
    /\ frames w' !! 0%nat = Some two_observed
    /\ history (inst w') = Some 1%nat
    /\ 1%nat <> 0%nat
    /\ frames w' !! 1%nat = Some two_observed
    /\ X_names (inst w')
       = Some ["CONST"; "ds"; "yearly_sin_1"; "yearly_cos_1";
               "monthly_sin_1"; "monthly_cos_1"; "weekly_sin_1"; "weekly_cos_1"]
    /\ model (inst w') = Some model_MLE_
    /\ guide (inst w') = Some guide_MLE_
    /\ param_store w'
       = snd (trained_zeros model_MLE_ guide_MLE_
                (design_matrix one_harmonic two_observed [0; 86400000000000])
                (List.map astype_float [Num 1; Num 2])).
Proof.
  apply (fit_trains trained_zeros (world_of one_harmonic two_observed) 0%nat two_observed
                    [0; 86400000000000] [Num 1; Num 2]);
    [reflexivity|vm_compute; reflexivity|reflexivity|reflexivity|discriminate
    |reflexivity|reflexivity|discriminate|reflexivity].
Defined.

(** X8. [fit] with a number of iterations that is zero or negative does
    not train: after the history, the feature names, the model and the
    guide were set and the parameter store was cleared, reading [step]
    after the loop that never ran raises. *)
Theorem fit_without_iterations (optimise : svi_outcome) (w : world) (data : ref)
    (f : frame) (ys : column) :
  frames w !! data = Some f ->
  is_series (inst w) f = true ->
  lookup_col (target_col_ (inst w)) f = Some ys ->
  time_col_ (inst w) <> target_col_ (inst w) ->
  has_name (method_ (inst w)) ["MLE"; "MAP"] = true ->
  n_iter_ (inst w) <= 0 ->
  exists w' : world,
    fit optimise data w = (Raise (NameError "step"), w')
    /\ param_store w' = ∅
    /\ history (inst w') = Some (length (frames w))
    /\ X_names (inst w') = Some (feature_names (inst w) f)
    /\ model (inst w') = Some (fst (point_model (method_ (inst w)))).
Proof.
  intros Hd Hs Hy Hne Hmeth Hiter. destruct (is_series_time _ _ Hs) as [ns Ht].
  rewrite (fit_run optimise w data f ns ys Hd Hs Ht Hy Hne Hmeth).
  unfold train_point_estimate.
  cbn [bind M_monad get_self clear_param_store inst with_model n_iter_ with_X_names
       with_history].
  destruct (Z.leb_spec (n_iter_ (inst w)) 0) as [_|Hlt]; [|lia].
  eexists. split; [reflexivity|]. repeat split.
Qed.

Lemma fit_without_iterations_witness :
  exists w' : world,
    fit no_training 0%nat (world_of no_iterations two_days) = (Raise (NameError "step"), w')
    /\ param_store w' = ∅
    /\ history (inst w') = Some 1%nat
    /\ X_names (inst w')
       = Some ["CONST"; "ds"; "yearly_sin_1"; "yearly_cos_1";
               "monthly_sin_1"; "monthly_cos_1"; "weekly_sin_1"; "weekly_cos_1"]
    /\ model (inst w') = Some model_MAP_.
Proof.
  apply (fit_without_iterations no_training (world_of no_iterations two_days) 0%nat
                                two_days [Num 1; NaN]);
    [reflexivity|vm_compute; reflexivity|reflexivity|discriminate|reflexivity|discriminate].
Defined.

(** X9. [fit] on a series without the target column raises the key error
    of the target, and by then the instance has already taken the new
    history: what an earlier fit left as feature names, model, guide and
    parameters is still there, beside a history they were not trained on. *)
Theorem fit_missing_target (optimise : svi_outcome) (w : world) (data : ref) (f : frame) :
  frames w !! data = Some f ->
  is_series (inst w) f = true ->
  lookup_col (target_col_ (inst w)) f = None ->
  has_name (target_col_ (inst w)) (reserved_names (inst w)) = false ->
  exists w' : world,
    fit optimise data w = (Raise (KeyError (target_col_ (inst w))), w')
    /\ history (inst w') = Some (length (frames w))
    /\ frames w' !! length (frames w) = Some f
    /\ X_names (inst w') = X_names (inst w)
    /\ model (inst w') = model (inst w)
    /\ guide (inst w') = guide (inst w)
    /\ param_store w' = param_store w.
Proof.
  intros Hd Hs Hy Hres. destruct (is_series_time _ _ Hs) as [ns Ht].
  assert (Hfresh := is_series_fresh _ _ Hs).
  assert (Htime : has_name (time_col_ (inst w)) (names f) = true)
    by (eapply lookup_col_has_name; exact Ht).
  assert (Hne : time_col_ (inst w) <> target_col_ (inst w)).
  { intros E. rewrite <- E, Ht in Hy. discriminate Hy. }
  set (self := with_history (length (frames w)) (inst w)).
  unfold fit. cbn [bind M_monad get_self update_self].
  rewrite (df_copy_run w data f Hd).
  cbn [set_frames inst frames param_store set_inst]. fold self.
  set (w0 := set_inst self (set_frames (frames w ++ [f]) w)).
  rewrite (transform_data_run w0 data f ns);
    [|apply lookup_app_l_Some; exact Hd|exact Ht|exact Hfresh].
  set (w1 := set_frames (frames w0 ++ [with_helpers (inst w0) f ns;
                                       transformed (inst w0) f ns]) w0).
  change (inst w1) with self. change (inst w0) with self in w1.
  rewrite (df_getitem_run w1 _ (transformed self f ns)) by apply lookup_snoc2.
  unfold getitem. rewrite (lookup_target_transformed self f ns) by assumption.
  change (target_col_ self) with (target_col_ (inst w)). rewrite Hy.
  eexists. split; [reflexivity|].
  cbn [inst w1 w0 set_frames set_inst frames param_store self with_history history
       X_names model guide].
  repeat split.
  apply lookup_app_l_Some. apply lookup_snoc.
Qed.

Lemma fit_missing_target_witness :
  exists w' : world,
    fit no_training 0%nat
        {| frames := [stamps_only]; inst := fitted_mle;
           param_store := <["betas" := [1%R]]> ∅ |}
    = (Raise (KeyError "y"), w')
    /\ history (inst w') = Some 1%nat
    /\ frames w' !! 1%nat = Some stamps_only
    /\ X_names (inst w') = None
    /\ model (inst w') = Some model_MLE_
    /\ guide (inst w') = Some guide_MLE_
    /\ param_store w' = <["betas" := [1%R]]> ∅.
Proof.
  refine (fit_missing_target no_training
            {| frames := [stamps_only]; inst := fitted_mle;
               param_store := <["betas" := [1%R]]> ∅ |} 0%nat stamps_only _ _ _ _);
    [reflexivity|vm_compute; reflexivity|reflexivity|reflexivity].
Defined.

(** ** What the methods leave alone *)

(** *** The frames that exist when a method is called *)

Section Keeps.

Variable base : list frame.


Lemma safe_bind {A B} (m : M A) (k : A -> M B) (Q : A -> Prop) (R : B -> Prop) :
  safe base m Q -> (forall a, Q a -> safe base (k a) R) -> safe base (bind m k) R.
Proof.
  intros Hm Hk w Hw. cbn [bind M_monad]. destruct (Hm w Hw) as [H1 H2].
  destruct (m w) as [[a|e] w1]; cbn [fst snd] in *.
  - apply Hk; auto.
  - split; [exact H1|discriminate].
Qed.

Lemma safe_weaken {A} (m : M A) (Q R : A -> Prop) :
  safe base m Q -> (forall a, Q a -> R a) -> safe base m R.
Proof. intros Hm HQ w Hw. destruct (Hm w Hw) as [H1 H2]. split; auto. Qed.

Lemma safe_frames_same {A} (m : M A) :
  (forall w, frames (snd (m w)) = frames w) -> safe base m (fun _ => True).
Proof.
  intros Hm w [extra Hw]. split; [|auto]. exists extra. rewrite Hm. exact Hw.
Qed.

Lemma safe_lift {A} (r : result A) : safe base (lift r) (fun _ => True).
Proof. apply safe_frames_same. reflexivity. Qed.

Lemma safe_ret {A} (a : A) : safe base (ret a) (fun _ => True).
Proof. apply safe_frames_same. reflexivity. Qed.

Lemma safe_get_self : safe base get_self (fun _ => True).
Proof. apply safe_frames_same. reflexivity. Qed.

Lemma safe_update_self (upd : Chronos -> Chronos) :
  safe base (update_self upd) (fun _ => True).
Proof. apply safe_frames_same. reflexivity. Qed.

Lemma safe_deref (r : ref) : safe base (deref r) (fun _ => True).
Proof.
  apply safe_frames_same. intros w. unfold deref. destruct (frames w !! r); reflexivity.
Qed.

Lemma safe_pyro_param (name : string) : safe base (pyro_param name) (fun _ => True).
Proof. apply safe_frames_same. reflexivity. Qed.

Lemma safe_alloc (f : frame) : safe base (alloc f) (later base).
Proof.
  intros w [extra Hw]. unfold alloc. cbn [fst snd set_frames frames]. split.
  - exists (extra ++ [f]). rewrite Hw, app_assoc. reflexivity.
  - intros a E. injection E as <-. unfold later. rewrite Hw, length_app. lia.
Qed.

Lemma safe_on_later {A} (r : ref) (c : F A) :
  later base r -> safe base (on r c) (fun _ => True).
Proof.
  intros Hr w [extra Hw]. unfold on. split; [|auto].
  destruct (frames w !! r) as [f|]; [|exists extra; exact Hw].
  destruct (c f) as [res f']. cbn [snd set_frames frames].
  exists (<[(r - length base)%nat := f']> extra).
  rewrite Hw. apply insert_app_r_alt. exact Hr.
Qed.

Lemma safe_df_getitem (r : ref) (name : string) :
  safe base (df_getitem r name) (fun _ => True).
Proof.
  apply safe_frames_same. intros w. unfold df_getitem, on.
  destruct (frames w !! r) as [f|] eqn:E; [|reflexivity].
  cbn [OnFrame.getitem snd set_frames frames]. apply list_insert_id. exact E.
Qed.

Ltac safe_seq lem := eapply safe_bind; [apply lem|intros ? ?].

Lemma safe_df_copy (r : ref) : safe base (df_copy r) (later base).
Proof. unfold df_copy. safe_seq safe_deref. apply safe_alloc. Qed.

Lemma safe_df_drop (r : ref) (labels : list string) :
  safe base (df_drop r labels) (later base).
Proof.
  unfold df_drop. safe_seq safe_deref. safe_seq (@safe_lift frame). apply safe_alloc.
Qed.

Lemma safe_df_select (r : ref) (labels : list string) :
  safe base (df_select r labels) (later base).
Proof.
  unfold df_select. safe_seq safe_deref. safe_seq (@safe_lift frame). apply safe_alloc.
Qed.

Lemma safe_df_values (r : ref) : safe base (df_values r) (fun _ => True).
Proof. unfold df_values. safe_seq safe_deref. apply safe_ret. Qed.

Lemma safe_df_columns (r : ref) : safe base (df_columns r) (fun _ => True).
Proof. unfold df_columns. safe_seq safe_deref. apply safe_ret. Qed.

Lemma safe_pd_concat (a b : ref) : safe base (pd_concat a b) (later base).
Proof.
  unfold pd_concat. safe_seq safe_deref. safe_seq safe_deref. apply safe_alloc.
Qed.

Lemma safe_transform_data_ (data : ref) :
  safe base (transform_data_ data) (later base).
Proof.
  unfold transform_data_. safe_seq safe_get_self. safe_seq safe_df_copy.
  eapply safe_bind; [apply safe_on_later; assumption|intros _ _].
  apply safe_df_drop.
Qed.

Lemma safe_train_point_estimate (optimise : svi_outcome) (m : model_fn) (g : guide_fn)
    (X : list column) (y : column) :
  safe base (train_point_estimate optimise m g X y) (fun _ => True).
Proof. apply safe_frames_same. intros w. unfold train_point_estimate.
  cbn [bind M_monad get_self clear_param_store].
  destruct (n_iter_ (inst w) <=? 0); [reflexivity|].
  cbn [store_params]. unfold lift.
  destruct (fst (optimise m g X y)); [|reflexivity].
  destruct (Nat.eqb (length y) 0); reflexivity.
Qed.

Lemma safe_fit (optimise : svi_outcome) (data : ref) :
  safe base (fit optimise data) (fun _ => True).
Proof.
  unfold fit. safe_seq safe_df_copy. safe_seq safe_update_self.
  safe_seq safe_transform_data_. safe_seq safe_get_self. safe_seq safe_df_getitem.
  safe_seq (@safe_lift column). safe_seq safe_df_drop. safe_seq safe_df_values.
  safe_seq (@safe_lift (list column)). safe_seq safe_df_columns.
  safe_seq safe_update_self. safe_seq safe_get_self.
  match goal with |- safe base (if ?b then _ else _) _ => destruct b end.
  - eapply safe_bind with (Q := fun _ => True).
    + repeat match goal with
             | |- safe base (if ?b then _ else _) _ => destruct b
             end; first [apply safe_update_self|apply safe_ret].
    + intros _ _. safe_seq safe_get_self. safe_seq (@safe_lift model_fn).
      safe_seq (@safe_lift guide_fn). apply safe_train_point_estimate.
  - safe_seq (@safe_lift string).
    match goal with |- safe base (if ?b then _ else _) _ => destruct b end; apply safe_ret.
Qed.

Lemma safe_predict (predictive : predictive_draw) (data : ref) (sample_number : nat)
    (ci_interval : Q) :
  safe base (predict predictive data sample_number ci_interval) (fun _ => True).
Proof.
  unfold predict. safe_seq safe_get_self. safe_seq safe_transform_data_.
  safe_seq safe_df_getitem. safe_seq (@safe_lift column). safe_seq safe_df_drop.
  safe_seq safe_df_values. safe_seq (@safe_lift (list column)).
  match goal with |- safe base (if ?b then _ else _) _ => destruct b end;
    [|apply safe_lift].
  safe_seq (@safe_lift model_fn). safe_seq (@safe_lift guide_fn).
  safe_seq (@safe_lift tensor2). safe_seq (@safe_lift Float.float).
  safe_seq (@safe_lift Float.float). safe_seq (@safe_lift Z).
  safe_seq (@safe_lift Float.float). safe_seq (@safe_lift Z).
  cbv zeta. safe_seq (@safe_lift (list Q)). safe_seq (@safe_lift (list Q)).
  safe_seq safe_alloc.
  eapply safe_bind; [apply safe_on_later; assumption|intros _ _].
  safe_seq safe_df_getitem.
  eapply safe_bind; [apply safe_on_later; assumption|intros _ _].
  eapply safe_weaken; [apply safe_df_select|auto].
Qed.

Lemma safe_make_future_dataframe (period : Z) (frequency : freq) (include_history : bool) :
  safe base (make_future_dataframe period frequency include_history) (fun _ => True).
Proof.
  unfold make_future_dataframe. safe_seq safe_get_self. safe_seq (@safe_lift ref).
  safe_seq safe_df_getitem. safe_seq (@safe_lift (option Z)).
  safe_seq (@safe_lift (list Z)). cbv zeta. safe_seq safe_alloc.
  safe_seq safe_df_copy. safe_seq safe_pd_concat. apply safe_ret.
Qed.

Lemma safe_seasonality_point (tag : string) (ndays : Z) (period : R) (dayname : string)
    (offset : Z) (param_name : string) :
  safe base (seasonality_point tag ndays period dayname offset param_name) (fun _ => True).
Proof.
  unfold seasonality_point. safe_seq safe_get_self. safe_seq safe_pyro_param.
  safe_seq (@safe_lift (list string)). safe_seq (@safe_lift (list R)).
  safe_seq (@safe_lift (list (R * R))). cbv zeta.
  eapply safe_weaken; [apply safe_alloc|auto].
Qed.

Lemma safe_getter (point : string -> M ref) (msg : string) :
  (forall name, safe base (point name) (fun _ => True)) ->
  safe base (let* self := get_self in
        if String.eqb (method_ self) "MAP" then point "AutoDelta.betas"
        else if String.eqb (method_ self) "MLE" then point "betas"
        else raise (NotImplementedError msg)) (fun _ => True).
Proof.
  intros Hp. safe_seq safe_get_self.
  repeat match goal with |- safe base (if ?b then _ else _) _ => destruct b end;
    first [apply Hp|apply safe_lift].
Qed.

End Keeps.

Lemma keeps_after {A} (m : M A) (w : world) (r : ref) (f : frame) :
  safe (frames w) m (fun _ => True) ->
  frames w !! r = Some f -> frames (snd (m w)) !! r = Some f.
Proof.
  intros Hm Hr. destruct (Hm w) as [[extra E] _].
  - exists []. rewrite app_nil_r. reflexivity.
  - rewrite E. apply lookup_app_l_Some. exact Hr.
Qed.

(** *** The instance and the parameter store *)

Section Unchanged.

Context {S : Type} (proj : world -> S).
Hypothesis proj_frames : forall fs w, proj (set_frames fs w) = proj w.

Lemma unchanged_bind {A B} (m : M A) (k : A -> M B) :
  unchanged proj m -> (forall a, unchanged proj (k a)) -> unchanged proj (bind m k).
Proof.
  intros Hm Hk w. cbn [bind M_monad]. specialize (Hm w).
  destruct (m w) as [[a|e] w1]; cbn [snd] in *; [rewrite Hk|]; exact Hm.
Qed.

Lemma unchanged_lift {A} (r : result A) : unchanged proj (lift r).
Proof. intros w. reflexivity. Qed.

Lemma unchanged_ret {A} (a : A) : unchanged proj (ret a).
Proof. intros w. reflexivity. Qed.

Lemma unchanged_get_self : unchanged proj get_self.
Proof. intros w. reflexivity. Qed.

Lemma unchanged_pyro_param (name : string) : unchanged proj (pyro_param name).
Proof. intros w. reflexivity. Qed.

Lemma unchanged_alloc (f : frame) : unchanged proj (alloc f).
Proof using proj_frames. intros w. apply proj_frames. Qed.

Lemma unchanged_deref (r : ref) : unchanged proj (deref r).
Proof. intros w. unfold deref. destruct (frames w !! r); reflexivity. Qed.

Lemma unchanged_on {A} (r : ref) (c : F A) : unchanged proj (on r c).
Proof using proj_frames.
  intros w. unfold on. destruct (frames w !! r) as [f|]; [|reflexivity].
  destruct (c f). apply proj_frames.
Qed.

Ltac unchanged_seq lem := apply unchanged_bind; [apply lem|intros ?].

Lemma unchanged_df_copy (r : ref) : unchanged proj (df_copy r).
Proof using proj_frames. unfold df_copy. unchanged_seq unchanged_deref. apply unchanged_alloc. Qed.

Lemma unchanged_df_drop (r : ref) (labels : list string) : unchanged proj (df_drop r labels).
Proof using proj_frames.
  unfold df_drop. unchanged_seq unchanged_deref. unchanged_seq (@unchanged_lift frame).
  apply unchanged_alloc.
Qed.

Lemma unchanged_df_select (r : ref) (labels : list string) :
  unchanged proj (df_select r labels).
Proof using proj_frames.
  unfold df_select. unchanged_seq unchanged_deref. unchanged_seq (@unchanged_lift frame).
  apply unchanged_alloc.
Qed.

Lemma unchanged_df_values (r : ref) : unchanged proj (df_values r).
Proof. unfold df_values. unchanged_seq unchanged_deref. apply unchanged_ret. Qed.

Lemma unchanged_df_columns (r : ref) : unchanged proj (df_columns r).
Proof. unfold df_columns. unchanged_seq unchanged_deref. apply unchanged_ret. Qed.

Lemma unchanged_pd_concat (a b : ref) : unchanged proj (pd_concat a b).
Proof using proj_frames.
  unfold pd_concat. unchanged_seq unchanged_deref. unchanged_seq unchanged_deref.
  apply unchanged_alloc.
Qed.

Lemma unchanged_transform_data_ (data : ref) : unchanged proj (transform_data_ data).
Proof using proj_frames.
  unfold transform_data_. unchanged_seq unchanged_get_self. unchanged_seq unchanged_df_copy.
  unchanged_seq (@unchanged_on unit). apply unchanged_df_drop.
Qed.

Lemma unchanged_predict (predictive : predictive_draw) (data : ref) (sample_number : nat)
    (ci_interval : Q) :
  unchanged proj (predict predictive data sample_number ci_interval).
Proof using proj_frames.
  unfold predict. unchanged_seq unchanged_get_self. unchanged_seq unchanged_transform_data_.
  unchanged_seq (@unchanged_on column). unchanged_seq (@unchanged_lift column).
  unchanged_seq unchanged_df_drop. unchanged_seq unchanged_df_values.
  unchanged_seq (@unchanged_lift (list column)).
  match goal with |- unchanged _ (if ?b then _ else _) => destruct b end;
    [|apply unchanged_lift].
  unchanged_seq (@unchanged_lift model_fn). unchanged_seq (@unchanged_lift guide_fn).
  unchanged_seq (@unchanged_lift tensor2). unchanged_seq (@unchanged_lift Float.float).
  unchanged_seq (@unchanged_lift Float.float). unchanged_seq (@unchanged_lift Z).
  unchanged_seq (@unchanged_lift Float.float). unchanged_seq (@unchanged_lift Z).
  cbv zeta. unchanged_seq (@unchanged_lift (list Q)). unchanged_seq (@unchanged_lift (list Q)).
  unchanged_seq unchanged_alloc. unchanged_seq (@unchanged_on unit).
  unchanged_seq (@unchanged_on column). unchanged_seq (@unchanged_on unit).
  apply unchanged_df_select.
Qed.

Lemma unchanged_make_future_dataframe (period : Z) (frequency : freq)
    (include_history : bool) :
  unchanged proj (make_future_dataframe period frequency include_history).
Proof using proj_frames.
  unfold make_future_dataframe. unchanged_seq unchanged_get_self.
  unchanged_seq (@unchanged_lift ref). unchanged_seq (@unchanged_on column).
  unchanged_seq (@unchanged_lift (option Z)). unchanged_seq (@unchanged_lift (list Z)).
  cbv zeta. unchanged_seq unchanged_alloc. unchanged_seq unchanged_df_copy.
  unchanged_seq unchanged_pd_concat. apply unchanged_ret.
Qed.

Lemma unchanged_seasonality_point (tag : string) (ndays : Z) (period : R)
    (dayname : string) (offset : Z) (param_name : string) :
  unchanged proj (seasonality_point tag ndays period dayname offset param_name).
Proof using proj_frames.
  unfold seasonality_point. unchanged_seq unchanged_get_self.
  unchanged_seq unchanged_pyro_param. unchanged_seq (@unchanged_lift (list string)).
  unchanged_seq (@unchanged_lift (list R)). unchanged_seq (@unchanged_lift (list (R * R))).
  cbv zeta. apply unchanged_alloc.
Qed.

Lemma unchanged_getter (point : string -> M ref) (msg : string) :
  (forall name, unchanged proj (point name)) ->
  unchanged proj (let* self := get_self in
                  if String.eqb (method_ self) "MAP" then point "AutoDelta.betas"
                  else if String.eqb (method_ self) "MLE" then point "betas"
                  else raise (NotImplementedError msg)).
Proof.
  intros Hp. unchanged_seq unchanged_get_self.
  repeat match goal with |- unchanged _ (if ?b then _ else _) => destruct b end;
    first [apply Hp|apply unchanged_lift].
Qed.

(** [fit] writes the instance and the parameter store. *)
Hypothesis proj_store : forall p w, proj (set_param_store p w) = proj w.
Hypothesis proj_history : forall h w, proj (set_inst (with_history h (inst w)) w) = proj w.
Hypothesis proj_X_names : forall l w, proj (set_inst (with_X_names l (inst w)) w) = proj w.
Hypothesis proj_model : forall m g w, proj (set_inst (with_model m g (inst w)) w) = proj w.

Lemma unchanged_train_point_estimate (optimise : svi_outcome) (m : model_fn) (g : guide_fn)
    (X : list column) (y : column) :
  unchanged proj (train_point_estimate optimise m g X y).
Proof using proj_store.
  intros w. unfold train_point_estimate. cbn [bind M_monad get_self clear_param_store].
  change (inst (set_param_store ∅ w)) with (inst w).
  destruct (n_iter_ (inst w) <=? 0); [apply proj_store|].
  cbn [store_params]. unfold raise, lift.
  destruct (fst (optimise m g X y));
    [destruct (Nat.eqb (length y) 0)|];
    cbn [snd ret M_monad]; rewrite proj_store; apply proj_store.
Qed.

Lemma unchanged_fit (optimise : svi_outcome) (data : ref) :
  unchanged proj (fit optimise data).
Proof using proj_frames proj_store proj_history proj_X_names proj_model.
  unfold fit. unchanged_seq unchanged_df_copy.
  apply unchanged_bind; [intros w; apply proj_history|intros _].
  unchanged_seq unchanged_transform_data_. unchanged_seq unchanged_get_self.
  unchanged_seq (@unchanged_on column). unchanged_seq (@unchanged_lift column).
  unchanged_seq unchanged_df_drop. unchanged_seq unchanged_df_values.
  unchanged_seq (@unchanged_lift (list column)). unchanged_seq unchanged_df_columns.
  apply unchanged_bind; [intros w; apply proj_X_names|intros _].
  unchanged_seq unchanged_get_self.
  match goal with |- unchanged _ (if ?b then _ else _) => destruct b end.
  - apply unchanged_bind.
    + repeat match goal with |- unchanged _ (if ?b then _ else _) => destruct b end;
        first [intros w; apply proj_model|apply unchanged_ret].
    + intros _. unchanged_seq unchanged_get_self. unchanged_seq (@unchanged_lift model_fn).
      unchanged_seq (@unchanged_lift guide_fn). apply unchanged_train_point_estimate.
  - unchanged_seq (@unchanged_lift string).
    match goal with |- unchanged _ (if ?b then _ else _) => destruct b end;
      apply unchanged_ret.
Qed.

End Unchanged.

(** X10. No method writes to a frame that exists when it is called:
    after [fit], [predict], [make_future_dataframe] and the three
    decompositions, whether they return or raise, every reference that
    was valid before still holds the same frame. *)
Theorem methods_keep_frames (w : world) (r : ref) (f : frame) :
  frames w !! r = Some f ->
  (forall optimise data, frames (snd (fit optimise data w)) !! r = Some f)
  /\ (forall predictive data sample_number ci_interval,
         frames (snd (predict predictive data sample_number ci_interval w)) !! r = Some f)
  /\ (forall period frequency include_history,
         frames (snd (make_future_dataframe period frequency include_history w)) !! r
         = Some f)
  /\ frames (snd (get_weekly_seasonality w)) !! r = Some f
  /\ frames (snd (get_monthly_seasonality w)) !! r = Some f
  /\ frames (snd (get_yearly_seasonality w)) !! r = Some f.
Proof.
  intros Hr.
  split; [intros; apply keeps_after; [apply safe_fit|exact Hr]|].
  split; [intros; apply keeps_after; [apply safe_predict|exact Hr]|].
  split; [intros; apply keeps_after; [apply safe_make_future_dataframe|exact Hr]|].
  split; [|split]; (apply keeps_after; [|exact Hr]);
    apply safe_getter; intros name; apply safe_seasonality_point.
Qed.

Lemma methods_keep_frames_witness :
  (forall optimise data,
      frames (snd (fit optimise data (fitted_world two_days))) !! 0%nat = Some two_days)
  /\ (forall predictive data sample_number ci_interval,
         frames (snd (predict predictive data sample_number ci_interval
                              (fitted_world two_days))) !! 0%nat = Some two_days)
  /\ (forall period frequency include_history,
         frames (snd (make_future_dataframe period frequency include_history
                                            (fitted_world two_days))) !! 0%nat
         = Some two_days)
  /\ frames (snd (get_weekly_seasonality (fitted_world two_days))) !! 0%nat = Some two_days
  /\ frames (snd (get_monthly_seasonality (fitted_world two_days))) !! 0%nat = Some two_days
  /\ frames (snd (get_yearly_seasonality (fitted_world two_days))) !! 0%nat = Some two_days.
Proof.
  apply (methods_keep_frames (fitted_world two_days) 0%nat two_days). reflexivity.
Defined.

(** X11. The methods that only query leave the instance as it is:
    [transform_data_], [predict], [make_future_dataframe] and the three
    decompositions, whether they return or raise; all but [predict], which
    runs the model, also leave the parameter store. [fit] rewrites the
    fitted attributes and the store but never what [__init__] set. *)
Theorem queries_leave_instance (w : world) :
  (forall data,
      inst (snd (transform_data_ data w)) = inst w
      /\ param_store (snd (transform_data_ data w)) = param_store w)
  /\ (forall predictive data sample_number ci_interval,
         inst (snd (predict predictive data sample_number ci_interval w)) = inst w)
  /\ (forall period frequency include_history,
         inst (snd (make_future_dataframe period frequency include_history w)) = inst w
         /\ param_store (snd (make_future_dataframe period frequency include_history w))
            = param_store w)
  /\ (inst (snd (get_weekly_seasonality w)) = inst w
      /\ param_store (snd (get_weekly_seasonality w)) = param_store w)
  /\ (inst (snd (get_monthly_seasonality w)) = inst w
      /\ param_store (snd (get_monthly_seasonality w)) = param_store w)
  /\ (inst (snd (get_yearly_seasonality w)) = inst w
      /\ param_store (snd (get_yearly_seasonality w)) = param_store w)
  /\ (forall optimise data,
         config (inst (snd (fit optimise data w))) = config (inst w)).
Proof.
  assert (Hi : forall fs w0, inst (set_frames fs w0) = inst w0) by reflexivity.
  assert (Hp : forall fs w0, param_store (set_frames fs w0) = param_store w0)
    by reflexivity.
  split; [intros; split; [apply (unchanged_transform_data_ inst Hi)
                         |apply (unchanged_transform_data_ param_store Hp)]|].
  split; [intros; apply (unchanged_predict inst Hi)|].
  split; [intros; split; [apply (unchanged_make_future_dataframe inst Hi)
                         |apply (unchanged_make_future_dataframe param_store Hp)]|].
  split; [split; [apply (unchanged_getter inst)|apply (unchanged_getter param_store)];
          intros name; apply unchanged_seasonality_point; assumption|].
  split; [split; [apply (unchanged_getter inst)|apply (unchanged_getter param_store)];
          intros name; apply unchanged_seasonality_point; assumption|].
  split; [split; [apply (unchanged_getter inst)|apply (unchanged_getter param_store)];
          intros name; apply unchanged_seasonality_point; assumption|].
  intros optimise data.
  apply (unchanged_fit (fun w0 => config (inst w0))); reflexivity.
Qed.

(** ** Before [fit] *)

(** [predict] on a series with its target, when [self.model] was never set. *)
Lemma predict_unfitted_run (predictive : predictive_draw) (w : world) (data : ref)
    (f : frame) (ns : list Z) (ys : column) (sample_number : nat) (ci_interval : Q) :
  frames w !! data = Some f ->
  is_series (inst w) f = true ->
  lookup_col (time_col_ (inst w)) f = Some (List.map Stamp ns) ->
  lookup_col (target_col_ (inst w)) f = Some ys ->
  time_col_ (inst w) <> target_col_ (inst w) ->
  has_name (method_ (inst w)) ["MAP"; "MLE"] = true ->
  model (inst w) = None ->
  exists w' : world,
    predict predictive data sample_number ci_interval w
    = (Raise (AttributeError "model"), w').
Proof.
  intros Hd Hs Ht Hy Hne Hmeth Hm.
  assert (Hfresh := is_series_fresh _ _ Hs).
  assert (Htime : has_name (time_col_ (inst w)) (names f) = true)
    by (eapply lookup_col_has_name; exact Ht).
  assert (Hyn : has_name (target_col_ (inst w)) (names f) = true)
    by (eapply lookup_col_has_name; exact Hy).
  assert (Hyres := present_not_reserved _ _ _ Hfresh Hyn).
  assert (Hylook : lookup_col (target_col_ (inst w)) (transformed (inst w) f ns) = Some ys).
  { rewrite lookup_target_transformed by assumption. exact Hy. }
  unfold predict. cbn [bind M_monad get_self].
  rewrite (transform_data_run w data f ns Hd Ht Hfresh).
  rewrite (df_getitem_run _ _ (transformed (inst w) f ns)) by apply lookup_snoc2.
  unfold getitem. rewrite Hylook. unfold lift at 1.
  rewrite torch_tensor_numeric.
  2: { apply (transformed_numeric (inst w) f ns (target_col_ (inst w))); [exact Hs|].
       apply lookup_col_In. exact Hylook. }
  erewrite df_drop_run; [|apply lookup_snoc2|apply drop_target_run].
  2: { eapply lookup_col_has_name. exact Hylook. }
  erewrite df_values_run by apply lookup_snoc.
  unfold lift at 1. rewrite (design_matrix_run (inst w) f ns Hs), Hmeth, Hm.
  eexists. reflexivity.
Qed.

(** X12. On an instance that was never fitted, with a point-estimate
    method and no coefficients in the store: [make_future_dataframe]
    raises the attribute error of [history], the three decompositions the
    key error of the coefficients' name, and [predict], given a series
    with its target, the attribute error of [model]. *)
Theorem unfitted_instance_raises (w : world) :
  has_name (method_ (inst w)) ["MAP"; "MLE"] = true ->
  history (inst w) = None ->
  model (inst w) = None ->
  param_store w !! betas_name (method_ (inst w)) = None ->
  (forall period frequency include_history,
      make_future_dataframe period frequency include_history w
      = (Raise (AttributeError "history"), w))
  /\ get_weekly_seasonality w = (Raise (KeyError (betas_name (method_ (inst w)))), w)
  /\ get_monthly_seasonality w = (Raise (KeyError (betas_name (method_ (inst w)))), w)
  /\ get_yearly_seasonality w = (Raise (KeyError (betas_name (method_ (inst w)))), w)
  /\ (forall predictive data f ys sample_number ci_interval,
         frames w !! data = Some f ->
         is_series (inst w) f = true ->
         lookup_col (target_col_ (inst w)) f = Some ys ->
         time_col_ (inst w) <> target_col_ (inst w) ->
         exists w' : world,
           predict predictive data sample_number ci_interval w
           = (Raise (AttributeError "model"), w')).
Proof.
  intros Hmeth Hh Hm Hp.
  assert (Hpoint : forall tag ndays period dayname offset,
             seasonality_point tag ndays period dayname offset
                               (betas_name (method_ (inst w))) w
             = (Raise (KeyError (betas_name (method_ (inst w)))), w)).
  { intros. unfold seasonality_point. cbn [bind M_monad get_self pyro_param].
    rewrite Hp. reflexivity. }
  split.
  { intros. unfold make_future_dataframe. cbn [bind M_monad get_self].
    rewrite Hh. reflexivity. }
  split; [unfold get_weekly_seasonality; rewrite getter_dispatch by exact Hmeth;
          apply Hpoint|].
  split; [unfold get_monthly_seasonality; rewrite getter_dispatch by exact Hmeth;
          apply Hpoint|].
  split; [unfold get_yearly_seasonality; rewrite getter_dispatch by exact Hmeth;
          apply Hpoint|].
  intros predictive data f ys sample_number ci_interval Hd Hs Hy Hne.
  destruct (is_series_time _ _ Hs) as [ns Ht].
  eapply predict_unfitted_run; eassumption.
Qed.

Lemma unfitted_instance_raises_witness :
  (forall period frequency include_history,
      make_future_dataframe period frequency include_history (world_of default two_days)
      = (Raise (AttributeError "history"), world_of default two_days))
  /\ get_weekly_seasonality (world_of default two_days)
     = (Raise (KeyError "betas"), world_of default two_days)
  /\ get_monthly_seasonality (world_of default two_days)
     = (Raise (KeyError "betas"), world_of default two_days)
  /\ get_yearly_seasonality (world_of default two_days)
     = (Raise (KeyError "betas"), world_of default two_days)
  /\ (forall predictive data f ys sample_number ci_interval,
         [two_days] !! data = Some f ->
         is_series default f = true ->
         lookup_col "y" f = Some ys ->
         "ds" <> "y" ->
         exists w' : world,
           predict predictive data sample_number ci_interval (world_of default two_days)
           = (Raise (AttributeError "model"), w')).
Proof.
  apply (unfitted_instance_raises (world_of default two_days)); reflexivity.
Defined.

(** ** [predict]: the frame it returns *)






(** X14. [predict] with so few samples that the lower rank, as the code
    computes it in floats, int(n * ((1.0 - ci_interval) / 2.0)), is below
    1 does not return: the lower bound asks [kthvalue] for that rank and
    this raises a runtime error.  So it is with 20 samples at the level
    0.9, where the exact product is 1 and the float product is
    0.9999999999999998. *)
Theorem predict_too_few_samples (predictive : predictive_draw) (w : world)
    (data : ref) (f : frame) (ys : column) (m : model_fn) (g : guide_fn)
    (sample_number : nat) (ci_interval : Q) (lower upper : Z) :
  frames w !! data = Some f ->
  is_series (inst w) f = true ->
  lookup_col (target_col_ (inst w)) f = Some ys ->
  time_col_ (inst w) <> target_col_ (inst w) ->
  has_name (method_ (inst w)) ["MAP"; "MLE"] = true ->
  model (inst w) = Some m -> guide (inst w) = Some g ->
  (forall X, exists samples : tensor2,
      predictive m g sample_number X = Ok samples /\ length samples = sample_number) ->
  lower_ntile sample_number ci_interval = Ok lower ->
  upper_ntile sample_number ci_interval = Ok upper ->
  lower < 1 ->
  exists (msg : string) (w' : world),
    predict predictive data sample_number ci_interval w = (Raise (RuntimeError msg), w').
Proof.
  intros Hd Hs Hy Hne Hmeth Hm Hg Hshape Hlower Hupper Hfew.
  destruct (is_series_time _ _ Hs) as [ns Ht].
  assert (Hfresh := is_series_fresh _ _ Hs).
  assert (Htime : has_name (time_col_ (inst w)) (names f) = true)
    by (eapply lookup_col_has_name; exact Ht).
  assert (Hyn : has_name (target_col_ (inst w)) (names f) = true)
    by (eapply lookup_col_has_name; exact Hy).
  assert (Hyres := present_not_reserved _ _ _ Hfresh Hyn).
  assert (Hylook : lookup_col (target_col_ (inst w)) (transformed (inst w) f ns) = Some ys).
  { rewrite lookup_target_transformed by assumption. exact Hy. }
  destruct (Hshape (design_matrix (inst w) f ns)) as (samples & Hsamples & Hlen).
  rewrite <- Hlen in Hlower, Hupper.
  destruct (ntiles_inv _ _ _ _ Hlower Hupper) as (space & nf & Hspace & Hnf & Elo & Ehi).
  unfold predict. cbn [bind M_monad get_self].
  rewrite (transform_data_run w data f ns Hd Ht Hfresh).
  rewrite (df_getitem_run _ _ (transformed (inst w) f ns)) by apply lookup_snoc2.
  unfold getitem. rewrite Hylook. unfold lift at 1.
  rewrite torch_tensor_numeric.
  2: { apply (transformed_numeric (inst w) f ns (target_col_ (inst w))); [exact Hs|].
       apply lookup_col_In. exact Hylook. }
  erewrite df_drop_run; [|apply lookup_snoc2|apply drop_target_run].
  2: { eapply lookup_col_has_name. exact Hylook. }
  erewrite df_values_run by apply lookup_snoc.
  unfold lift. rewrite (design_matrix_run (inst w) f ns Hs), Hmeth, Hm, Hg.
  cbn [getattr_opt]. rewrite Hsamples.
  fold (space_on_each_side ci_interval). rewrite Hspace, Hnf, Elo, Ehi.
  unfold kthvalue.
  replace (1 <=? lower) with false by (symmetry; apply Z.leb_gt; exact Hfew).
  cbn [andb]. eexists. eexists. reflexivity.
Qed.

Lemma predict_too_few_samples_witness :
  exists (msg : string) (w' : world),
    predict draw_outlier 0%nat 20%nat 0.9%Q (world_of fitted_mle two_days)
    = (Raise (RuntimeError msg), w').
Proof.
  refine (predict_too_few_samples draw_outlier (world_of fitted_mle two_days) 0%nat two_days
            [Num 1; NaN] model_MLE_ guide_MLE_ 20%nat 0.9%Q 0 19 _ _ _ _ _ _ _ _ _ _ _);
    [reflexivity|vm_compute; reflexivity|reflexivity|discriminate|reflexivity
    |reflexivity|reflexivity|intros X; eexists; split; reflexivity
    |vm_compute; reflexivity|vm_compute; reflexivity|lia].
Defined.

(** ** [make_future_dataframe]: any period, any fixed step *)

(** When the second frame has no column of its own, the concatenation has
    the columns of the first. *)
Lemma names_concat_frames (a b : frame) :
  (forall n, In n (names b) -> has_name n (names a) = true) ->
  names (concat_frames a b) = names a.
Proof.
  intros Hb. unfold concat_frames. rewrite names_app.
  assert (Hf : List.filter (fun nc => negb (has_name (fst nc) (names a))) b = []).
  { induction b as [|[n c] b IH]; [reflexivity|]. cbn [List.filter fst].
    rewrite (Hb n) by (left; reflexivity). cbn [negb].
    apply IH. intros m Hm. apply Hb. right. exact Hm. }
  rewrite Hf. cbn [List.map names]. rewrite app_nil_r.
  unfold names. rewrite List.map_map. reflexivity.
Qed.

Lemma names_future_frame (self : Chronos) (new : list Z) :
  time_col_ self <> target_col_ self ->
  names (future_frame self new) = [time_col_ self; target_col_ self].
Proof. intros Hne. rewrite future_frame_cols by exact Hne. reflexivity. Qed.

Lemma lookup_future_frame (self : Chronos) (new : list Z) (n : string) :
  time_col_ self <> target_col_ self ->
  lookup_col n (future_frame self new)
  = if String.eqb (time_col_ self) n then Some (List.map Stamp new)
    else if String.eqb (target_col_ self) n then Some (repeat NaN (length new))
    else None.
Proof. intros Hne. rewrite future_frame_cols by exact Hne. reflexivity. Qed.

Lemma nrows_future_frame (self : Chronos) (new : list Z) :
  time_col_ self <> target_col_ self ->
  nrows (future_frame self new) = length new.
Proof.
  intros Hne. rewrite future_frame_cols by exact Hne. cbn [nrows]. apply length_map.
Qed.

Lemma lookup_future_rows (self : Chronos) (hist : frame) (new : list Z) (n : string)
    (c : column) :
  time_col_ self <> target_col_ self ->
  n <> time_col_ self ->
  lookup_col n hist = Some c ->
  lookup_col n (concat_frames hist (future_frame self new))
  = Some (c ++ repeat NaN (length new)).
Proof.
  intros Hne Hn Hc. rewrite (lookup_concat_frames hist _ n c Hc).
  rewrite lookup_future_frame, nrows_future_frame by exact Hne.
  destruct (String.eqb_spec (time_col_ self) n) as [E|_]; [congruence|].
  destruct (String.eqb (target_col_ self) n); reflexivity.
Qed.

Lemma lookup_future_time (self : Chronos) (hist : frame) (ns new : list Z) :
  time_col_ self <> target_col_ self ->
  lookup_col (time_col_ self) hist = Some (List.map Stamp ns) ->
  lookup_col (time_col_ self) (concat_frames hist (future_frame self new))
  = Some (List.map Stamp (ns ++ new)).
Proof.
  intros Hne Ht. rewrite (lookup_concat_frames hist _ _ _ Ht).
  rewrite lookup_future_frame by exact Hne.
  rewrite String.eqb_refl, List.map_app. reflexivity.
Qed.

Lemma names_future (self : Chronos) (hist : frame) (new : list Z) :
  time_col_ self <> target_col_ self ->
  has_name (time_col_ self) (names hist) = true ->
  has_name (target_col_ self) (names hist) = true ->
  names (concat_frames hist (future_frame self new)) = names hist.
Proof.
  intros Hne Ht Hy. apply names_concat_frames.
  rewrite names_future_frame by exact Hne.
  intros n [<-|[<-|[]]]; assumption.
Qed.

(** X15. [make_future_dataframe] for any period that is not negative
    and any fixed step, when the last new stamp, max + period step, does
    not pass [Timestamp.max]: the result has the columns of the history,
    in their order; its time column is the one of the history followed by
    max + step, max + 2 step, ..., max + period step, where max is the
    last stamp observed; every other column is, as floats, the one of
    the history followed by [period] missing values. *)
Theorem make_future_dataframe_rows (w : world) (h : ref) (hist : frame)
    (ns : list Z) (ys : column) (mx period : Z) (frequency : freq)
    (include_history : bool) :
  history (inst w) = Some h ->
  frames w !! h = Some hist ->
  lookup_col (time_col_ (inst w)) hist = Some (List.map Stamp ns) ->
  lookup_col (target_col_ (inst w)) hist = Some ys ->
  time_col_ (inst w) <> target_col_ (inst w) ->
  stamp_max ns = Some mx ->
  0 <= period ->
  mx + period * step_ns frequency <= timestamp_max ->
  exists (r : ref) (w' : world) (out : frame),
    make_future_dataframe period frequency include_history w = (Ok r, w')
    /\ frames w' !! r = Some out
    /\ later (frames w) r
    /\ names out = names hist
    /\ lookup_col (time_col_ (inst w)) out
       = Some (List.map Stamp
                 (ns ++ List.map (fun k => mx + k * step_ns frequency)
                                 (range 1 (period + 1))))
    /\ forall (n : string) (c : column),
         n <> time_col_ (inst w) -> lookup_col n hist = Some c ->
         exists c' : column,
           lookup_col n out = Some c'
           /\ List.map astype_float c'
              = List.map astype_float c ++ repeat NaN (Z.to_nat period).
Proof.
  intros Hh Hd Ht Hy Hne Hmx Hp Hlast.
  assert (Hns : ns <> []) by (intros ->; discriminate Hmx).
  destruct (future_stamps_sorted ns mx period frequency Hmx Hp) as (Hlen & _ & _).
  assert (Hnew := future_stamps_spec ns mx period frequency Hmx Hp).
  set (new := future_stamps ns period frequency) in *.
  eexists; eexists; exists (concat_frames hist (future_frame (inst w) new)).
  split.
  { apply (make_future_dataframe_run w h hist ns period frequency include_history
             Hh Hd Ht Hns); [lia|].
    intros mx' Hmx' _. rewrite Hmx in Hmx'. injection Hmx' as <-. exact Hlast. }
  split.
  { cbn [frames set_frames]. fold new.
    replace (length (frames w) + 2)%nat
      with (length (frames w ++ [future_frame (inst w) new; hist]))
      by (rewrite length_app; reflexivity).
    change (frames w ++ [future_frame (inst w) new; hist;
                         concat_frames hist (future_frame (inst w) new)])
      with (frames w ++ [future_frame (inst w) new; hist]
                     ++ [concat_frames hist (future_frame (inst w) new)]).
    rewrite app_assoc. apply lookup_snoc. }
  split; [unfold later; lia|].
  split.
  { apply names_future; [exact Hne| |]; eapply lookup_col_has_name; eassumption. }
  split.
  { rewrite (lookup_future_time (inst w) hist ns new Hne Ht), Hnew. reflexivity. }
  intros n c Hn Hc. rewrite <- Hlen. exists (c ++ repeat NaN (length new)).
  split; [exact (lookup_future_rows (inst w) hist new n c Hne Hn Hc)|].
  rewrite List.map_app. f_equal. clear.
  induction (length new) as [|k IH]; [reflexivity|].
  cbn [repeat List.map astype_float]. rewrite IH. reflexivity.
Qed.

Lemma make_future_dataframe_rows_witness :
  exists (r : ref) (w' : world) (out : frame),
    make_future_dataframe 3 H false (fitted_world two_days) = (Ok r, w')
    /\ frames w' !! r = Some out
    /\ later [two_days] r
    /\ names out = ["ds"; "y"]
    /\ lookup_col "ds" out
       = Some (List.map Stamp
                 ([0; 86400000000000]
                  ++ List.map (fun k => 86400000000000 + k * step_ns H) (range 1 (3 + 1))))
    /\ forall (n : string) (c : column),
         n <> "ds" -> lookup_col n two_days = Some c ->
         exists c' : column,
           lookup_col n out = Some c'
           /\ List.map astype_float c' = List.map astype_float c ++ repeat NaN (Z.to_nat 3).
Proof.
  refine (make_future_dataframe_rows (fitted_world two_days) 0%nat two_days
            [0; 86400000000000] [Num 1; NaN] 86400000000000 3 H false _ _ _ _ _ _ _ _);
    [reflexivity|reflexivity|reflexivity|reflexivity|discriminate|reflexivity|lia
    |vm_compute; discriminate].
Defined.

(** Appending a frame without rows whose columns the first frame has
    gives the first frame. *)
Lemma concat_frames_no_rows (a b : frame) :
  (forall n c, In (n, c) b -> c = [] /\ has_name n (names a) = true) ->
  concat_frames a b = a.
Proof.
  intros Hb. unfold concat_frames.
  assert (Hf : List.filter (fun nc => negb (has_name (fst nc) (names a))) b = []).
  { induction b as [|[n c] b IH]; [reflexivity|]. cbn [List.filter fst].
    rewrite (proj2 (Hb n c (or_introl eq_refl))). cbn [negb].
    apply IH. intros m d Hm. apply Hb. right. exact Hm. }
  rewrite Hf. cbn [List.map]. rewrite app_nil_r.
  assert (Hnb : nrows b = 0%nat).
  { destruct b as [|[n c] b]; [reflexivity|].
    cbn [nrows]. rewrite (proj1 (Hb n c (or_introl eq_refl))). reflexivity. }
  rewrite Hnb. cbn [repeat].
  rewrite <- (List.map_id a) at 2. apply List.map_ext. intros [n c]. cbn [fst snd].
  f_equal. destruct (lookup_col n b) as [c'|] eqn:E.
  - apply lookup_col_In in E. rewrite (proj1 (Hb n c' E)). apply app_nil_r.
  - apply app_nil_r.
Qed.

(** X16. With [period=0] the result is a copy of the history: a new
    object that holds the same columns and rows. *)
Theorem make_future_dataframe_no_period (w : world) (h : ref) (hist : frame)
    (ns : list Z) (ys : column) (frequency : freq) (include_history : bool) :
  history (inst w) = Some h ->
  frames w !! h = Some hist ->
  lookup_col (time_col_ (inst w)) hist = Some (List.map Stamp ns) ->
  lookup_col (target_col_ (inst w)) hist = Some ys ->
  time_col_ (inst w) <> target_col_ (inst w) ->
  ns <> [] ->
  exists (r : ref) (w' : world),
    make_future_dataframe 0 frequency include_history w = (Ok r, w')
    /\ frames w' !! r = Some hist
    /\ r <> h.
Proof.
  intros Hh Hd Ht Hy Hne Hns.
  assert (Hnew : future_stamps ns 0 frequency = []).
  { unfold future_stamps. destruct (stamp_max ns); reflexivity. }
  assert (Hcopy : concat_frames hist (future_frame (inst w) []) = hist).
  { apply concat_frames_no_rows. rewrite future_frame_cols by exact Hne.
    intros n c [E|[E|[]]]; injection E as <- <-; (split; [reflexivity|]);
      eapply lookup_col_has_name; eassumption. }
  eexists; eexists. split.
  { apply (make_future_dataframe_run w h hist ns 0 frequency include_history
             Hh Hd Ht Hns); [lia|]. intros mx _ Hpos. lia. }
  rewrite Hnew, Hcopy. cbn [frames set_frames]. split.
  - replace (length (frames w) + 2)%nat
      with (length (frames w ++ [future_frame (inst w) []; hist]))
      by (rewrite length_app; reflexivity).
    change (frames w ++ [future_frame (inst w) []; hist; hist])
      with (frames w ++ [future_frame (inst w) []; hist] ++ [hist]).
    rewrite app_assoc. apply lookup_snoc.
  - apply lookup_lt_Some in Hd. lia.
Qed.

Lemma make_future_dataframe_no_period_witness :
  exists (r : ref) (w' : world),
    make_future_dataframe 0 D true (fitted_world two_days) = (Ok r, w')
    /\ frames w' !! r = Some two_days
    /\ r <> 0%nat.
Proof.
  refine (make_future_dataframe_no_period (fitted_world two_days) 0%nat two_days
            [0; 86400000000000] [Num 1; NaN] D true _ _ _ _ _ _);
    [reflexivity|reflexivity|reflexivity|reflexivity|discriminate|discriminate].
Defined.

(** ** [fit], then [make_future_dataframe], then [predict] *)

Lemma fit_trains_run (optimise : svi_outcome) (w : world) (data : ref)
    (f : frame) (ns : list Z) (ys : column) :
  frames w !! data = Some f ->
  is_series (inst w) f = true ->
  lookup_col (time_col_ (inst w)) f = Some (List.map Stamp ns) ->
  lookup_col (target_col_ (inst w)) f = Some ys ->
  time_col_ (inst w) <> target_col_ (inst w) ->
  has_name (method_ (inst w)) ["MLE"; "MAP"] = true ->
  0 < n_iter_ (inst w) ->
  ys <> [] ->
  fst (optimise (fst (point_model (method_ (inst w))))
                (snd (point_model (method_ (inst w))))
                (design_matrix (inst w) f ns) (List.map astype_float ys)) = Ok tt ->
  fit optimise data w = (Ok tt, after_fit optimise w f ns ys).
Proof.
  intros Hd Hs Ht Hy Hne Hmeth Hiter Hys Hopt.
  rewrite (fit_run optimise w data f ns ys Hd Hs Ht Hy Hne Hmeth).
  unfold train_point_estimate.
  cbn [bind M_monad get_self clear_param_store inst with_model n_iter_ with_X_names
       with_history].
  destruct (Z.leb_spec (n_iter_ (inst w)) 0) as [Hle|_]; [lia|].
  cbn [store_params]. unfold lift. rewrite Hopt, length_map.
  destruct ys as [|y0 ys]; [congruence|]. reflexivity.
Qed.

Lemma concat_future_frame (self : Chronos) (f : frame) (new : list Z) :
  time_col_ self <> target_col_ self ->
  has_name (time_col_ self) (names f) = true ->
  has_name (target_col_ self) (names f) = true ->
  concat_frames f (future_frame self new)
  = List.map (fun nc => (fst nc,
                         snd nc ++ if String.eqb (fst nc) (time_col_ self)
                                   then List.map Stamp new
                                   else repeat NaN (length new))) f.
Proof.
  intros Hne Ht Hy. unfold concat_frames.
  assert (Hf : List.filter (fun nc => negb (has_name (fst nc) (names f)))
                           (future_frame self new) = []).
  { rewrite future_frame_cols by exact Hne. cbn [List.filter fst].
    rewrite Ht, Hy. reflexivity. }
  rewrite Hf. cbn [List.map]. rewrite app_nil_r.
  apply List.map_ext. intros [n c]. cbn [fst snd]. f_equal. f_equal.
  rewrite lookup_future_frame, nrows_future_frame by exact Hne.
  rewrite (String.eqb_sym n).
  destruct (String.eqb (time_col_ self) n); [reflexivity|].
  destruct (String.eqb (target_col_ self) n); reflexivity.
Qed.

Lemma is_datetime_app (c d : column) :
  is_datetime (c ++ d) = is_datetime c && is_datetime d.
Proof. unfold is_datetime. apply forallb_app. Qed.

Lemma is_numeric_app (c d : column) :
  is_numeric (c ++ d) = is_numeric c && is_numeric d.
Proof. unfold is_numeric. apply forallb_app. Qed.

Lemma is_numeric_missing (k : nat) : is_numeric (repeat NaN k) = true.
Proof. induction k as [|k IH]; [reflexivity|exact IH]. Qed.

Lemma is_datetime_map_Stamp (l : list Z) : is_datetime (List.map Stamp l) = true.
Proof. induction l as [|x l IH]; [reflexivity|exact IH]. Qed.

(** The history with the future rows is a series again. *)
Lemma is_series_future (self : Chronos) (f : frame) (new : list Z) :
  is_series self f = true ->
  time_col_ self <> target_col_ self ->
  has_name (target_col_ self) (names f) = true ->
  is_series self (concat_frames f (future_frame self new)) = true.
Proof.
  intros Hs Hne Hy. unfold is_series, fresh_names in *.
  rewrite !andb_true_iff in Hs. destruct Hs as [[[Hdist Hfresh] Htime] Hcols].
  rewrite (names_future self f new Hne Htime Hy).
  rewrite Hdist, Hfresh, Htime. cbn [andb].
  rewrite (concat_future_frame self f new Hne Htime Hy).
  rewrite forallb_forall in *. intros [n c] Hin. apply in_map_iff in Hin.
  destruct Hin as ([n0 c0] & E & Hin). cbn [fst snd] in E. injection E as <- <-.
  specialize (Hcols (n0, c0) Hin). cbn [fst snd] in *.
  destruct (String.eqb n0 (time_col_ self)).
  - rewrite is_datetime_app, Hcols. apply is_datetime_map_Stamp.
  - rewrite is_numeric_app, Hcols. apply is_numeric_missing.
Qed.

Lemma has_name_methods (method : string) :
  has_name method ["MAP"; "MLE"] = has_name method ["MLE"; "MAP"].
Proof. cbn [has_name existsb]. rewrite !orb_false_r. apply orb_comm. Qed.

(** X17. The three calls of the documented use, one after the other:
    [fit] on a rectangular series, [make_future_dataframe] on the fitted
    instance, [predict] on the frame this returns.  When the SVI steps
    complete, the future stamps do not pass [Timestamp.max], [Predictive]
    completes and the lower rank is at least 1, each call returns, and the
    prediction has the rows of the data and [period] more: its time column
    is the stamps of the data then the future stamps, and the last
    [period] values of its y column are missing. *)
Theorem fit_future_predict (optimise : svi_outcome) (predictive : predictive_draw)
    (w : world) (data : ref) (f : frame) (ns : list Z) (ys : column) (mx period : Z)
    (frequency : freq) (include_history : bool) (sample_number : nat) (ci_interval : Q)
    (rank : Z) :
  frames w !! data = Some f ->
  is_series (inst w) f = true ->
  rectangular f ->
  lookup_col (time_col_ (inst w)) f = Some (List.map Stamp ns) ->
  lookup_col (target_col_ (inst w)) f = Some ys ->
  time_col_ (inst w) <> target_col_ (inst w) ->
  has_name (time_col_ (inst w)) prediction_names = false ->
  has_name (method_ (inst w)) ["MLE"; "MAP"] = true ->
  0 < n_iter_ (inst w) ->
  fst (optimise (fst (point_model (method_ (inst w))))
                (snd (point_model (method_ (inst w))))
                (design_matrix (inst w) f ns) (List.map astype_float ys)) = Ok tt ->
  stamp_max ns = Some mx ->
  0 <= period ->
  mx + period * step_ns frequency <= timestamp_max ->
  draws predictive (fst (point_model (method_ (inst w))))
        (snd (point_model (method_ (inst w)))) sample_number
        (nrows f + Z.to_nat period) ->
  (0 < ci_interval)%Q -> (ci_interval < 1)%Q ->
  Z.of_nat sample_number < 2 ^ 53 ->
  lower_ntile sample_number ci_interval = Ok rank -> 1 <= rank ->
  exists (w1 : world) (future : ref) (w2 : world) (r : ref) (w3 : world) (preds : frame)
         (y : column),
    fit optimise data w = (Ok tt, w1)
    /\ make_future_dataframe period frequency include_history w1 = (Ok future, w2)
    /\ predict predictive future sample_number ci_interval w2 = (Ok r, w3)
    /\ frames w3 !! r = Some preds
    /\ nrows preds = (nrows f + Z.to_nat period)%nat
    /\ lookup_col (time_col_ (inst w)) preds
       = Some (List.map Stamp
                 (ns ++ List.map (fun k => mx + k * step_ns frequency)
                                 (range 1 (period + 1))))
    /\ lookup_col "y" preds = Some (y ++ repeat NaN (Z.to_nat period))
    /\ length y = nrows f.
Proof.
  intros Hd Hs Hrect Ht Hy Hne Hpn Hmeth Hiter Hopt Hmx Hp Hlast Hshape Hci0 Hci1 Hbig
         Hrank Hlow.
  assert (Hns : ns <> []) by (intros ->; discriminate Hmx).
  assert (Hlen_ns : length ns = nrows f).
  { rewrite <- (length_map Stamp ns).
    apply (rectangular_In f (time_col_ (inst w))); [exact Hrect|].
    apply lookup_col_In. exact Ht. }
  assert (Hlen_ys : length ys = nrows f).
  { apply (rectangular_In f (target_col_ (inst w))); [exact Hrect|].
    apply lookup_col_In. exact Hy. }
  assert (Hys : ys <> []).
  { intros ->. destruct ns; [congruence|]. cbn [length] in *. lia. }
  assert (Htime : has_name (time_col_ (inst w)) (names f) = true)
    by (eapply lookup_col_has_name; exact Ht).
  assert (Hyn : has_name (target_col_ (inst w)) (names f) = true)
    by (eapply lookup_col_has_name; exact Hy).
  destruct (future_stamps_sorted ns mx period frequency Hmx Hp) as (Hlen & _ & _).
  assert (Hnew := future_stamps_spec ns mx period frequency Hmx Hp).
  set (new := future_stamps ns period frequency) in *.
  (* fit *)
  set (w1 := after_fit optimise w f ns ys).
  assert (Hfit : fit optimise data w = (Ok tt, w1))
    by (apply fit_trains_run; assumption).
  (* make_future_dataframe *)
  set (out := concat_frames f (future_frame (inst w) new)).
  set (w2 := set_frames (frames w1 ++ [future_frame (inst w) new; f; out]) w1).
  assert (Hfuture : make_future_dataframe period frequency include_history w1
                    = (Ok (length (frames w1) + 2)%nat, w2)).
  { apply (make_future_dataframe_run w1 (length (frames w)) f ns period frequency
             include_history); [reflexivity| |exact Ht|exact Hns|lia|].
    - unfold w1, after_fit. cbn [frames].
      change (frames w ++ [f; with_helpers (inst w) f ns; transformed (inst w) f ns;
                           features (inst w) f ns])
        with (frames w ++ [f] ++ [with_helpers (inst w) f ns; transformed (inst w) f ns;
                                  features (inst w) f ns]).
      rewrite app_assoc. apply lookup_app_l_Some. apply lookup_snoc.
    - intros mx' Hmx' _. rewrite Hmx in Hmx'. injection Hmx' as <-. exact Hlast. }
  (* predict *)
  assert (Hout : frames w2 !! (length (frames w1) + 2)%nat = Some out).
  { unfold w2. cbn [frames set_frames].
    replace (length (frames w1) + 2)%nat
      with (length (frames w1 ++ [future_frame (inst w) new; f]))
      by (rewrite length_app; reflexivity).
    change (frames w1 ++ [future_frame (inst w) new; f; out])
      with (frames w1 ++ [future_frame (inst w) new; f] ++ [out]).
    rewrite app_assoc. apply lookup_snoc. }
  assert (Hrows : nrows out = (nrows f + Z.to_nat period)%nat).
  { rewrite <- Hlen.
    apply (nrows_concat_frames f (future_frame (inst w) new) _ _ Ht Hrect).
    - rewrite future_frame_cols by exact Hne.
      intros n' c' [E|[E|[]]]; injection E as _ <-;
        [apply length_map|apply repeat_length].
    - apply nrows_future_frame. exact Hne. }
  assert (Hs2 : is_series (inst w) out = true)
    by exact (is_series_future (inst w) f new Hs Hne Hyn).
  assert (Ht2 : lookup_col (time_col_ (inst w)) out = Some (List.map Stamp (ns ++ new)))
    by exact (lookup_future_time (inst w) f ns new Hne Ht).
  assert (Hy2 : lookup_col (target_col_ (inst w)) out
                = Some (ys ++ repeat NaN (length new))).
  { apply (lookup_future_rows (inst w) f new); [exact Hne|congruence|exact Hy]. }
  assert (Hmeth2 : has_name (method_ (inst w)) ["MAP"; "MLE"] = true)
    by (rewrite has_name_methods; exact Hmeth).
  assert (Hshape2 : draws predictive (fst (point_model (method_ (inst w))))
                          (snd (point_model (method_ (inst w)))) sample_number (nrows out))
    by (rewrite Hrows; exact Hshape).
  destruct (predict_returns predictive w2 (length (frames w1) + 2)%nat out (ns ++ new)
              (ys ++ repeat NaN (length new))
              (fst (point_model (method_ (inst w)))) (snd (point_model (method_ (inst w))))
              sample_number ci_interval rank Hout Hs2 Ht2 Hy2 Hne Hpn Hmeth2 eq_refl eq_refl
              Hshape2 Hci0 Hci1 Hbig Hrank Hlow)
    as (w3 & samples & lo & hi & _ & Hrun & Hframe & _).
  exists w1, (length (frames w1) + 2)%nat, w2, (length (frames w2) + 4)%nat, w3.
  eexists. exists (List.map astype_float ys).
  split; [exact Hfit|]. split; [exact Hfuture|]. split; [exact Hrun|].
  split; [exact Hframe|].
  unfold prediction_names in Hpn. cbn [has_name existsb] in Hpn.
  apply orb_false_iff in Hpn. destruct Hpn as [Hty _].
  unfold predictions. cbn [nrows lookup_col inst w2 w1 after_fit set_frames with_model
                           with_X_names with_history time_col_].
  rewrite String.eqb_refl, Hty. cbn [String.eqb Ascii.eqb Bool.eqb].
  split; [rewrite length_map, length_app; lia|].
  split; [rewrite Hnew; reflexivity|].
  split; [|rewrite length_map; exact Hlen_ys].
  rewrite List.map_app, <- Hlen. f_equal. f_equal. clear.
  induction (length new) as [|k IH]; [reflexivity|].
  cbn [repeat List.map astype_float]. rewrite IH. reflexivity.
Qed.

Lemma draw_constant_shape (rows n : nat) (m : model_fn) (g : guide_fn) :
  draws (draw_constant rows) m g n rows.
Proof.
  intros X. eexists. split; [reflexivity|]. split; [apply repeat_length|].
  apply List.Forall_forall. intros s Hs. apply repeat_spec in Hs. subst s.
  apply repeat_length.
Qed.

Lemma rectangular_two_observed : rectangular two_observed.
Proof. repeat constructor. Qed.

Lemma fit_future_predict_witness :
  exists (w1 : world) (future : ref) (w2 : world) (r : ref) (w3 : world) (preds : frame)
         (y : column),
    fit trained_zeros 0%nat (world_of one_harmonic two_observed) = (Ok tt, w1)
    /\ make_future_dataframe 2 D true w1 = (Ok future, w2)
    /\ predict (draw_constant 4) future 100%nat 0.95%Q w2 = (Ok r, w3)
    /\ frames w3 !! r = Some preds
    /\ nrows preds = 4%nat
    /\ lookup_col "ds" preds
       = Some (List.map Stamp
                 ([0; 86400000000000]
                  ++ List.map (fun k => 86400000000000 + k * step_ns D) (range 1 (2 + 1))))
    /\ lookup_col "y" preds = Some (y ++ [NaN; NaN])
    /\ length y = 2%nat.
Proof.
  refine (fit_future_predict trained_zeros (draw_constant 4)
            (world_of one_harmonic two_observed)
            0%nat two_observed [0; 86400000000000] [Num 1; Num 2] 86400000000000 2 D true
            100%nat 0.95%Q 2 _ _ _ _ _ _ _ _ _ _ _ _ _ _ _ _ _ _ _);
    [reflexivity|vm_compute; reflexivity|exact rectangular_two_observed|reflexivity
    |reflexivity|discriminate|reflexivity|reflexivity|reflexivity|reflexivity|reflexivity
    |lia|vm_compute; discriminate
    |exact (draw_constant_shape 4 100 model_MLE_ guide_MLE_)
    |reflexivity|reflexivity|vm_compute; reflexivity|vm_compute; reflexivity|lia].
Defined.

(** ** Seasonality decomposition: values and failures *)

Lemma reshape2_odd (l : list R) :
  Nat.odd (length l) = true ->
  reshape2 l = Raise (ValueError "cannot reshape array into shape (2)").
Proof.
  revert l. fix IH 1. intros [|a [|b l]]; cbn [length]; intros Hodd.
  - discriminate Hodd.
  - reflexivity.
  - cbn [reshape2 bind result_monad rbind]. rewrite IH; [reflexivity|].
    rewrite Nat.odd_succ, Nat.even_succ in Hodd. exact Hodd.
Qed.

Lemma tagged_params_short (tag : string) (X : list string) (params : list R) (i : nat) :
  (i <= length X)%nat ->
  (length X < i + length params)%nat ->
  tagged_params tag X i params = Raise (IndexError "index out of bounds").
Proof.
  revert i. induction params as [|p ps IH]; intros i Hi Hlen; cbn [length] in Hlen; [lia|].
  cbn [tagged_params]. destruct (X !! i) as [n|] eqn:E; [|reflexivity].
  apply lookup_lt_Some in E. rewrite IH by lia. reflexivity.
Qed.

(** X19. The coefficients of a season are those whose feature name
    contains the tag of the season, read as (sine, cosine) pairs. When
    their number is odd, as with one regressor whose name contains the
    tag, the decomposition does not return: the reshape into pairs raises
    a value error. This is the common body of the three
    [get_*_seasonality_point]. *)
Theorem decomposition_odd_coefficients (tag : string) (ndays : Z) (period : R)
    (dayname : string) (offset : Z) (param_name : string) (w : world) (X : list string)
    (params tagged : list R) :
  param_store w !! param_name = Some params ->
  X_names (inst w) = Some X ->
  tagged_params tag X 0 params = Ok tagged ->
  Nat.odd (length tagged) = true ->
  seasonality_point tag ndays period dayname offset param_name w
  = (Raise (ValueError "cannot reshape array into shape (2)"), w).
Proof.
  intros Hp HX Htag Hodd. unfold seasonality_point.
  cbn [bind M_monad get_self pyro_param]. rewrite Hp, HX. unfold lift.
  cbn [getattr_opt]. rewrite Htag, (reshape2_odd tagged Hodd). reflexivity.
Qed.

Lemma decomposition_odd_coefficients_witness :
  get_weekly_seasonality_point "betas" regressor_world
  = (Raise (ValueError "cannot reshape array into shape (2)"), regressor_world).
Proof.
  refine (decomposition_odd_coefficients "weekly" 7 7 "Weekday" 0 "betas" regressor_world
            ["CONST"; "ds"; "weekly_sales"; "weekly_sin_1"; "weekly_cos_1"]
            [1; 2; 3; 4; 5]%R [3; 4; 5]%R _ _ _ _); reflexivity.
Defined.

(** X20. When the store holds more coefficients than the instance has
    feature names, as after another instance with more features was
    trained, the decomposition raises an index error at the first
    coefficient without a name. *)
Theorem decomposition_more_coefficients (tag : string) (ndays : Z) (period : R)
    (dayname : string) (offset : Z) (param_name : string) (w : world) (X : list string)
    (params : list R) :
  param_store w !! param_name = Some params ->
  X_names (inst w) = Some X ->
  (length X < length params)%nat ->
  exists msg : string,
    seasonality_point tag ndays period dayname offset param_name w
    = (Raise (IndexError msg), w).
Proof.
  intros Hp HX Hlen. eexists. unfold seasonality_point.
  cbn [bind M_monad get_self pyro_param]. rewrite Hp, HX. unfold lift.
  cbn [getattr_opt]. rewrite tagged_params_short by (simpl; lia). reflexivity.
Qed.

Lemma decomposition_more_coefficients_witness :
  exists msg : string,
    get_yearly_seasonality_point "betas"
      {| frames := []; inst := with_X_names ["CONST"; "ds"] fitted_mle;
         param_store := <["betas" := [1; 2; 3]%R]> ∅ |}
    = (Raise (IndexError msg),
       {| frames := []; inst := with_X_names ["CONST"; "ds"] fitted_mle;
          param_store := <["betas" := [1; 2; 3]%R]> ∅ |}).
Proof.
  refine (decomposition_more_coefficients "yearly" 366 366 "Yearday" 1 "betas"
            {| frames := []; inst := with_X_names ["CONST"; "ds"] fitted_mle;
               param_store := <["betas" := [1; 2; 3]%R]> ∅ |}
            ["CONST"; "ds"] [1; 2; 3]%R _ _ _); [reflexivity|reflexivity|simpl; lia].
Defined.

(** ** The decomposition of a fitted instance *)

Lemma index_absent (c : ascii) (p s : string) :
  occurs c s = false -> String.index 0 (String c p) s = None.
Proof.
  induction s as [|b s IH]; intros Hc; [reflexivity|].
  cbn [occurs] in Hc. apply orb_false_iff in Hc. destruct Hc as [Hb Hs].
  cbn [String.index String.prefix].
  destruct (ascii_dec c b) as [->|_]; [rewrite Ascii.eqb_refl in Hb; discriminate Hb|].
  rewrite (IH Hs). reflexivity.
Qed.

Lemma occurs_digits (c : ascii) (d : Decimal.uint) :
  In c ["y"; "m"; "w"]%char -> occurs c (NilEmpty.string_of_uint d) = false.
Proof.
  intros [<-|[<-|[<-|[]]]]; induction d; cbn [NilEmpty.string_of_uint occurs]; 
    try rewrite IHd; reflexivity.
Qed.

Lemma occurs_str_int (c : ascii) (i : Z) :
  In c ["y"; "m"; "w"]%char -> occurs c (str_int i) = false.
Proof.
  intros Hc. unfold str_int, NilZero.string_of_int, NilZero.string_of_uint.
  assert (H0 : occurs c "0" = false) by (destruct Hc as [<-|[<-|[<-|[]]]]; reflexivity).
  assert (Hm : Ascii.eqb c "-" = false) by (destruct Hc as [<-|[<-|[<-|[]]]]; reflexivity).
  destruct (Z.to_int i) as [d|d]; cbn [occurs]; rewrite ?Hm; cbn [orb];
    destruct d; try exact H0; apply occurs_digits; exact Hc.
Qed.

(** A harmonic name contains the tag of its season and of no other. *)
Lemma str_in_harmonic (tag tag' : string) (i : Z) :
  In tag season_tags -> In tag' season_tags ->
  str_in tag (sin_name tag' i) = String.eqb tag tag'
  /\ str_in tag (cos_name tag' i) = String.eqb tag tag'.
Proof.
  unfold season_tags, str_in, sin_name, cos_name.
  assert (Hy := occurs_str_int "y" i). assert (Hm := occurs_str_int "m" i).
  assert (Hw := occurs_str_int "w" i).
  specialize (Hy ltac:(cbn; tauto)). specialize (Hm ltac:(cbn; tauto)).
  specialize (Hw ltac:(cbn; tauto)).
  revert Hy Hm Hw. generalize (str_int i) as d. intros d Hy Hm Hw.
  intros [<-|[<-|[<-|[]]]] [<-|[<-|[<-|[]]]];
    cbv [String.append]; simpl;
    rewrite ?(index_absent _ _ d Hy), ?(index_absent _ _ d Hm), ?(index_absent _ _ d Hw);
    split; reflexivity.
Qed.

(** The loop over the coefficients, along a stretch of names that do not
    contain the tag, and along one whose names all contain it. *)
Lemma tagged_params_skip (tag : string) (X : list string) (ps qs : list R) (i : nat) :
  (forall k n, (i <= k < i + length ps)%nat -> X !! k = Some n -> str_in tag n = false) ->
  (i + length ps <= length X)%nat ->
  tagged_params tag X i (ps ++ qs) = tagged_params tag X (i + length ps) qs.
Proof.
  revert i. induction ps as [|p ps IH]; intros i Hn Hlen; cbn [length] in *.
  - rewrite Nat.add_0_r. reflexivity.
  - cbn [app tagged_params].
    destruct (X !! i) as [n|] eqn:E; [|apply lookup_ge_None in E; lia].
    rewrite IH; [|intros k m Hk; apply Hn; lia|lia].
    rewrite (Hn i n) by (lia || exact E).
    replace (Datatypes.S i + length ps)%nat with (i + Datatypes.S (length ps))%nat by lia.
    destruct (tagged_params tag X (i + Datatypes.S (length ps)) qs); reflexivity.
Qed.

Lemma tagged_params_keep (tag : string) (X : list string) (ps qs : list R) (i : nat) :
  (forall k n, (i <= k < i + length ps)%nat -> X !! k = Some n -> str_in tag n = true) ->
  (i + length ps <= length X)%nat ->
  tagged_params tag X i (ps ++ qs)
  = rbind (tagged_params tag X (i + length ps) qs) (fun rest => Ok (ps ++ rest)).
Proof.
  revert i. induction ps as [|p ps IH]; intros i Hn Hlen; cbn [length] in *.
  - rewrite Nat.add_0_r. cbn [app]. destruct (tagged_params tag X i qs); reflexivity.
  - cbn [app tagged_params].
    destruct (X !! i) as [n|] eqn:E; [|apply lookup_ge_None in E; lia].
    rewrite IH; [|intros k m Hk; apply Hn; lia|lia].
    rewrite (Hn i n) by (lia || exact E).
    replace (Datatypes.S i + length ps)%nat with (i + Datatypes.S (length ps))%nat by lia.
    destruct (tagged_params tag X (i + Datatypes.S (length ps)) qs); reflexivity.
Qed.

Lemma length_flatten_pairs (pairs : list (R * R)) :
  length (flatten_pairs pairs) = (2 * length pairs)%nat.
Proof.
  unfold flatten_pairs. induction pairs as [|p ps IH]; [reflexivity|].
  cbn [flat_map app length]. rewrite IH. lia.
Qed.

Lemma str_in_season_names (tag tag' : string) (order : Z) (n : string) :
  In tag season_tags -> In tag' season_tags ->
  In n (season_names tag' order) -> str_in tag n = String.eqb tag tag'.
Proof.
  intros Ht Ht' Hn. unfold season_names in Hn. apply in_flat_map in Hn.
  destruct Hn as (i & _ & [<-|[<-|[]]]); apply str_in_harmonic; assumption.
Qed.

(** The coefficients of one season among those of a fitted instance: the
    feature names are CONST, the regressors, then the harmonic names of the
    year, the month and the week. *)
Lemma tagged_params_fitted (self : Chronos) (f : frame) (tag : string) (c0 : R)
    (bf : list R) (yearly monthly weekly : list (R * R)) :
  In tag season_tags ->
  (forall n t, In n (names f) -> In t season_tags -> str_in t n = false) ->
  length bf
  = length (List.filter (fun n => negb (String.eqb n (target_col_ self))) (names f)) ->
  length yearly = Z.to_nat (year_seasonality_order_ self) ->
  length monthly = Z.to_nat (month_seasonality_order_ self) ->
  length weekly = Z.to_nat (weekly_seasonality_order_ self) ->
  tagged_params tag (feature_names self f) 0
    (c0 :: bf ++ flatten_pairs yearly ++ flatten_pairs monthly ++ flatten_pairs weekly)
  = Ok (flatten_pairs
          (if String.eqb tag "yearly" then yearly
           else if String.eqb tag "monthly" then monthly else weekly)).
Proof.
  intros Htag Hf Hbf HY HM HW.
  set (F := List.filter (fun n => negb (String.eqb n (target_col_ self))) (names f)) in *.
  set (Yn := season_names "yearly" (year_seasonality_order_ self)).
  set (Mn := season_names "monthly" (month_seasonality_order_ self)).
  set (Wn := season_names "weekly" (weekly_seasonality_order_ self)).
  assert (HX : feature_names self f = ["CONST"] ++ F ++ Yn ++ Mn ++ Wn) by reflexivity.
  assert (HlY : length Yn = length (flatten_pairs yearly))
    by (unfold Yn; rewrite length_season_names, length_flatten_pairs; lia).
  assert (HlM : length Mn = length (flatten_pairs monthly))
    by (unfold Mn; rewrite length_season_names, length_flatten_pairs; lia).
  assert (HlW : length Wn = length (flatten_pairs weekly))
    by (unfold Wn; rewrite length_season_names, length_flatten_pairs; lia).
  assert (HF : forall n, In n F -> str_in tag n = false).
  { intros n Hn. apply List.filter_In in Hn. apply Hf; [exact (proj1 Hn)|exact Htag]. }
  assert (HC : str_in tag "CONST" = false)
    by (destruct Htag as [<-|[<-|[<-|[]]]]; reflexivity).
  assert (HYn : forall n, In n Yn -> str_in tag n = String.eqb tag "yearly")
    by (intros n; apply str_in_season_names; [exact Htag|cbn; tauto]).
  assert (HMn : forall n, In n Mn -> str_in tag n = String.eqb tag "monthly")
    by (intros n; apply str_in_season_names; [exact Htag|cbn; tauto]).
  assert (HWn : forall n, In n Wn -> str_in tag n = String.eqb tag "weekly")
    by (intros n; apply str_in_season_names; [exact Htag|cbn; tauto]).
  (* where a name of the list comes from, by its index *)
  assert (Hwhere : forall k n, feature_names self f !! k = Some n ->
             (k = 0%nat /\ n = "CONST")
             \/ ((1 <= k < 1 + length F)%nat /\ In n F)
             \/ ((1 + length F <= k < 1 + length F + length Yn)%nat /\ In n Yn)
             \/ ((1 + length F + length Yn <= k
                  < 1 + length F + length Yn + length Mn)%nat /\ In n Mn)
             \/ ((1 + length F + length Yn + length Mn <= k)%nat /\ In n Wn)).
  { intros k n. rewrite HX. intros Hk.
    apply lookup_app_Some in Hk. destruct Hk as [Hk|[Hk1 Hk]].
    { left. destruct k; [|discriminate Hk]. injection Hk as <-. auto. }
    cbn [length] in *. right.
    apply lookup_app_Some in Hk. destruct Hk as [Hk|[Hk2 Hk]].
    { left. split; [apply lookup_lt_Some in Hk; lia|].
      apply list_elem_of_In. eapply list_elem_of_lookup_2. exact Hk. }
    right. apply lookup_app_Some in Hk. destruct Hk as [Hk|[Hk3 Hk]].
    { left. split; [apply lookup_lt_Some in Hk; lia|].
      apply list_elem_of_In. eapply list_elem_of_lookup_2. exact Hk. }
    right. apply lookup_app_Some in Hk. destruct Hk as [Hk|[Hk4 Hk]].
    { left. split; [apply lookup_lt_Some in Hk; lia|].
      apply list_elem_of_In. eapply list_elem_of_lookup_2. exact Hk. }
    right. split; [lia|].
    apply list_elem_of_In. eapply list_elem_of_lookup_2. exact Hk. }
  assert (Hlen : length (feature_names self f)
                 = (1 + length F + length Yn + length Mn + length Wn)%nat).
  { rewrite HX, !length_app. cbn [length]. lia. }
  change (c0 :: bf ++ flatten_pairs yearly ++ flatten_pairs monthly ++ flatten_pairs weekly)
    with ([c0] ++ bf ++ flatten_pairs yearly ++ flatten_pairs monthly
               ++ flatten_pairs weekly).
  (* CONST and the regressors *)
  rewrite tagged_params_skip; cbn [length];
    [|intros k n Hk Hn; destruct (Hwhere k n Hn) as [[_ ->]|[[? _]|[[? _]|[[? _]|[? _]]]]];
      [exact HC|lia..]|lia].
  rewrite tagged_params_skip;
    [|intros k n Hk Hn; destruct (Hwhere k n Hn) as [[? _]|[[_ ?]|[[? _]|[[? _]|[? _]]]]];
      [lia|auto|lia..]|lia].
  destruct Htag as [<-|[<-|[<-|[]]]]; cbn [String.eqb Ascii.eqb Bool.eqb].
  - (* yearly *)
    rewrite tagged_params_keep;
      [|intros k n Hk Hn; destruct (Hwhere k n Hn) as [[? _]|[[? _]|[[_ ?]|[[? _]|[? _]]]]];
        [lia|lia|rewrite HYn by assumption; reflexivity|lia..]|lia].
    rewrite tagged_params_skip;
      [|intros k n Hk Hn; destruct (Hwhere k n Hn) as [[? _]|[[? _]|[[? _]|[[_ ?]|[? _]]]]];
        [lia|lia|lia|rewrite HMn by assumption; reflexivity|lia]|lia].
    rewrite <- (app_nil_r (flatten_pairs weekly)) at 1.
    rewrite tagged_params_skip;
      [|intros k n Hk Hn; destruct (Hwhere k n Hn) as [[? _]|[[? _]|[[? _]|[[? _]|[_ ?]]]]];
        [lia|lia|lia|lia|rewrite HWn by assumption; reflexivity]|lia].
    cbn [tagged_params rbind]. rewrite app_nil_r. reflexivity.
  - (* monthly *)
    rewrite tagged_params_skip;
      [|intros k n Hk Hn; destruct (Hwhere k n Hn) as [[? _]|[[? _]|[[_ ?]|[[? _]|[? _]]]]];
        [lia|lia|rewrite HYn by assumption; reflexivity|lia..]|lia].
    rewrite tagged_params_keep;
      [|intros k n Hk Hn; destruct (Hwhere k n Hn) as [[? _]|[[? _]|[[? _]|[[_ ?]|[? _]]]]];
        [lia|lia|lia|rewrite HMn by assumption; reflexivity|lia]|lia].
    rewrite <- (app_nil_r (flatten_pairs weekly)) at 1.
    rewrite tagged_params_skip;
      [|intros k n Hk Hn; destruct (Hwhere k n Hn) as [[? _]|[[? _]|[[? _]|[[? _]|[_ ?]]]]];
        [lia|lia|lia|lia|rewrite HWn by assumption; reflexivity]|lia].
    cbn [tagged_params rbind]. rewrite app_nil_r. reflexivity.
  - (* weekly *)
    rewrite tagged_params_skip;
      [|intros k n Hk Hn; destruct (Hwhere k n Hn) as [[? _]|[[? _]|[[_ ?]|[[? _]|[? _]]]]];
        [lia|lia|rewrite HYn by assumption; reflexivity|lia..]|lia].
    rewrite tagged_params_skip;
      [|intros k n Hk Hn; destruct (Hwhere k n Hn) as [[? _]|[[? _]|[[? _]|[[_ ?]|[? _]]]]];
        [lia|lia|lia|rewrite HMn by assumption; reflexivity|lia]|lia].
    rewrite <- (app_nil_r (flatten_pairs weekly)) at 1.
    rewrite tagged_params_keep;
      [|intros k n Hk Hn; destruct (Hwhere k n Hn) as [[? _]|[[? _]|[[? _]|[[? _]|[_ ?]]]]];
        [lia|lia|lia|lia|rewrite HWn by assumption; reflexivity]|lia].
    cbn [tagged_params rbind]. rewrite app_nil_r. reflexivity.
Qed.

(** X21. The decompositions of a fitted instance read the right
    coefficients. When the feature names are those that [fit] stores
    (CONST, the regressors, the harmonic names of the year, of the month
    and of the week), no column of the data has a name that contains
    "yearly", "monthly" or "weekly", and the coefficient vector has one
    entry per feature, then each decomposition is the harmonic sum over
    the pairs of its own season, and of no other. *)
Theorem fitted_decomposition (w : world) (f : frame) (c0 : R) (bf : list R)
    (yearly monthly weekly : list (R * R)) :
  has_name (method_ (inst w)) ["MAP"; "MLE"] = true ->
  X_names (inst w) = Some (feature_names (inst w) f) ->
  param_store w !! betas_name (method_ (inst w))
  = Some (c0 :: bf ++ flatten_pairs yearly ++ flatten_pairs monthly
             ++ flatten_pairs weekly) ->
  (forall n t, In n (names f) -> In t season_tags -> str_in t n = false) ->
  length bf
  = length (List.filter (fun n => negb (String.eqb n (target_col_ (inst w)))) (names f)) ->
  length yearly = Z.to_nat (year_seasonality_order_ (inst w)) ->
  length monthly = Z.to_nat (month_seasonality_order_ (inst w)) ->
  length weekly = Z.to_nat (weekly_seasonality_order_ (inst w)) ->
  get_weekly_seasonality w
  = (Ok (length (frames w)),
     set_frames (frames w ++ [seasonality_table "Weekday" 0 7 7 weekly]) w)
  /\ get_monthly_seasonality w
     = (Ok (length (frames w)),
        set_frames (frames w ++ [seasonality_table "Monthday" 1 31 30 monthly]) w)
  /\ get_yearly_seasonality w
     = (Ok (length (frames w)),
        set_frames (frames w ++ [seasonality_table "Yearday" 1 366 366 yearly]) w).
Proof.
  intros Hmeth HX Hp Hf Hbf HY HM HW.
  assert (Htag : forall tag, In tag season_tags ->
             tagged_params tag (feature_names (inst w) f) 0
               (c0 :: bf ++ flatten_pairs yearly ++ flatten_pairs monthly
                   ++ flatten_pairs weekly)
             = Ok (flatten_pairs
                     (if String.eqb tag "yearly" then yearly
                      else if String.eqb tag "monthly" then monthly else weekly))).
  { intros tag Ht. apply tagged_params_fitted; assumption. }
  split; [|split].
  - unfold get_weekly_seasonality. rewrite getter_dispatch by exact Hmeth.
    apply (seasonality_point_run "weekly" 7 7 "Weekday" 0 _ w _ _ weekly Hp HX).
    apply (Htag "weekly"). cbn. tauto.
  - unfold get_monthly_seasonality. rewrite getter_dispatch by exact Hmeth.
    apply (seasonality_point_run "monthly" 31 30 "Monthday" 1 _ w _ _ monthly Hp HX).
    apply (Htag "monthly"). cbn. tauto.
  - unfold get_yearly_seasonality. rewrite getter_dispatch by exact Hmeth.
    apply (seasonality_point_run "yearly" 366 366 "Yearday" 1 _ w _ _ yearly Hp HX).
    apply (Htag "yearly"). cbn. tauto.
Qed.

Lemma fitted_decomposition_witness :
  get_weekly_seasonality decomposition_world
  = (Ok 0%nat,
     set_frames [seasonality_table "Weekday" 0 7 7 [(7, 8)%R]] decomposition_world)
  /\ get_monthly_seasonality decomposition_world
     = (Ok 0%nat,
        set_frames [seasonality_table "Monthday" 1 31 30 [(5, 6)%R]] decomposition_world)
  /\ get_yearly_seasonality decomposition_world
     = (Ok 0%nat,
        set_frames [seasonality_table "Yearday" 1 366 366 [(3, 4)%R]] decomposition_world).
Proof.
  refine (fitted_decomposition decomposition_world two_days 1%R [2%R]
            [(3, 4)%R] [(5, 6)%R] [(7, 8)%R] _ _ _ _ _ _ _ _);
    [reflexivity|reflexivity|reflexivity| |reflexivity|reflexivity|reflexivity|reflexivity].
  intros n t [<-|[<-|[]]] [<-|[<-|[<-|[]]]]; reflexivity.
Defined.

(** ** [transform_data_]: the week *)

Lemma dayofweek_weeks (n k : Z) :
  Calendar.dayofweek (n + 7 * k * Calendar.ns_per_day) = Calendar.dayofweek n.
Proof.
  unfold Calendar.dayofweek, Calendar.days_of_ns.
  replace (n + 7 * k * Calendar.ns_per_day) with (n + (7 * k) * Calendar.ns_per_day) by ring.
  rewrite Z.div_add by (unfold Calendar.ns_per_day; lia).
  replace (n / Calendar.ns_per_day + 7 * k + 3) with (n / Calendar.ns_per_day + 3 + k * 7)
    by ring.
  apply Z.mod_add. lia.
Qed.

(** X23. The weekly features repeat with the week: two rows whose
    stamps are a whole number of weeks apart hold the same value in every
    weekly sine and cosine column. *)
Theorem transform_data_weekly_period (w : world) (data : ref) (f : frame) (ns : list Z)
    (r1 r2 : nat) (n k : Z) :
  frames w !! data = Some f ->
  lookup_col (time_col_ (inst w)) f = Some (List.map Stamp ns) ->
  fresh_names (inst w) f = true ->
  ns !! r1 = Some n ->
  ns !! r2 = Some (n + 7 * k * Calendar.ns_per_day) ->
  exists (r : ref) (w' : world) (out : frame),
    transform_data_ data w = (Ok r, w')
    /\ frames w' !! r = Some out
    /\ forall i : Z, 1 <= i <= weekly_seasonality_order_ (inst w) ->
         exists (s c : column) (x y : cell),
           lookup_col (sin_name "weekly" i) out = Some s
           /\ lookup_col (cos_name "weekly" i) out = Some c
           /\ s !! r1 = Some x /\ s !! r2 = Some x
           /\ c !! r1 = Some y /\ c !! r2 = Some y.
Proof.
  intros Hd Ht Hfresh H1 H2.
  assert (Htime : has_name (time_col_ (inst w)) (names f) = true)
    by (eapply lookup_col_has_name; exact Ht).
  eexists; eexists; exists (transformed (inst w) f ns).
  split; [exact (transform_data_run w data f ns Hd Ht Hfresh)|].
  split; [apply lookup_snoc2|].
  intros i Hi.
  assert (Hr : In i (range 1 (weekly_seasonality_order_ (inst w) + 1)))
    by (apply In_range; lia).
  destruct (lookup_weekly (inst w) ns i Hr) as [Es Ec].
  assert (Hsh : In (sin_name "weekly" i) (harmonic_names (inst w))).
  { unfold harmonic_names. rewrite !in_app_iff. right. right.
    exact (proj1 (In_season_names "weekly" _ i Hr)). }
  assert (Hch : In (cos_name "weekly" i) (harmonic_names (inst w))).
  { unfold harmonic_names. rewrite !in_app_iff. right. right.
    exact (proj2 (In_season_names "weekly" _ i Hr)). }
  exists (List.map (fun d => Num (sin (phase 7 i d))) (List.map Calendar.dayofweek ns)),
         (List.map (fun d => Num (cos (phase 7 i d))) (List.map Calendar.dayofweek ns)),
         (Num (sin (phase 7 i (Calendar.dayofweek n)))),
         (Num (cos (phase 7 i (Calendar.dayofweek n)))).
  rewrite !lookup_harmonic_transformed by assumption.
  split; [exact Es|]. split; [exact Ec|].
  unfold column. rewrite !lookup_map, H1, H2. cbn [option_map].
  rewrite dayofweek_weeks. repeat split.
Qed.

Lemma transform_data_weekly_period_witness :
  exists (r : ref) (w' : world) (out : frame),
    transform_data_ 0%nat
      (world_of one_harmonic [("ds", [Stamp 0; Stamp 1209600000000000])]) = (Ok r, w')
    /\ frames w' !! r = Some out
    /\ forall i : Z, 1 <= i <= 1 ->
         exists (s c : column) (x y : cell),
           lookup_col (sin_name "weekly" i) out = Some s
           /\ lookup_col (cos_name "weekly" i) out = Some c
           /\ s !! 0%nat = Some x /\ s !! 1%nat = Some x
           /\ c !! 0%nat = Some y /\ c !! 1%nat = Some y.
Proof.
  refine (transform_data_weekly_period
            (world_of one_harmonic [("ds", [Stamp 0; Stamp 1209600000000000])])
            0%nat [("ds", [Stamp 0; Stamp 1209600000000000])] [0; 1209600000000000]
            0%nat 1%nat 0 2 _ _ _ _ _); reflexivity.
Defined.
